(** * llm_client: a shallow embedding of [src/lib/llm_client.py]

    The module is a client of a hosted chat-completion API with a token cache,
    a formatter of database records, a post-processor of answers and a
    keyword-driven simulated responder.

    Text.  A Python [str] is a sequence of code points; here it is a
    [string] whose characters are the code points U+0000..U+00FF, so the
    character classes below are Python's Unicode classes restricted to that
    range ([str.isspace], [str.lower], and [\s], [\d], [\w] of [re]).

    Numbers.  A Python [int] is an integer of [Z]; a Python [float] is an
    IEEE 754 binary64 number, a [spec_float] of precision 53 and exponents up
    to 1024, with the arithmetic of the Standard Library's [SpecFloat].

    Effects.  Files, the clock, the token endpoint and the completion endpoint
    are an explicit environment and state; a raised exception is the [Raise]
    result.  Diagnostics printed to the error stream are left out. *)

From Stdlib Require Import Bool Arith List ZArith Lia Ascii String DecimalString SpecFloat.
Import ListNotations.
Open Scope string_scope.

(** ** Characters *)

Definition ord (c : ascii) : nat := nat_of_ascii c.

Definition between (lo hi n : nat) : bool := Nat.leb lo n && Nat.leb n hi.

(** [str.isspace] on one character, which is also [\s] and the set removed by
    [str.strip()]: U+0009..U+000D, U+001C..U+0020, U+0085, U+00A0. *)
Definition isspace (c : ascii) : bool :=
  between 9 13 (ord c) || between 28 32 (ord c) || Nat.eqb (ord c) 133 || Nat.eqb (ord c) 160.

(** [\d]: the decimal digits. *)
Definition isdecimal (c : ascii) : bool := between 48 57 (ord c).

(** [\w]: alphanumeric characters and the underscore. *)
Definition isword (c : ascii) : bool :=
  let n := ord c in
  between 48 57 n || between 65 90 n || Nat.eqb n 95 || between 97 122 n
  || Nat.eqb n 170 || Nat.eqb n 178 || Nat.eqb n 179 || Nat.eqb n 181 || Nat.eqb n 185
  || Nat.eqb n 186 || between 188 190 n || between 192 214 n
  || between 216 246 n || between 248 255 n.

(** [[\w\.]] *)
Definition isword_or_dot (c : ascii) : bool := isword c || Nat.eqb (ord c) 46.

(** [str.lower] on one character: A..Z and U+00C0..U+00DE except U+00D7. *)
Definition lower_char (c : ascii) : ascii :=
  let n := ord c in
  if between 65 90 n || (between 192 222 n && negb (Nat.eqb n 215))
  then ascii_of_nat (n + 32) else c.

(** Case folding of [re.IGNORECASE] against a pattern letter of A..Z, a..z:
    among the characters U+0000..U+00FF only the two ASCII cases of the letter
    match it.  (Beyond that range [re.IGNORECASE] also matches U+0130 and
    U+0131 against [I] and [i], U+017F against [S] and U+212A against [K];
    these characters are outside the text modelled here.) *)
Definition fold_char (c : ascii) : ascii :=
  if between 65 90 (ord c) then ascii_of_nat (ord c + 32) else c.

Definition newline : ascii := "010"%char.
Definition nl : string := String newline "".
Definition dq : string := String "034"%char "".

(** ** Strings *)

Fixpoint lower (s : string) : string :=
  match s with
  | "" => ""
  | String c s' => String (lower_char c) (lower s')
  end.

(** [s.startswith(p)] *)
Fixpoint startswith (p s : string) : bool :=
  match p, s with
  | "", _ => true
  | String a p', String b s' => Ascii.eqb a b && startswith p' s'
  | String _ _, "" => false
  end.

(** The literal pattern [p] (ASCII characters) at the head of [s] under
    [re.IGNORECASE]. *)
Fixpoint startswith_ci (p s : string) : bool :=
  match p, s with
  | "", _ => true
  | String a p', String b s' =>
      Ascii.eqb (fold_char a) (fold_char b) && startswith_ci p' s'
  | String _ _, "" => false
  end.

(** [sub in s] *)
Fixpoint contains (sub s : string) : bool :=
  startswith sub s ||
  match s with
  | "" => false
  | String _ s' => contains sub s'
  end.

(** [re.search] of the literal pattern [p] under [re.IGNORECASE]. *)
Fixpoint contains_ci (p s : string) : bool :=
  startswith_ci p s ||
  match s with
  | "" => false
  | String _ s' => contains_ci p s'
  end.

Fixpoint take (n : nat) (s : string) : string :=
  match n, s with
  | S n', String c s' => String c (take n' s')
  | _, _ => ""
  end.

Fixpoint drop (n : nat) (s : string) : string :=
  match n, s with
  | S n', String _ s' => drop n' s'
  | _, _ => s
  end.

(** The longest prefix of characters in the class [p], and what follows it. *)
Fixpoint span_class (p : ascii -> bool) (s : string) : string :=
  match s with
  | String c s' => if p c then String c (span_class p s') else ""
  | "" => ""
  end.

Fixpoint skip_class (p : ascii -> bool) (s : string) : string :=
  match s with
  | String c s' => if p c then skip_class p s' else s
  | "" => ""
  end.

Definition head_in (p : ascii -> bool) (s : string) : bool :=
  match s with
  | String c _ => p c
  | "" => false
  end.

Definition lstrip (s : string) : string := skip_class isspace s.

Fixpoint rstrip (s : string) : string :=
  match s with
  | "" => ""
  | String c s' =>
      match rstrip s' with
      | "" => if isspace c then "" else String c ""
      | r => String c r
      end
  end.

(** [s.strip()] *)
Definition strip (s : string) : string := rstrip (lstrip s).

(** [s.split('\n')] *)
Fixpoint split_lines (s : string) : list string :=
  match s with
  | "" => [""]
  | String c s' =>
      if Ascii.eqb c newline then "" :: split_lines s'
      else match split_lines s' with
           | l :: ls => String c l :: ls
           | [] => [String c ""]
           end
  end.

(** ["\n".join(ls)] *)
Fixpoint join_lines (ls : list string) : string :=
  match ls with
  | [] => ""
  | [l] => l
  | l :: ls' => l ++ nl ++ join_lines ls'
  end.

(** ** Substitution of leftmost non-overlapping matches

    [re.sub(pattern, repl, s)] and [s.replace(old, new)] scan [s] from left to
    right; at each position the pattern is tried, a match is replaced and the
    scan resumes after it, and a character where nothing matches is copied.
    A matcher gets the character before the position ([None] at the start of
    the text, for [^] and look-behind) and the text from the position on; it
    answers with the replacement and the number of characters matched. None of
    the patterns of this program matches the empty text. *)

Definition matcher : Type := option ascii -> string -> option (string * nat).

Fixpoint sub_scan (m : matcher) (skip : nat) (prev : option ascii) (s : string) : string :=
  match s with
  | "" => ""
  | String c s' =>
      match skip with
      | S k => sub_scan m k (Some c) s'
      | O =>
          match m prev s with
          | Some (out, n) => out ++ sub_scan m (pred n) (Some c) s'
          | None => String c (sub_scan m O (Some c) s')
          end
      end
  end.

Definition re_sub (m : matcher) (s : string) : string := sub_scan m 0 None s.

(** [s.replace(old, new)] for a non-empty [old]. *)
Definition replace (old new s : string) : string :=
  re_sub (fun _ t => if startswith old t then Some (new, String.length old) else None) s.

(** ** Response formatter *)

(** [import\s+[\w\.]+] at the head of [s].  The classes [\s] and [[\w\.]] are
    disjoint, so the greedy run of spaces is the only way to match. *)
Definition head_import (s : string) : bool :=
  startswith "import" s &&
  (let r := drop 6 s in
   head_in isspace r && head_in isword_or_dot (skip_class isspace r)).

(** [kw\s+\w+\(] at the head of [s], for [kw] one of [def], [class], [function]. *)
Definition head_signature (kw s : string) : bool :=
  startswith kw s &&
  (let r := drop (String.length kw) s in
   head_in isspace r &&
   (let r1 := skip_class isspace r in
    head_in isword r1 && startswith "(" (skip_class isword r1))).

(** [(import\s+[\w\.]+|def\s+\w+\(|class\s+\w+\(|function\s+\w+\()] at the
    head of [s]: [re.match] of the pattern, with or without the leading [^]. *)
Definition code_signature (s : string) : bool :=
  head_import s || head_signature "def" s || head_signature "class" s
  || head_signature "function" s.

(** [re.search] of the same pattern. *)
Fixpoint search_code_signature (s : string) : bool :=
  code_signature s ||
  match s with
  | "" => false
  | String _ s' => search_code_signature s'
  end.

(** One turn of the loop over the lines: the state is [in_code_block] and
    [formatted_lines]. *)
Definition fence_step (st : bool * list string) (line : string) : bool * list string :=
  let '(in_code_block, formatted_lines) := st in
  let '(in_code_block, formatted_lines) :=
    if code_signature (strip line) && negb in_code_block then
      (true, (formatted_lines ++ ["```python"])%list)
    else if in_code_block && String.eqb (strip line) ""
            && Nat.ltb 0 (List.length formatted_lines) then
      (false, (formatted_lines ++ ["```"])%list)
    else (in_code_block, formatted_lines) in
  (in_code_block, (formatted_lines ++ [line])%list).

Definition fence_code (response : string) : string :=
  let lines := split_lines response in
  let '(in_code_block, formatted_lines) := fold_left fence_step lines (false, []) in
  let formatted_lines :=
    if in_code_block then (formatted_lines ++ ["```"])%list else formatted_lines in
  join_lines formatted_lines.

Definition not_newline (c : ascii) : bool := negb (Ascii.eqb c newline).

(** [(KEYWORD:)(.*?)(\n|$)] under [re.IGNORECASE], replaced by [**_\1_** \2\3].
    The lazy [.*?] stops at the first newline, which [.] does not match, or at
    the end of the text. *)
Definition keyword_matcher (keyword : string) : matcher := fun _ s =>
  let p := keyword ++ ":" in
  if startswith_ci p s then
    let n := String.length p in
    let g1 := take n s in
    let g2 := span_class not_newline (drop n s) in
    let g3 := if startswith nl (drop (n + String.length g2) s) then nl else "" in
    Some ("**_" ++ g1 ++ "_** " ++ g2 ++ g3, n + String.length g2 + String.length g3)
  else None.

(** [^] under [re.MULTILINE]: the start of the text or just after a newline. *)
Definition at_line_start (prev : option ascii) : bool :=
  match prev with
  | None => true
  | Some c => Ascii.eqb c newline
  end.

(** [(?<!\n)]: the character before, if any, is not a newline. *)
Definition not_after_newline (prev : option ascii) : bool :=
  match prev with
  | None => true
  | Some c => negb (Ascii.eqb c newline)
  end.

(** [(?<!\n)^(\d+\.\s)] under [re.MULTILINE], replaced by [\n\1]. *)
Definition numbered_matcher : matcher := fun prev s =>
  let d := String.length (span_class isdecimal s) in
  if not_after_newline prev && at_line_start prev && Nat.ltb 0 d
     && startswith "." (drop d s) && head_in isspace (drop (d + 1) s)
  then Some (nl ++ take (d + 2) s, d + 2) else None.

(** [(?<!\n)^(-\s)] under [re.MULTILINE], replaced by [\n\1]. *)
Definition bullet_matcher : matcher := fun prev s =>
  if not_after_newline prev && at_line_start prev
     && startswith "-" s && head_in isspace (drop 1 s)
  then Some (nl ++ take 2 s, 2) else None.

Definition important_keywords : list string :=
  ["IMPORTANT"; "WARNING"; "CRITICAL"; "NOTE"; "CAUTION"].

Definition highlight_keywords (response : string) : string :=
  fold_left (fun response keyword => re_sub (keyword_matcher keyword) response)
            important_keywords response.

Definition enhance_response_formatting (response : string) : string :=
  let response :=
    if negb (contains "```" response) && search_code_signature response
    then fence_code response else response in
  let response := highlight_keywords response in
  let response := re_sub numbered_matcher response in
  let response := re_sub bullet_matcher response in
  response.

(** ** Values and exceptions *)

(** A [float]. *)
Definition float : Set := spec_float.

(** A number is an [int] or a [float]; [json.load] gives an [int] for a
    literal without fraction or exponent and a [float] otherwise, and
    [time.time()] gives a [float]. *)
Inductive number : Type :=
| Int (n : Z)
| Float (f : float).

Coercion Int : Z >-> number.
Coercion Float : float >-> number.
Bind Scope Z_scope with number.

(** A value decoded from JSON, which is also the shape of the Python values
    the module handles: [None], booleans, numbers, text, lists and
    dictionaries.  A dictionary keeps its keys in insertion order and holds
    each key once. *)
#[warnings="-register-all"]
Inductive json : Type :=
| JNull
| JBool (b : bool)
| JNum (n : number)
| JStr (s : string)
| JList (l : list json)
| JObj (d : list (string * json)).

Inductive exn : Type :=
| AttributeError
| TypeError
| KeyError
| IndexError
| OverflowError
| JSONDecodeError
| OSError
| RequestException
| OpenAIError.

Inductive result (A : Type) : Type :=
| Ok (a : A)
| Raise (e : exn).
Arguments Ok {A} a.
Arguments Raise {A} e.

(** The truth value of a Python value. *)
Definition truthy (v : json) : bool :=
  match v with
  | JNull => false
  | JBool b => b
  | JNum (Int n) => negb (Z.eqb n 0)
  | JNum (Float (S754_zero _)) => false
  | JNum (Float _) => true
  | JStr s => negb (String.eqb s "")
  | JList l => negb (Nat.eqb (List.length l) 0)
  | JObj d => negb (Nat.eqb (List.length d) 0)
  end.

Definition dict : Type := list (string * json).

(** [d.get(k)] *)
Fixpoint dict_get (k : string) (d : dict) : option json :=
  match d with
  | [] => None
  | (k', v) :: d' => if String.eqb k k' then Some v else dict_get k d'
  end.

(** [k in d] *)
Definition dict_has (k : string) (d : dict) : bool :=
  match dict_get k d with
  | Some _ => true
  | None => false
  end.

(** [d[k] = v]: the value of an existing key is replaced in place, a new key
    goes to the end. *)
Fixpoint dict_set (k : string) (v : json) (d : dict) : dict :=
  match d with
  | [] => [(k, v)]
  | (k', v') :: d' =>
      if String.eqb k k' then (k', v) :: d' else (k', v') :: dict_set k v d'
  end.

(** [d[k]] *)
Definition dict_index (k : string) (d : dict) : result json :=
  match dict_get k d with
  | Some v => Ok v
  | None => Raise KeyError
  end.

(** Functions of the Python runtime and its libraries that the module calls
    and that are taken as given: [str(v)] of a value that is not text,
    [json.loads] and [json.load] ([None] when the text is not JSON),
    [json.dumps] and [json.dump], and the Base64 text of the UTF-8 bytes of a
    string. *)
Record runtime : Type := {
  str_of : json -> string;
  json_loads : string -> option json;
  json_dumps : json -> string;
  b64encode : string -> string
}.

(** [f"{v}"] *)
Definition format_value (rt : runtime) (v : json) : string :=
  match v with
  | JStr s => s
  | _ => str_of rt v
  end.

(** [f"{n}"] for a natural number. *)
Definition decimal (n : nat) : string := NilEmpty.string_of_uint (Nat.to_uint n).

(** The decorator [safe_response]: the result of the wrapped call when it is
    text, and a fixed message otherwise. *)
Definition safe_response (r : result json) : string :=
  match r with
  | Ok (JStr s) => s
  | Ok _ => "Error: Invalid response type from function"
  | Raise _ =>
      "I apologize, but I encountered an error while processing your request. Please try again with a simpler query."
  end.

(** ** Context formatter *)

Definition db_header : string :=
  nl ++ "IMPORTANT: The following information contains code blocks that must be preserved EXACTLY as shown,"
  ++ nl ++ "with their original formatting, indentation, comments, and whitespace."
  ++ nl ++ "===== DATABASE INFORMATION START =====" ++ nl ++ nl.

Definition db_footer : string :=
  nl ++ "===== DATABASE INFORMATION END =====" ++ nl.

Definition db_reminder : string :=
  nl ++ "REMEMBER: When including code blocks in your response, reproduce them EXACTLY as shown above,"
  ++ nl ++ "with the same formatting, indentation, comments, and whitespace. Do not modify any code."
  ++ nl.

(** The line opens a fence: [line.strip().startswith("```")]. *)
Definition opens_fence (line : string) : bool := startswith "```" (strip line).

(** The line is a bare fence: [line.strip() == "```"]. *)
Definition bare_fence (line : string) : bool := String.eqb (strip line) "```".

Definition code_block_start (code_block_lang : string) : string :=
  nl ++ "<CODE_BLOCK_START lang=" ++ dq ++ code_block_lang ++ dq ++ ">" ++ nl.

Definition code_block_end : string := "<CODE_BLOCK_END>" ++ nl ++ nl.

(** One turn of the loop over the lines of [content]: the state is
    [in_code_block] and [formatted_data]; [code_block_lang] is only read where
    it is set. *)
Definition mark_step (st : bool * string) (line : string) : bool * string :=
  let '(in_code_block, formatted_data) := st in
  if opens_fence line && negb in_code_block then
    let code_block_lang := strip (replace "```" "" (strip line)) in
    (true, formatted_data ++ code_block_start code_block_lang ++ line ++ nl)
  else if bare_fence line && in_code_block then
    (false, formatted_data ++ line ++ nl ++ code_block_end)
  else (in_code_block, formatted_data ++ line ++ nl).

(** The fields other than [pageTitle] and [content], as [- key: value] lines. *)
Definition format_field (rt : runtime) (formatted_data : string) (kv : string * json) : string :=
  formatted_data ++ "- " ++ fst kv ++ ": " ++ format_value rt (snd kv) ++ nl.

Definition format_other_fields (rt : runtime) (d : dict) (formatted_data : string) : string :=
  fold_left
    (fun formatted_data kv =>
       if String.eqb (fst kv) "pageTitle" || String.eqb (fst kv) "content"
       then formatted_data else format_field rt formatted_data kv)
    d formatted_data.

(** The body of the loop over the records; [i] is the index of [enumerate].
    [content.split] raises when the content is not text. *)
Definition format_item (rt : runtime) (i : nat) (item : json) (formatted_data : string)
  : result string :=
  match item with
  | JObj d =>
      let formatted_data :=
        match dict_get "pageTitle" d with
        | Some title => formatted_data ++ "## " ++ format_value rt title ++ nl ++ nl
        | None => formatted_data
        end in
      let with_content :=
        match dict_get "content" d with
        | Some (JStr content) =>
            let lines := split_lines content in
            Ok (snd (fold_left mark_step lines (false, formatted_data)) ++ nl)
        | Some _ => Raise AttributeError
        | None => Ok formatted_data
        end in
      match with_content with
      | Ok formatted_data =>
          Ok (format_other_fields rt d formatted_data ++ nl ++ "---" ++ nl ++ nl)
      | Raise e => Raise e
      end
  | _ =>
      Ok (formatted_data ++ "Item " ++ decimal (i + 1) ++ ":" ++ nl
          ++ format_value rt item ++ nl ++ nl)
  end.

Fixpoint format_items (rt : runtime) (i : nat) (items : list json) (formatted_data : string)
  : result string :=
  match items with
  | [] => Ok formatted_data
  | item :: rest =>
      match format_item rt i item formatted_data with
      | Ok formatted_data => format_items rt (S i) rest formatted_data
      | Raise e => Raise e
      end
  end.

Definition format_db_data_for_llm (rt : runtime) (db_data : json) : result string :=
  if negb (truthy db_data) then Ok ""
  else
    let formatted_data := db_header in
    let body :=
      match db_data with
      | JList items => format_items rt 0 items formatted_data
      | JObj d =>
          Ok (fold_left (format_field rt) d
                (formatted_data ++ "Retrieved information:" ++ nl ++ nl))
      | _ =>
          Ok (formatted_data ++ "Retrieved information:" ++ nl ++ nl
              ++ format_value rt db_data)
      end in
    match body with
    | Ok formatted_data => Ok (formatted_data ++ db_footer ++ db_reminder)
    | Raise e => Raise e
    end.

(** ** Simulated responder *)

Definition avos_info : string :=
  "AVOS (Autonomous Vehicle Operating System) is NVIDIA's comprehensive software stack designed for autonomous vehicles. It provides a flexible, scalable platform that integrates perception, planning, and control systems necessary for self-driving capabilities.".

Definition drive_info : string :=
  "NVIDIA DRIVE is a platform that uses AVOS and is designed for developing autonomous vehicles. It includes both hardware (like the DRIVE AGX Orin system-on-a-chip) and software components that work together to enable self-driving capabilities.".

Definition driveos_info : string :=
  "DriveOS is the operating system layer of NVIDIA's autonomous vehicle software stack. It provides a foundation for running autonomous driving applications, managing hardware resources, and ensuring real-time performance for critical driving functions.".

Definition ndas_info : string :=
  "NDAS (NVIDIA Data Annotation System) is a tool for labeling and annotating sensor data collected from vehicles. It helps create training datasets for machine learning models used in autonomous driving systems.".

Definition feature_info : string :=
  "AVOS includes many features such as:" ++
  nl ++
  "- Sensor fusion for combining data from cameras, radar, and lidar" ++
  nl ++
  "- Perception systems for object detection and classification" ++
  nl ++
  "- Planning and decision-making algorithms" ++
  nl ++
  "- Control systems for vehicle operation" ++
  nl ++
  "- Simulation capabilities for testing and validation" ++
  nl ++
  "- Over-the-air update functionality".

Definition dtsi_info : string :=
  "In the context of DriveOS, a DTSI (Device Tree Source Include) file is used to describe hardware components and their properties. The " ++
  dq ++
  "startupcmd" ++
  dq ++
  " DTSI file specifically contains commands that are executed during system startup to configure hardware components and initialize services.".

Definition steps_info : string :=
  "To integrate DriveOS changes into NDAS, you would typically follow these steps:" ++
  nl ++
  "1. Develop and test your changes in a DriveOS development environment" ++
  nl ++
  "2. Document the changes thoroughly" ++
  nl ++
  "3. Submit the changes through the code review process" ++
  nl ++
  "4. Work with the NDAS team to integrate and test the changes" ++
  nl ++
  "5. Monitor and validate the integration through regression testing".

Definition secpolicy_info : string :=
  "AVOS Customizations for Security Policy (SecPolicy) include configurations for mounting policies and folder hierarchy support. SecPolicy files are available for both debug and production environments, typically named policy_debug_orin_gos_vm_safety.txt and policy_prod_orin_gos_vm_safety.txt respectively. The security policy enforces folder hierarchy and mounting restrictions.".

Definition avos_knowledge : list (string * string) :=
  [("avos", avos_info);
   ("drive", drive_info);
   ("driveos", driveos_info);
   ("ndas", ndas_info);
   ("feature", feature_info);
   ("dtsi", dtsi_info);
   ("steps", steps_info);
   ("secpolicy", secpolicy_info)].

Definition default_response : string :=
  "I don't have specific information about that aspect of AVOS. Could you ask something more general about AVOS capabilities or features?".

(** The message that carries the caller's context. *)
Definition context_response (context : string) : string :=
  "Based on the available information: " ++ context ++ nl ++ nl ++
  "However, please note that this information may be limited. For more detailed information, please consult the official NVIDIA AVOS documentation.".

(** The loop over the knowledge base: the first entry, in the order of the
    table, whose key occurs in the prompt replaces [response]. *)
Fixpoint first_keyword (kb : list (string * string)) (prompt_lower response : string) : string :=
  match kb with
  | [] => response
  | (keyword, info) :: rest =>
      if contains (lower keyword) prompt_lower then info
      else first_keyword rest prompt_lower response
  end.

(** [avos_knowledge[k]] *)
Fixpoint knowledge (kb : list (string * string)) (k : string) : result string :=
  match kb with
  | [] => Raise KeyError
  | (keyword, info) :: rest =>
      if String.eqb k keyword then Ok info else knowledge rest k
  end.

(** The value of [response] that [get_simulated_response] hands to the
    formatter. *)
Definition simulated_answer (prompt context : string) : result string :=
  let prompt_lower := lower prompt in
  let response := default_response in
  let response := first_keyword avos_knowledge prompt_lower response in
  let response :=
    if negb (String.eqb context "")
       && contains "I don't have specific information" response
    then context_response context else response in
  match
    (if contains "driveos" prompt_lower && contains "ndas" prompt_lower
     then knowledge avos_knowledge "steps" else Ok response)
  with
  | Raise e => Raise e
  | Ok response =>
      match
        (if contains "dtsi" prompt_lower && contains "startupcmd" prompt_lower
         then knowledge avos_knowledge "dtsi" else Ok response)
      with
      | Raise e => Raise e
      | Ok response =>
          if contains "secpolicy" prompt_lower
             || (contains "security" prompt_lower && contains "policy" prompt_lower)
          then knowledge avos_knowledge "secpolicy" else Ok response
      end
  end.

Definition simulated_apology : string :=
  "I apologize, but I'm having difficulty processing your request right now. Please try again with a simpler query.".

(** [get_simulated_response], with its [try] and its decorator. *)
Definition get_simulated_response (prompt context : string) : string :=
  safe_response
    (match simulated_answer prompt context with
     | Ok response => Ok (JStr (enhance_response_formatting response))
     | Raise _ => Ok (JStr simulated_apology)
     end).

(** ** Environment, state and the monad of effects *)

(** A file of the module's directory. *)
Inductive file : Type :=
| Absent
| Unreadable
| Content (text : string).

(** A request to the token endpoint: URL, headers and form body. *)
Record request : Type := {
  req_url : string;
  req_headers : list (string * string);
  req_data : string
}.

(** The client object of the completion API holds what it was built with. *)
Record client : Type := {
  api_key : json;
  api_version : string;
  base_url : string
}.

(** What the module finds around it and does not change: whether [requests]
    and [openai] could be imported, the runtime, the credentials written in
    the source, the file [config/prompts.js], whether the token cache can be
    opened for writing, the readings of the clock in the order they are taken,
    and the answers of the two services.
    [requests_request] is the body of the HTTP response, on any status;
    [AzureOpenAI] is the constructor; [chat_completions_create] is
    [completion.choices[0].message.content] of the call with this model,
    these messages and this [max_tokens]. *)
Record env : Type := {
  DEPENDENCIES_INSTALLED : bool;
  rt : runtime;
  client_id : string;
  client_secret : string;
  prompts_js : file;
  token_file_writable : bool;
  time_time : nat -> float;
  requests_request : request -> result string;
  AzureOpenAI : json -> string -> string -> result client;
  chat_completions_create : client -> string -> list json -> Z -> result json
}.

(** What a call changes: the token cache [py_llm_oauth_token.json], the
    number of clock readings taken, and the requests sent to the token
    endpoint, latest first. *)
Record state : Type := {
  token_file : file;
  ticks : nat;
  requests_sent : list request
}.

Definition M (A : Type) : Type := state -> result A * state.

Definition ret {A : Type} (a : A) : M A := fun st => (Ok a, st).

Definition bind {A B : Type} (m : M A) (k : A -> M B) : M B :=
  fun st =>
    match m st with
    | (Ok a, st') => k a st'
    | (Raise e, st') => (Raise e, st')
    end.

Definition lift {A : Type} (r : result A) : M A := fun st => (r, st).

(** [try: m  except Exception: handler] *)
Definition try_except {A : Type} (m : M A) (handler : M A) : M A :=
  fun st =>
    match m st with
    | (Ok a, st') => (Ok a, st')
    | (Raise _, st') => handler st'
    end.

Notation "x <- m ;; k" := (bind m (fun x => k))
  (at level 61, m at next level, right associativity).

(** [time.time()] *)
Definition now (e : env) : M float :=
  fun st =>
    (Ok (time_time e (ticks st)),
     {| token_file := token_file st; ticks := S (ticks st);
        requests_sent := requests_sent st |}).

(** [requests.request("POST", url, headers=headers, data=data)] followed by
    [response.json()]. *)
Definition post_json (e : env) (r : request) : M json :=
  fun st =>
    let st' := {| token_file := token_file st; ticks := ticks st;
                  requests_sent := r :: requests_sent st |} in
    match requests_request e r with
    | Raise x => (Raise x, st')
    | Ok body =>
        match json_loads (rt e) body with
        | Some v => (Ok v, st')
        | None => (Raise JSONDecodeError, st')
        end
    end.

(** [with open(file_path, "w") as f: json.dump(token, f)] *)
Definition write_token_file (e : env) (token : json) : M unit :=
  fun st =>
    if token_file_writable e then
      (Ok tt,
       {| token_file := Content (json_dumps (rt e) token); ticks := ticks st;
          requests_sent := requests_sent st |})
    else (Raise OSError, st).

(** ** Operations on values that may raise *)

(** [k in v] *)
Definition py_in (k : string) (v : json) : result bool :=
  match v with
  | JObj d => Ok (dict_has k d)
  | JList l =>
      Ok (existsb (fun x => match x with JStr s => String.eqb s k | _ => false end) l)
  | JStr s => Ok (contains k s)
  | _ => Raise TypeError
  end.

(** [v[k]] for a text key. *)
Definition py_getitem (k : string) (v : json) : result json :=
  match v with
  | JObj d => dict_index k d
  | _ => Raise TypeError
  end.

(** [v[k] = x] for a text key. *)
Definition py_setitem (k : string) (x : json) (v : json) : result json :=
  match v with
  | JObj d => Ok (JObj (dict_set k x d))
  | _ => Raise TypeError
  end.

(** The number a value stands for in arithmetic; a boolean is the [int] 0
    or 1. *)
Definition num_of (v : json) : option number :=
  match v with
  | JNum n => Some n
  | JBool b => Some (Int (if b then 1 else 0))
  | _ => None
  end.

(** [float(n)] of an [int], as arithmetic with a [float] converts it: the
    nearest [float], ties to even, and [OverflowError] when there is none. *)
Definition float_of_int (n : Z) : result float :=
  match binary_normalize 53 1024 n 0 false with
  | S754_infinity _ => Raise OverflowError
  | f => Ok f
  end.

(** [x + y] for two floats. *)
Definition float_add (x y : float) : float := SFadd 53 1024 x y.

(** [x + y] for numbers: exact on two [int]s; with a [float] on either side
    the [int] is converted first. *)
Definition number_add (x y : number) : result number :=
  match x, y with
  | Int a, Int b => Ok (Int (a + b)%Z)
  | Float a, Float b => Ok (Float (float_add a b))
  | Int a, Float b =>
      match float_of_int a with
      | Ok a' => Ok (Float (float_add a' b))
      | Raise x => Raise x
      end
  | Float a, Int b =>
      match float_of_int b with
      | Ok b' => Ok (Float (float_add a b'))
      | Raise x => Raise x
      end
  end.

(** [a + b] *)
Definition py_add (a b : json) : result json :=
  match num_of a, num_of b with
  | Some x, Some y =>
      match number_add x y with
      | Ok z => Ok (JNum z)
      | Raise x => Raise x
      end
  | _, _ =>
      match a, b with
      | JStr x, JStr y => Ok (JStr (x ++ y))
      | JList x, JList y => Ok (JList (x ++ y))
      | _, _ => Raise TypeError
      end
  end.

(** [t < n] for a [float] and an [int]: Python compares the two values
    exactly, without converting the [int]. *)
Definition float_lt_int (t : float) (n : Z) : bool :=
  match t with
  | S754_nan => false
  | S754_infinity s => s
  | S754_zero _ => Z.ltb 0 n
  | S754_finite s m e =>
      let v := if s then Z.neg m else Z.pos m in
      if Z.leb 0 e then Z.ltb (v * 2 ^ e)%Z n else Z.ltb v (n * 2 ^ (- e))%Z
  end.

(** [t < v] for a reading [t] of the clock. *)
Definition py_time_lt (t : float) (v : json) : result bool :=
  match num_of v with
  | Some (Int n) => Ok (float_lt_int t n)
  | Some (Float f) => Ok (SFltb t f)
  | None => Raise TypeError
  end.

(** ** Token cache and credential exchange *)

Definition basic_auth (e : env) (p_client_id p_client_secret : string) : string :=
  "Basic " ++ b64encode (rt e) (p_client_id ++ ":" ++ p_client_secret).

(** The first half of the [try] block of [get_oauth_token]: [Some v] when the
    function returns [v] from the cache, [None] when control reaches the
    request of a new token. *)
Definition read_cache (e : env) : M (option json) :=
  fun st =>
    match token_file st with
    | Absent => (Ok None, st)
    | Unreadable => (Raise OSError, st)
    | Content text =>
        match json_loads (rt e) text with
        | None => (Raise JSONDecodeError, st)
        | Some token =>
            (has_expires <- lift (py_in "expires_in" token) ;;
             has_created <-
               (if has_expires : bool then lift (py_in "created_at" token)
                else ret false) ;;
             if has_created : bool then
               created_at <- lift (py_getitem "created_at" token) ;;
               expires_in <- lift (py_getitem "expires_in" token) ;;
               expiry_time <- lift (py_add created_at expires_in) ;;
               t <- now e ;;
               fresh <- lift (py_time_lt t expiry_time) ;;
               if fresh : bool then
                 access_token <- lift (py_getitem "access_token" token) ;;
                 ret (Some access_token)
               else ret None
             else ret None) st
        end
    end.

(** The request sent to the token endpoint. *)
Definition token_request (e : env) (p_token_url p_client_id p_client_secret p_scope : string)
  : request :=
  let payload := "grant_type=client_credentials&scope=" ++ p_scope in
  let headers :=
    [("Content-Type", "application/x-www-form-urlencoded");
     ("Authorization", basic_auth e p_client_id p_client_secret)] in
  {| req_url := p_token_url; req_headers := headers; req_data := payload |}.

(** The second half: the exchange of the credentials for a new token. *)
Definition request_token (e : env) (p_token_url p_client_id p_client_secret p_scope : string)
  : M json :=
  token <- post_json e (token_request e p_token_url p_client_id p_client_secret p_scope) ;;
  t <- now e ;;
  token <- lift (py_setitem "created_at" (JNum t) token) ;;
  _ <- write_token_file e token ;;
  lift (py_getitem "access_token" token).

(** [get_oauth_token]; the result [JNull] is Python's [None].  The path of
    the cache file is computed from the module's own path, which does not
    fail. *)
Definition get_oauth_token (e : env) (p_token_url p_client_id p_client_secret p_scope : string)
  : M json :=
  if negb (DEPENDENCIES_INSTALLED e) then ret JNull
  else
    try_except
      (cached <- read_cache e ;;
       match cached with
       | Some access_token => ret access_token
       | None => request_token e p_token_url p_client_id p_client_secret p_scope
       end)
      (ret JNull).

(** ** Default system prompt *)

(** The lowest index, counted from [i], at which [sub] occurs in [s]. *)
Fixpoint find_from (sub s : string) (i : nat) : option nat :=
  if startswith sub s then Some i
  else match s with
       | "" => None
       | String _ s' => find_from sub s' (S i)
       end.

(** [content.find(sub, start)] for [start >= 0]. *)
Definition find (sub content : string) (start : nat) : Z :=
  if Nat.leb start (String.length content) then
    match find_from sub (drop start content) start with
    | Some i => Z.of_nat i
    | None => (-1)%Z
    end
  else (-1)%Z.

(** [content[a:b]] for [a >= 0] and [b >= 0]. *)
Definition slice (content : string) (a b : nat) : string :=
  take (b - a) (drop a content).

Definition fallback_prompt : string :=
  "You are a helpful AI assistant specialized in AVOS (Autonomous Vehicle Operating System) developed by NVIDIA. Provide accurate and helpful information about AVOS features, capabilities, and usage. If you don't know something, be honest about it. Please give small and precise answers. Don't give out of context answers. Please give answers in bullet points.".

Definition error_prompt : string :=
  "You are a helpful AI assistant specialized in AVOS (Autonomous Vehicle Operating System) developed by NVIDIA. Provide accurate and helpful information about AVOS features, capabilities, and usage. If you don't know something, be honest about it.".

Definition get_default_system_prompt (e : env) : string :=
  safe_response
    (match prompts_js e with
     | Absent => Ok (JStr fallback_prompt)
     | Unreadable => Ok (JStr error_prompt)
     | Content content =>
         let marker := "DEFAULT_LLM_PROMPT = `" in
         let start := (find marker content 0 + Z.of_nat (String.length marker))%Z in
         let end_ := find "`;" content (Z.to_nat start) in
         if Z.ltb 0 start && Z.ltb 0 end_
         then Ok (JStr (slice content (Z.to_nat start) (Z.to_nat end_)))
         else Ok (JStr fallback_prompt)
     end).

(** ** Client of the completion API *)

Definition token_url : string :=
  "https://5kbfxgaqc3xgz8nhid1x1r8cfestoypn-trofuum-oc.ssa.nvidia.com/token".
Definition scope : string := "azureopenai-readwrite".
Definition api_base : string := "https://prod.api.nvidia.com/llm/v1/azure/openai".
Definition api_version_used : string := "2023-12-01-preview".

(** [get_azure_client]; [None] is Python's [None]. *)
Definition get_azure_client (e : env) : M (option client) :=
  if negb (DEPENDENCIES_INSTALLED e) then ret None
  else
    try_except
      (token <- get_oauth_token e token_url (client_id e) (client_secret e) scope ;;
       if negb (truthy token) then ret None
       else
         c <- lift (AzureOpenAI e token api_version_used api_base) ;;
         ret (Some c))
      (ret None).

(** ** Orchestrator *)

Definition formatting_guidance : string :=
  nl ++ "When responding, please format your answer appropriately:" ++
  nl ++ "- Use code blocks with proper language specification for any code (```python, ```bash, etc.)" ++
  nl ++ "- Highlight IMPORTANT information in bold and italic format (**_important_**)" ++
  nl ++ "- Use proper Markdown for lists, headings, and other formatting" ++
  nl ++ "- If you're explaining steps, use numbered lists" ++
  nl ++ "- Use bullet points for feature lists" ++
  nl.

Definition message (role content : string) : json :=
  JObj [("role", JStr role); ("content", JStr content)].

(** The list [messages] sent to the completion endpoint. *)
Definition build_messages (e : env)
  (prompt context system_prompt conversation_history_json : string) : list json :=
  let messages :=
    if negb (String.eqb system_prompt "") then [message "system" system_prompt]
    else [message "system" (get_default_system_prompt e)] in
  let messages :=
    match json_loads (rt e) conversation_history_json with
    | Some (JList conversation_history) =>
        if truthy (JList conversation_history)
        then (messages ++ conversation_history)%list else messages
    | _ => messages
    end in
  let messages :=
    if negb (String.eqb context "")
    then (messages ++ [message "user" ("Context information: " ++ context)])%list
    else messages in
  let enhanced_prompt := prompt ++ nl ++ nl ++ formatting_guidance in
  (messages ++ [message "user" enhanced_prompt])%list.

(** The inner [try] block of [get_llm_response]: [Some s] when it returns
    [s], [None] when control falls through to the simulated responder. *)
Definition call_api (e : env)
  (prompt context system_prompt conversation_history_json : string) : M (option string) :=
  try_except
    (client <- get_azure_client e ;;
     match client with
     | Some c =>
         let messages :=
           build_messages e prompt context system_prompt conversation_history_json in
         content <- lift (chat_completions_create e c "gpt-4o" messages 1000%Z) ;;
         match content with
         | JStr response => ret (Some (enhance_response_formatting response))
         | _ => lift (Raise TypeError)
         end
     | None => ret None
     end)
    (ret None).

Definition critical_apology : string :=
  "I apologize for the inconvenience, but I'm experiencing technical difficulties. Please try again later.".

(** The function [get_llm_response] as written, with its outer [try];
    [db_data] is [JNull] when the caller gives none. *)
Definition get_llm_response_body (e : env)
  (prompt context system_prompt conversation_history_json : string) (db_data : json)
  : M json :=
  try_except
    (context <-
       (if truthy db_data then
          db_context <- lift (format_db_data_for_llm (rt e) db_data) ;;
          ret (if negb (String.eqb context "")
               then context ++ nl ++ nl ++ db_context else db_context)
        else ret context) ;;
     answered <-
       (if DEPENDENCIES_INSTALLED e
        then call_api e prompt context system_prompt conversation_history_json
        else ret None) ;;
     match answered with
     | Some response => ret (JStr response)
     | None => ret (JStr (get_simulated_response prompt context))
     end)
    (ret (JStr critical_apology)).

(** [get_llm_response] under its decorator [safe_response]. *)
Definition get_llm_response (e : env)
  (prompt context system_prompt conversation_history_json : string) (db_data : json)
  : state -> string * state :=
  fun st =>
    let '(r, st') :=
      get_llm_response_body e prompt context system_prompt conversation_history_json
        db_data st in
    (safe_response r, st').

(** ** An environment for the examples

    A runtime whose [json.dumps] prints a value in JSON's syntax without
    escapes and whose [json.loads] knows four texts, and services that answer
    the token endpoint with a token record and the completion endpoint with a
    fixed text. *)

Definition decimal_Z (n : Z) : string := NilEmpty.string_of_int (Z.to_int n).

Fixpoint join_with (sep : string) (ls : list string) : string :=
  match ls with
  | [] => ""
  | [l] => l
  | l :: ls' => l ++ sep ++ join_with sep ls'
  end.

(** The float nearest to an integer, and the integer a float stands for
    when it stands for one. *)
Definition seconds (n : Z) : float := binary_normalize 53 1024 n 0 false.

Definition whole (f : float) : option Z :=
  match f with
  | S754_zero _ => Some 0%Z
  | S754_finite s m e =>
      let v := if s then Z.neg m else Z.pos m in
      if Z.leb 0 e then Some (v * 2 ^ e)%Z
      else if Z.eqb (v mod 2 ^ (- e)) 0 then Some (v / 2 ^ (- e))%Z
      else None
  | _ => None
  end.

Definition example_number (n : number) : string :=
  match n with
  | Int n => decimal_Z n
  | Float f =>
      match whole f with
      | Some n => decimal_Z n ++ ".0"
      | None => "NaN"
      end
  end.

Fixpoint example_dumps (v : json) : string :=
  match v with
  | JNull => "null"
  | JBool true => "true"
  | JBool false => "false"
  | JNum n => example_number n
  | JStr s => dq ++ s ++ dq
  | JList l => "[" ++ join_with ", " (map example_dumps l) ++ "]"
  | JObj d =>
      "{" ++ join_with ", "
               (map (fun kv => match kv with
                               | (k, x) => dq ++ k ++ dq ++ ": " ++ example_dumps x
                               end) d)
      ++ "}"
  end.

Definition cached_record : json :=
  JObj [("access_token", JStr "cached-token"); ("expires_in", JNum 3600);
        ("created_at", JNum (seconds 1000))].

Definition fresh_record : dict :=
  [("access_token", JStr "new-token"); ("expires_in", JNum 3600)].

Definition error_record : dict := [("error", JStr "invalid_client")].

(** A record stored when the clock read 2^53 that lasts one more second. *)
Definition late_record : json :=
  JObj [("access_token", JStr "cached-token"); ("expires_in", JNum 1);
        ("created_at", JNum (seconds (2 ^ 53)))].

Definition example_loads (text : string) : option json :=
  if String.eqb text (example_dumps cached_record) then Some cached_record
  else if String.eqb text (example_dumps late_record) then Some late_record
  else if String.eqb text (example_dumps (JObj fresh_record)) then Some (JObj fresh_record)
  else if String.eqb text (example_dumps (JObj error_record)) then Some (JObj error_record)
  else None.

Definition example_runtime : runtime := {|
  str_of := example_dumps;
  json_loads := example_loads;
  json_dumps := example_dumps;
  b64encode := fun s => s
|}.

(** [installed]: whether the imports succeeded; [now_is]: the clock, which
    stands still; [answer]: the body the token endpoint answers with;
    [completion]: the text of the completion. *)
Definition example_env (installed : bool) (now_is : float) (answer : result string)
  (completion : result json) : env := {|
  DEPENDENCIES_INSTALLED := installed;
  rt := example_runtime;
  client_id := "id";
  client_secret := "secret";
  prompts_js := Absent;
  token_file_writable := true;
  time_time := fun _ => now_is;
  requests_request := fun _ => answer;
  AzureOpenAI := fun key version url =>
    Ok {| api_key := key; api_version := version; base_url := url |};
  chat_completions_create := fun _ _ _ _ => completion
|}.

Definition example_state (cache : file) : state :=
  {| token_file := cache; ticks := 0; requests_sent := [] |}.

(** The token endpoint answers with a fresh token record. *)
Definition env_online : env :=
  example_env true (seconds 2000) (Ok (example_dumps (JObj fresh_record))) (Ok (JStr "Hello.")).

(** The same without the imported libraries. *)
Definition env_no_dependencies : env :=
  example_env false (seconds 2000) (Ok (example_dumps (JObj fresh_record))) (Ok (JStr "Hello.")).

(** The token endpoint answers with an error record, under any status. *)
Definition env_rejected : env :=
  example_env true (seconds 2000) (Ok (example_dumps (JObj error_record))) (Ok (JStr "Hello.")).

(** The token endpoint cannot be reached. *)
Definition env_offline : env :=
  example_env true (seconds 2000) (Raise RequestException) (Ok (JStr "Hello.")).

(** The cache holds a record created at 1000 that lasts 3600. *)
Definition st_cached : state := example_state (Content (example_dumps cached_record)).

(** The cache holds the record stored at 2^53, and the clock still reads
    2^53. *)
Definition st_late : state := example_state (Content (example_dumps late_record)).

Definition env_late : env :=
  example_env true (seconds (2 ^ 53)) (Ok (example_dumps (JObj fresh_record)))
    (Ok (JStr "Hello.")).

(** The cache holds a text that is not JSON. *)
Definition st_corrupt : state := example_state (Content "{").

Definition st_no_cache : state := example_state Absent.

(** A payload of two entries: a bare text and a record whose content holds a
    fenced block. *)
Definition example_content : string :=
  "Run:" ++ nl ++ "```bash" ++ nl ++ "  make all" ++ nl ++ "```" ++ nl ++ "Done.".

Definition example_record : dict :=
  [("pageTitle", JStr "Build"); ("content", JStr example_content);
   ("source", JStr "wiki")].

Definition example_payload : list json := [JStr "see the wiki"; JObj example_record].

(** The completion endpoint answers with the empty text. *)
Definition env_silent : env :=
  example_env true (seconds 2000) (Ok (example_dumps (JObj fresh_record))) (Ok (JStr "")).

(** The completion endpoint cannot be reached. *)
Definition env_no_completion : env :=
  example_env true (seconds 2000) (Ok (example_dumps (JObj fresh_record))) (Raise OpenAIError).

(** ** Further examples *)

(** The fresh record once stamped at 2000, and a runtime that reads back what
    it has written for it. *)
Definition stamped_record : json :=
  JObj (dict_set "created_at" (JNum (seconds 2000)) fresh_record).

Definition roundtrip_runtime : runtime := {|
  str_of := example_dumps;
  json_loads := fun text =>
    if String.eqb text (example_dumps stamped_record) then Some stamped_record
    else example_loads text;
  json_dumps := example_dumps;
  b64encode := fun s => s
|}.

Definition env_roundtrip : env := {|
  DEPENDENCIES_INSTALLED := true;
  rt := roundtrip_runtime;
  client_id := "id";
  client_secret := "secret";
  prompts_js := Absent;
  token_file_writable := true;
  time_time := fun _ => seconds 2000;
  requests_request := fun _ => Ok (example_dumps (JObj fresh_record));
  AzureOpenAI := fun key version url =>
    Ok {| api_key := key; api_version := version; base_url := url |};
  chat_completions_create := fun _ _ _ _ => Ok (JStr "Hello.")
|}.

(** The token endpoint answers with a JSON list. *)
Definition env_list_answer : env :=
  example_env true (seconds 2000) (Ok "[]") (Ok (JStr "Hello.")).

(** A cached record that is dated and valid but has no [access_token], and
    one that has an [access_token] but no date. *)
Definition tokenless_record : json :=
  JObj [("expires_in", JNum 3600); ("created_at", JNum (seconds 1000))].

Definition undated_record : json := JObj [("access_token", JStr "old-token")].

Definition extra_runtime : runtime := {|
  str_of := example_dumps;
  json_loads := fun text =>
    if String.eqb text (example_dumps tokenless_record) then Some tokenless_record
    else if String.eqb text (example_dumps undated_record) then Some undated_record
    else if String.eqb text "[]" then Some (JList [])
    else example_loads text;
  json_dumps := example_dumps;
  b64encode := fun s => s
|}.

Definition env_extra (answer : result string) (completion : result json) : env := {|
  DEPENDENCIES_INSTALLED := true;
  rt := extra_runtime;
  client_id := "id";
  client_secret := "secret";
  prompts_js := Absent;
  token_file_writable := true;
  time_time := fun _ => seconds 2000;
  requests_request := fun _ => answer;
  AzureOpenAI := fun key version url =>
    Ok {| api_key := key; api_version := version; base_url := url |};
  chat_completions_create := fun _ _ _ _ => completion
|}.

Definition env_extra_online : env :=
  env_extra (Ok (example_dumps (JObj fresh_record))) (Ok (JStr "Hello.")).

Definition env_extra_list : env := env_extra (Ok "[]") (Ok (JStr "Hello.")).

Definition st_tokenless : state := example_state (Content (example_dumps tokenless_record)).

Definition st_undated : state := example_state (Content (example_dumps undated_record)).

(** The completion holds no text. *)
Definition env_null_completion : env :=
  example_env true (seconds 2000) (Ok (example_dumps (JObj fresh_record))) (Ok JNull).

(** A configuration file with the prompt between its markers, and one with
    no marker. *)
Definition prompts_file : string :=
  "const DEFAULT_LLM_PROMPT = `" ++ "You are brief." ++ "`;" ++ nl ++ "module.exports = {};".

Definition env_with_prompts (content : string) : env := {|
  DEPENDENCIES_INSTALLED := true;
  rt := example_runtime;
  client_id := "id";
  client_secret := "secret";
  prompts_js := Content content;
  token_file_writable := true;
  time_time := fun _ => seconds 2000;
  requests_request := fun _ => Ok (example_dumps (JObj fresh_record));
  AzureOpenAI := fun key version url =>
    Ok {| api_key := key; api_version := version; base_url := url |};
  chat_completions_create := fun _ _ _ _ => Ok (JStr "Hello.")
|}.

(** The completion endpoint answers with the content of the first message it
    is sent. *)
Definition first_content (messages : list json) : result json :=
  match messages with
  | JObj d :: _ =>
      match dict_get "content" d with
      | Some v => Ok v
      | None => Raise OpenAIError
      end
  | _ => Raise OpenAIError
  end.

Definition env_echo : env := {|
  DEPENDENCIES_INSTALLED := true;
  rt := example_runtime;
  client_id := "id";
  client_secret := "secret";
  prompts_js := Absent;
  token_file_writable := true;
  time_time := fun _ => seconds 2000;
  requests_request := fun _ => Ok (example_dumps (JObj fresh_record));
  AzureOpenAI := fun key version url =>
    Ok {| api_key := key; api_version := version; base_url := url |};
  chat_completions_create := fun _ _ messages _ => first_content messages
|}.

(** ** Command line *)

Definition usage : string :=
  "Usage: python llm_client.py " ++ dq ++ "prompt" ++ dq ++ " [" ++ dq ++ "context"
  ++ dq ++ "] [" ++ dq ++ "system_prompt" ++ dq ++ "] [" ++ dq
  ++ "conversation_history_json" ++ dq ++ "] [" ++ dq ++ "db_data_json" ++ dq ++ "]".

Definition invalid_response : string := "Error: Invalid response from LLM".

Definition not_closing (c : ascii) : bool := negb (Ascii.eqb c ">").

(** [<[^>]*>], replaced by the empty text.  The class [[^>]] holds every
    character but [>], newlines included, so from a [<] the match runs to the
    first [>] after it, and there is none when no [>] follows. *)
Definition tag_matcher : matcher := fun _ s =>
  if startswith "<" s then
    let inner := span_class not_closing (drop 1 s) in
    if startswith ">" (drop (1 + String.length inner) s)
    then Some ("", 2 + String.length inner) else None
  else None.

(** [re.sub(r'<[^>]*>', '', response)] *)
Definition strip_tags (response : string) : string := re_sub tag_matcher response.

(** [sys.argv[i] if len(sys.argv) > i else default] *)
Definition argument (argv : list string) (i : nat) (default : string) : string :=
  nth i argv default.

(** The block under [if __name__ == "__main__"]: [argv] is [sys.argv], the
    result is what is printed on the standard output, line by line, and the
    exit status.  [sys.exit(1)] is not caught by [except Exception]; the two
    handlers of the block guard calls that raise nothing here, since
    [get_llm_response] returns under its decorator.  An absent fifth
    argument and an empty one both leave [db_data] at [None], as does one that
    is not JSON. *)
Definition main (e : env) (argv : list string) : state -> (list string * Z) * state :=
  fun st =>
    if Nat.ltb (List.length argv) 2 then (([usage], 1%Z), st)
    else
      let prompt := argument argv 1 "" in
      let context := argument argv 2 "" in
      let system_prompt := argument argv 3 "" in
      let conversation_history_json := argument argv 4 "[]" in
      let db_data_json := argument argv 5 "" in
      let db_data :=
        if negb (String.eqb db_data_json "") then
          match json_loads (rt e) db_data_json with
          | Some v => v
          | None => JNull
          end
        else JNull in
      let '(response, st') :=
        get_llm_response e prompt context system_prompt conversation_history_json
          db_data st in
      let response :=
        if String.eqb response "" then invalid_response else response in
      let response := strip_tags response in
      (([response], 0%Z), st').

(** * Predicates of the statements *)

(** No rule of the three special cases fires on the lowered prompt. *)
Definition no_special_case (prompt_lower : string) : Prop :=
  contains "driveos" prompt_lower && contains "ndas" prompt_lower = false
  /\ contains "dtsi" prompt_lower && contains "startupcmd" prompt_lower = false
  /\ contains "secpolicy" prompt_lower
     || (contains "security" prompt_lower && contains "policy" prompt_lower) = false.

(** Some key of the knowledge base occurs in the lowered prompt. *)
Definition mentions_keyword (prompt_lower : string) : bool :=
  existsb (fun entry => contains (lower (fst entry)) prompt_lower) avos_knowledge.

(** The cache file holds a token record that is still valid at the next
    reading of the clock: [created_at + expires_in] has a value and
    [time.time() < created_at + expires_in] is true, both as Python computes
    them. *)
Definition cache_valid (e : env) (st : state) (access_token : json) : Prop :=
  exists text d created_at expires_in expiry_time,
    token_file st = Content text
    /\ json_loads (rt e) text = Some (JObj d)
    /\ dict_get "created_at" d = Some created_at
    /\ dict_get "expires_in" d = Some expires_in
    /\ dict_get "access_token" d = Some access_token
    /\ py_add created_at expires_in = Ok expiry_time
    /\ py_time_lt (time_time e (ticks st)) expiry_time = Ok true.

(** The cache file holds a token record that has expired at the next reading
    of the clock: the same test is false. *)
Definition cache_expired (e : env) (st : state) : Prop :=
  exists text d created_at expires_in expiry_time,
    token_file st = Content text
    /\ json_loads (rt e) text = Some (JObj d)
    /\ dict_get "created_at" d = Some created_at
    /\ dict_get "expires_in" d = Some expires_in
    /\ py_add created_at expires_in = Ok expiry_time
    /\ py_time_lt (time_time e (ticks st)) expiry_time = Ok false.

(** Reading the cache file fails: it cannot be opened, or it is not JSON. *)
Definition cache_read_fails (e : env) (st : state) : Prop :=
  token_file st = Unreadable
  \/ exists text, token_file st = Content text /\ json_loads (rt e) text = None.

(** The token endpoint answers the request with the JSON object [d]. *)
Definition endpoint_answers (e : env) (r : request) (d : dict) : Prop :=
  exists body, requests_request e r = Ok body /\ json_loads (rt e) body = Some (JObj d).

(** Lines written back one after the other, each with its newline. *)
Fixpoint concat_lines (lines : list string) : string :=
  match lines with
  | [] => ""
  | line :: rest => line ++ nl ++ concat_lines rest
  end.

(** The loop over the lines of a content, from the state [in_code_block] and
    an empty text: the state it ends in and the text it writes. *)
Definition mark_lines (in_code_block : bool) (lines : list string) : bool * string :=
  fold_left mark_step lines (in_code_block, "").

(** Every fence that the lines open is closed by them: the loop that starts
    outside a block ends outside a block. *)
Definition fences_closed (lines : list string) : Prop :=
  fst (mark_lines false lines) = false.

(** A fenced block as the formatter writes it: the start marker, the opening
    fence line, the lines of the block, the closing fence line and the end
    marker. *)
Definition marked_block (opening : string) (body : list string) (closing : string) : string :=
  code_block_start (strip (replace "```" "" (strip opening)))
  ++ opening ++ nl ++ concat_lines body ++ closing ++ nl ++ code_block_end.

(** The content of a record, when it has one, is text. *)
Definition content_is_text (item : json) : Prop :=
  match item with
  | JObj d =>
      match dict_get "content" d with
      | Some (JStr _) | None => True
      | Some _ => False
      end
  | _ => True
  end.

(** The text with every character folded as [re.IGNORECASE] folds it. *)
Fixpoint fold_string (s : string) : string :=
  match s with
  | "" => ""
  | String c s' => String (fold_char c) (fold_string s')
  end.

(** No character of the pattern is a newline, also after folding. *)
Fixpoint on_one_line (p : string) : bool :=
  match p with
  | "" => true
  | String c p' => negb (Ascii.eqb (fold_char c) newline) && on_one_line p'
  end.

(** A consequence of [code_signature] that only looks at the keyword and at
    the character after [import]. *)
Definition signature_keyword (s : string) : bool :=
  (startswith "import" s && head_in isspace (drop 6 s))
  || startswith "def" s || startswith "class" s || startswith "function" s.

(** No line of the text begins, after [strip], with a code signature. *)
Definition no_signature_line (s : string) : Prop :=
  Forall (fun line => code_signature (strip line) = false) (split_lines s).

(** No keyword of the emphasis pass, followed by a colon, is found in the
    text by [re.search] under [re.IGNORECASE]. *)
Definition no_keyword_colon (s : string) : Prop :=
  forall keyword, In keyword important_keywords -> contains_ci (keyword ++ ":") s = false.

(** The pattern [q] differs from the text [a] at a position that both have. *)
Fixpoint mismatch (q a : string) : bool :=
  match q, a with
  | String x q', String y a' => negb (Ascii.eqb x y) || mismatch q' a'
  | _, _ => false
  end.

(** No occurrence of [q] begins in [a], whatever text follows [a]. *)
Fixpoint clear_of (q a : string) : bool :=
  match a with
  | "" => true
  | String _ a' => mismatch q a && clear_of q a'
  end.

(** [no_signature_line] as a test. *)
Definition signature_free (s : string) : bool :=
  forallb (fun line => negb (code_signature (strip line))) (split_lines s).

(** The size of lines once joined, with one more for each line. *)
Fixpoint joined_size (lines : list string) : nat :=
  match lines with
  | [] => 0
  | line :: rest => S (String.length line + joined_size rest)
  end.

(** The context handed on by [get_llm_response] once the formatted database
    data have been joined to it. *)
Definition merged_context (context db_context : string) : string :=
  if negb (String.eqb context "") then context ++ nl ++ nl ++ db_context else db_context.

(** The completion endpoint never answers with the empty text. *)
Definition completion_not_empty (e : env) : Prop :=
  forall c model messages max_tokens,
    chat_completions_create e c model messages max_tokens <> Ok (JStr "").

(** The completion endpoint fails on every call. *)
Definition completion_fails (e : env) : Prop :=
  forall c model messages max_tokens,
    exists x, chat_completions_create e c model messages max_tokens = Raise x.

(** The answer of the token endpoint to the request cannot be used as a token
    record: the request fails, the body is not JSON, or it is JSON but not an
    object. *)
Definition answer_unusable (e : env) (r : request) : Prop :=
  match requests_request e r with
  | Raise _ => True
  | Ok body =>
      match json_loads (rt e) body with
      | Some (JObj _) => False
      | _ => True
      end
  end.

(** The cache file holds a JSON object without one of the two fields that
    date it. *)
Definition cache_undated (e : env) (st : state) : Prop :=
  exists text d,
    token_file st = Content text
    /\ json_loads (rt e) text = Some (JObj d)
    /\ (dict_get "expires_in" d = None \/ dict_get "created_at" d = None).

(** The cache file holds a record that is still valid at the next reading of
    the clock, by the test of the code, and has no [access_token]. *)
Definition cache_valid_without_token (e : env) (st : state) : Prop :=
  exists text d created_at expires_in expiry_time,
    token_file st = Content text
    /\ json_loads (rt e) text = Some (JObj d)
    /\ dict_get "created_at" d = Some created_at
    /\ dict_get "expires_in" d = Some expires_in
    /\ dict_get "access_token" d = None
    /\ py_add created_at expires_in = Ok expiry_time
    /\ py_time_lt (time_time e (ticks st)) expiry_time = Ok true.

(** The completion endpoint answers every call with something that is not
    text, as [None] is. *)
Definition completion_not_text (e : env) : Prop :=
  forall c model messages max_tokens,
    exists v,
      chat_completions_create e c model messages max_tokens = Ok v
      /\ forall s, v <> JStr s.

(** The text as it stands in [enhance_response_formatting] after the fencing
    of code and the emphasis of keywords, before the two passes over list
    markers. *)
Definition emphasised (response : string) : string :=
  highlight_keywords
    (if negb (contains "```" response) && search_code_signature response
     then fence_code response else response).

(** The text begins with a numbered marker [\d+\.\s] or with a bullet marker
    [-\s]. *)
Definition starts_numbered (s : string) : bool :=
  let d := String.length (span_class isdecimal s) in
  Nat.ltb 0 d && startswith "." (drop d s) && head_in isspace (drop (d + 1) s).

Definition starts_bullet (s : string) : bool :=
  startswith "-" s && head_in isspace (drop 1 s).

(** The list [formatted_lines] that [fence_code] joins. *)
Definition formatted_lines (response : string) : list string :=
  let '(in_code_block, formatted_lines) :=
    fold_left fence_step (split_lines response) (false, []) in
  if in_code_block then (formatted_lines ++ ["```"])%list else formatted_lines.

(** The line is one that the fencing adds. *)
Definition added_fence (line : string) : bool :=
  String.eqb line "```python" || String.eqb line "```".

(** Some [<...>] of the pattern of [strip_tags] occurs in the text. *)
Fixpoint has_tag (s : string) : bool :=
  match tag_matcher None s with
  | Some _ => true
  | None =>
      match s with
      | "" => false
      | String _ s' => has_tag s'
      end
  end.

(** The characters other than [x]. *)
Definition not_char (x : ascii) (c : ascii) : bool := negb (Ascii.eqb c x).

(** A Boolean as a count. *)
Definition flag (b : bool) : nat := if b then 1 else 0.

(** * Properties *)

(** ** Text *)

Lemma startswith_app_l (a b s : string) :
  startswith (a ++ b) s = true -> startswith a s = true.
Proof.
  revert s; induction a as [|c a IH]; intros s H; [reflexivity|].
  destruct s as [|d s]; simpl in *; [discriminate|].
  apply andb_true_iff in H as [Hc Hs].
  rewrite Hc; simpl; auto.
Qed.

Lemma contains_app_l (a b s : string) :
  contains (a ++ b) s = true -> contains a s = true.
Proof.
  induction s as [|c s IH]; simpl; intros H.
  - apply orb_true_iff in H as [H|H]; [|discriminate].
    rewrite (startswith_app_l a b "" H); reflexivity.
  - apply orb_true_iff in H as [H|H].
    + rewrite (startswith_app_l a b _ H); reflexivity.
    + rewrite (IH H); apply orb_true_r.
Qed.

Lemma sapp_assoc (a b c : string) : (a ++ b) ++ c = a ++ b ++ c.
Proof. induction a as [|x a IH]; simpl; [reflexivity | now rewrite IH]. Qed.

Lemma sapp_nil_r (a : string) : a ++ "" = a.
Proof. induction a as [|x a IH]; simpl; [reflexivity | now rewrite IH]. Qed.

Lemma slength_app (a b : string) :
  String.length (a ++ b) = String.length a + String.length b.
Proof. induction a as [|x a IH]; simpl; [reflexivity | now rewrite IH]. Qed.

(** A loop that only appends to its accumulator writes the same text after
    any accumulator. *)
Lemma fold_left_appends {A : Type} (f : string -> A -> string) (g : A -> string) :
  (forall acc x, f acc x = acc ++ g x) ->
  forall l acc, fold_left f l acc = acc ++ fold_left f l "".
Proof.
  intros Hf l. induction l as [|x l IH]; intros acc; simpl.
  - now rewrite sapp_nil_r.
  - rewrite (Hf acc x), (Hf "" x). simpl.
    rewrite IH, (IH (g x)). now rewrite sapp_assoc.
Qed.

(** ** Simulated responder *)


Lemma simulated_answer_plain (prompt context response : string) :
  no_special_case (lower prompt) ->
  first_keyword avos_knowledge (lower prompt) default_response = response ->
  contains "I don't have specific information" response = false ->
  simulated_answer prompt context = Ok response.
Proof.
  intros (H1 & H2 & H3) Hk Hd. unfold simulated_answer.
  cbv zeta. rewrite Hk, Hd, andb_false_r, H1, H2, H3. reflexivity.
Qed.

Lemma enhance_fixed_answers :
  enhance_response_formatting drive_info = drive_info
  /\ enhance_response_formatting steps_info = steps_info
  /\ enhance_response_formatting default_response = default_response.
Proof. repeat split; vm_compute; reflexivity. Qed.

(** C10, amended.  The table is scanned in its order and the first key that
    occurs in the prompt wins; a prompt that mentions "driveos", does not
    mention the earlier key "avos" and fires no special case (no pair of a
    compound rule, and not the word "secpolicy") is answered with the entry
    of "drive", which is not the entry of "driveos". *)
Theorem drive_shadows_driveos (prompt context : string) :
  contains "driveos" (lower prompt) = true ->
  contains "avos" (lower prompt) = false ->
  no_special_case (lower prompt) ->
  first_keyword avos_knowledge (lower prompt) default_response = drive_info
  /\ simulated_answer prompt context = Ok drive_info
  /\ get_simulated_response prompt context = drive_info
  /\ drive_info <> driveos_info.
Proof.
  intros Hos Havos Hspecial.
  assert (Hfirst : first_keyword avos_knowledge (lower prompt) default_response
                   = drive_info).
  { unfold avos_knowledge. cbn [first_keyword].
    change (lower "avos") with "avos". rewrite Havos.
    change (lower "drive") with "drive".
    rewrite (contains_app_l "drive" "os" _ Hos). reflexivity. }
  assert (Hanswer : simulated_answer prompt context = Ok drive_info).
  { apply simulated_answer_plain; [assumption | assumption | vm_compute; reflexivity]. }
  repeat split; auto.
  - unfold get_simulated_response. rewrite Hanswer.
    cbn [safe_response]. apply enhance_fixed_answers.
  - intros H. vm_compute in H. discriminate H.
Qed.

Lemma drive_shadows_driveos_witness :
  simulated_answer "Tell me about DriveOS" "" = Ok drive_info
  /\ get_simulated_response "Tell me about DriveOS" "" = drive_info.
Proof.
  destruct (drive_shadows_driveos "Tell me about DriveOS" "") as (_ & H1 & H2 & _);
    [reflexivity | reflexivity | repeat split; reflexivity | ].
  split; assumption.
Defined.

(** C10 as stated fails: the word "secpolicy" is no pair of a compound rule,
    and a prompt with "driveos" and "secpolicy" gets the entry of the
    security policy, not the entry of "drive". *)
Lemma secpolicy_overrides_drive :
  contains "driveos" (lower "driveos secpolicy") = true
  /\ contains "avos" (lower "driveos secpolicy") = false
  /\ contains "ndas" (lower "driveos secpolicy") = false
  /\ contains "dtsi" (lower "driveos secpolicy") = false
  /\ contains "security" (lower "driveos secpolicy") = false
  /\ simulated_answer "driveos secpolicy" "" = Ok secpolicy_info
  /\ get_simulated_response "driveos secpolicy" "" = secpolicy_info
  /\ secpolicy_info <> drive_info.
Proof.
  repeat split; try (vm_compute; reflexivity).
  intros H. vm_compute in H. discriminate H.
Qed.

(** C5, amended.  A prompt that mentions both "driveos" and "ndas" and fires
    neither the rule of "dtsi" with "startupcmd" nor the rule of the security
    policy gets the entry of "steps" as its answer before formatting, and the
    formatter returns that entry unchanged. *)
Theorem driveos_ndas_steps (prompt context : string) :
  contains "driveos" (lower prompt) = true ->
  contains "ndas" (lower prompt) = true ->
  contains "dtsi" (lower prompt) && contains "startupcmd" (lower prompt) = false ->
  contains "secpolicy" (lower prompt)
  || (contains "security" (lower prompt) && contains "policy" (lower prompt)) = false ->
  simulated_answer prompt context = Ok steps_info
  /\ knowledge avos_knowledge "steps" = Ok steps_info
  /\ get_simulated_response prompt context = steps_info.
Proof.
  intros H1 H2 H3 H4.
  assert (Hanswer : simulated_answer prompt context = Ok steps_info).
  { unfold simulated_answer. cbv zeta. rewrite H1, H2, H3, H4. reflexivity. }
  repeat split; auto.
  unfold get_simulated_response. rewrite Hanswer.
  cbn [safe_response]. apply enhance_fixed_answers.
Qed.

Lemma driveos_ndas_steps_witness :
  simulated_answer "How do I bring DriveOS changes into NDAS?" "" = Ok steps_info.
Proof.
  apply (driveos_ndas_steps "How do I bring DriveOS changes into NDAS?" "");
    reflexivity.
Defined.

(** C5 as stated fails: the later special cases overwrite the answer. *)
Lemma driveos_ndas_overridden :
  contains "driveos" (lower "Which secpolicy covers DriveOS and NDAS?") = true
  /\ contains "ndas" (lower "Which secpolicy covers DriveOS and NDAS?") = true
  /\ simulated_answer "Which secpolicy covers DriveOS and NDAS?" "" = Ok secpolicy_info
  /\ simulated_answer "Which secpolicy covers DriveOS and NDAS?" "" <> Ok steps_info.
Proof.
  repeat split; try reflexivity.
  intros H. vm_compute in H. discriminate H.
Qed.

(** ** Token cache *)

Lemma dict_get_set_other (k k' : string) (v : json) (d : dict) :
  k <> k' -> dict_get k (dict_set k' v d) = dict_get k d.
Proof.
  intros Hk. induction d as [|[k0 v0] d IH]; simpl.
  - destruct (String.eqb_spec k k'); [contradiction|reflexivity].
  - destruct (String.eqb_spec k' k0) as [E|E]; simpl.
    + subst k0. destruct (String.eqb_spec k k'); [contradiction|reflexivity].
    + rewrite IH. reflexivity.
Qed.

Lemma dict_has_get (k : string) (d : dict) (v : json) :
  dict_get k d = Some v -> dict_has k d = true.
Proof. unfold dict_has. intros ->. reflexivity. Qed.

Ltac run_effects :=
  unfold get_oauth_token, request_token, read_cache, try_except, bind, lift, ret,
    post_json, write_token_file, now, py_in, py_getitem, py_setitem, dict_index.

(** A valid record is returned from the cache: one reading of the clock, no
    request, the file as it was. *)
Lemma read_cache_hit (e : env) (st : state) (access_token : json) :
  cache_valid e st access_token ->
  read_cache e st
  = (Ok (Some access_token),
     {| token_file := token_file st; ticks := S (ticks st);
        requests_sent := requests_sent st |}).
Proof.
  intros (text & d & c & x & y & Hf & Hl & Hc & Hx & Ha & Hadd & Hlt).
  run_effects. rewrite Hf, Hl.
  rewrite (dict_has_get _ _ _ Hx), (dict_has_get _ _ _ Hc), Hc, Hx, Ha, Hadd.
  cbn. rewrite Hlt. cbn. rewrite ?Hf. reflexivity.
Qed.

Lemma read_cache_expired (e : env) (st : state) :
  cache_expired e st ->
  read_cache e st
  = (Ok None,
     {| token_file := token_file st; ticks := S (ticks st);
        requests_sent := requests_sent st |}).
Proof.
  intros (text & d & c & x & y & Hf & Hl & Hc & Hx & Hadd & Hlt).
  run_effects. rewrite Hf, Hl.
  rewrite (dict_has_get _ _ _ Hx), (dict_has_get _ _ _ Hc), Hc, Hx, Hadd.
  cbn. rewrite Hlt. cbn. rewrite ?Hf. reflexivity.
Qed.

Lemma read_cache_absent (e : env) (st : state) :
  token_file st = Absent -> read_cache e st = (Ok None, st).
Proof. intros H. unfold read_cache. rewrite H. reflexivity. Qed.

Lemma read_cache_fails (e : env) (st : state) :
  cache_read_fails e st -> exists x, read_cache e st = (Raise x, st).
Proof.
  intros [H | (text & H & Hl)]; unfold read_cache; rewrite H.
  - eexists; reflexivity.
  - rewrite Hl. eexists; reflexivity.
Qed.

(** The exchange on an answer that is a JSON object: the request is logged,
    the record is stamped and written, and the result is the lookup of
    [access_token] in it. *)
Lemma request_token_object (e : env) (st : state) (url id secret sc : string) (d : dict) :
  endpoint_answers e (token_request e url id secret sc) d ->
  token_file_writable e = true ->
  request_token e url id secret sc st
  = (dict_index "access_token" d,
     {| token_file :=
          Content (json_dumps (rt e)
                     (JObj (dict_set "created_at" (JNum (time_time e (ticks st))) d)));
        ticks := S (ticks st);
        requests_sent := token_request e url id secret sc :: requests_sent st |}).
Proof.
  intros (body & Hreq & Hl) Hw.
  run_effects. rewrite Hreq, Hl. cbn. rewrite Hw. cbn.
  rewrite dict_get_set_other by discriminate.
  destruct (dict_get "access_token" d); reflexivity.
Qed.

(** [get_oauth_token] never raises. *)
Lemma get_oauth_token_returns (e : env) (st : state) (url id secret sc : string) :
  exists v st', get_oauth_token e url id secret sc st = (Ok v, st').
Proof.
  unfold get_oauth_token, try_except, ret.
  destruct (DEPENDENCIES_INSTALLED e); cbn [negb]; [|eauto].
  match goal with |- context [match ?m st with _ => _ end] => destruct (m st) as [[v|x] st'] end;
    eauto.
Qed.

Lemma get_oauth_token_unfold (e : env) (st : state) (url id secret sc : string) :
  DEPENDENCIES_INSTALLED e = true ->
  get_oauth_token e url id secret sc st
  = match read_cache e st with
    | (Ok (Some access_token), st1) => (Ok access_token, st1)
    | (Ok None, st1) =>
        match request_token e url id secret sc st1 with
        | (Ok v, st2) => (Ok v, st2)
        | (Raise _, st2) => (Ok JNull, st2)
        end
    | (Raise _, st1) => (Ok JNull, st1)
    end.
Proof.
  intros H. unfold get_oauth_token, try_except, bind, ret. rewrite H. cbn [negb].
  destruct (read_cache e st) as [[[v|]|x] st1]; try reflexivity.
Qed.

(** C2, amended.  Without the dependencies [get_oauth_token] returns [None]
    at once, whatever the cache file holds, and changes nothing.  With them:
    a cache file that parses to a record with [created_at] and [expires_in]
    for which [time.time() < created_at + expires_in] is true as Python
    computes it makes the function return the cached [access_token], with no
    request sent and the file left as it was; when the file is absent or that
    test is false, and the endpoint answers with a record that has an
    [access_token] and the file can be written, the request is sent, the
    record is stamped with the reading of the clock taken after the answer,
    the cache file is overwritten with the whole stamped record, and the new
    [access_token] is returned. *)
Theorem token_cache_contract (e : env) (st : state) (url id secret sc : string) :
  (DEPENDENCIES_INSTALLED e = false ->
   get_oauth_token e url id secret sc st = (Ok JNull, st))
  /\ (DEPENDENCIES_INSTALLED e = true ->
      (forall access_token,
          cache_valid e st access_token ->
          exists st',
            get_oauth_token e url id secret sc st = (Ok access_token, st')
            /\ requests_sent st' = requests_sent st
            /\ token_file st' = token_file st)
      /\ (forall d access_token,
             token_file st = Absent \/ cache_expired e st ->
             endpoint_answers e (token_request e url id secret sc) d ->
             dict_get "access_token" d = Some access_token ->
             token_file_writable e = true ->
             exists st' n,
               get_oauth_token e url id secret sc st = (Ok access_token, st')
               /\ requests_sent st' = token_request e url id secret sc :: requests_sent st
               /\ ticks st' = S n /\ (ticks st <= n)%nat
               /\ token_file st'
                  = Content (json_dumps (rt e)
                               (JObj (dict_set "created_at" (JNum (time_time e n)) d))))).
Proof.
  split.
  { intros Hdeps. unfold get_oauth_token. rewrite Hdeps. reflexivity. }
  intros Hdeps. split.
  - intros access_token Hvalid.
    rewrite (get_oauth_token_unfold _ _ _ _ _ _ Hdeps), (read_cache_hit _ _ _ Hvalid).
    eexists. repeat split.
  - intros d access_token Hmiss Hanswer Htoken Hw.
    rewrite (get_oauth_token_unfold _ _ _ _ _ _ Hdeps).
    destruct Hmiss as [Habsent | Hexpired].
    + rewrite (read_cache_absent _ _ Habsent),
        (request_token_object _ _ _ _ _ _ _ Hanswer Hw).
      unfold dict_index. rewrite Htoken.
      eexists. exists (ticks st). repeat split. apply Nat.le_refl.
    + rewrite (read_cache_expired _ _ Hexpired),
        (request_token_object _ _ _ _ _ _ _ Hanswer Hw).
      unfold dict_index. rewrite Htoken.
      eexists. exists (S (ticks st)). repeat split. cbn. apply Nat.le_succ_diag_r.
Qed.

Lemma st_cached_valid (e : env) :
  rt e = example_runtime -> time_time e 0 = seconds 2000 ->
  cache_valid e st_cached (JStr "cached-token").
Proof.
  intros Hrt Ht.
  exists (example_dumps cached_record), [("access_token", JStr "cached-token");
    ("expires_in", JNum 3600); ("created_at", JNum (seconds 1000))],
    (JNum (seconds 1000)), (JNum 3600), (JNum (seconds 4600)).
  rewrite Hrt. cbn [st_cached example_state token_file ticks]. rewrite Ht.
  repeat split; vm_compute; reflexivity.
Qed.

Lemma token_cache_contract_witness :
  get_oauth_token env_no_dependencies token_url "id" "secret" scope st_cached
  = (Ok JNull, st_cached)
  /\ (exists st',
         get_oauth_token env_online token_url "id" "secret" scope st_cached
         = (Ok (JStr "cached-token"), st')
         /\ requests_sent st' = []
         /\ token_file st' = token_file st_cached)
  /\ (exists st' n,
         get_oauth_token env_online token_url "id" "secret" scope st_no_cache
         = (Ok (JStr "new-token"), st')
         /\ requests_sent st' = [token_request env_online token_url "id" "secret" scope]
         /\ ticks st' = S n /\ (0 <= n)%nat
         /\ token_file st'
            = Content (example_dumps
                         (JObj (dict_set "created_at" (JNum (time_time env_online n))
                                  fresh_record)))).
Proof.
  split; [|split].
  - apply (proj1 (token_cache_contract env_no_dependencies st_cached token_url "id"
                    "secret" scope)).
    reflexivity.
  - apply (proj1 (proj2 (token_cache_contract env_online st_cached token_url "id"
                           "secret" scope) eq_refl)).
    apply st_cached_valid; reflexivity.
  - apply (proj2 (proj2 (token_cache_contract env_online st_no_cache token_url "id"
                           "secret" scope) eq_refl) fresh_record (JStr "new-token")).
    + left; reflexivity.
    + exists (example_dumps (JObj fresh_record)). split; reflexivity.
    + reflexivity.
    + reflexivity.
Defined.

(** C2 as stated fails, twice.  Without the imported libraries the function
    returns [None] at once, although the cache holds a valid record.  And the
    test is one of floats: for a record stored when the clock read 2^53 that
    lasts one second, at a clock that still reads 2^53, now is less than
    [created_at + expires_in] as numbers, but the sum is rounded to 2^53, the
    record counts as expired and a new token is requested. *)
Lemma cached_token_not_returned :
  (cache_valid env_no_dependencies st_cached (JStr "cached-token")
   /\ get_oauth_token env_no_dependencies token_url "id" "secret" scope st_cached
      = (Ok JNull, st_cached))
  /\ (json_loads (rt env_late) (example_dumps late_record) = Some late_record
      /\ whole (time_time env_late 0) = Some (2 ^ 53)%Z
      /\ whole (seconds (2 ^ 53)) = Some (2 ^ 53)%Z
      /\ (2 ^ 53 < 2 ^ 53 + 1)%Z
      /\ fst (get_oauth_token env_late token_url "id" "secret" scope st_late)
         = Ok (JStr "new-token")
      /\ requests_sent
           (snd (get_oauth_token env_late token_url "id" "secret" scope st_late))
         = [token_request env_late token_url "id" "secret" scope]).
Proof.
  split; [split; [apply st_cached_valid; reflexivity | reflexivity]|].
  repeat split; vm_compute; reflexivity.
Qed.

(** C3, amended.  A failure while the cache file is read (it cannot be opened,
    or it is not JSON) is caught and makes [get_oauth_token] return [None]
    with no request sent and nothing changed; a failure of the exchange, once
    control has reached it, makes it return [None] as well. *)
Theorem cache_failure_returns_none (e : env) (st : state) (url id secret sc : string) :
  (cache_read_fails e st ->
   get_oauth_token e url id secret sc st = (Ok JNull, st))
  /\ (forall st1 st2 x,
         DEPENDENCIES_INSTALLED e = true ->
         read_cache e st = (Ok None, st1) ->
         request_token e url id secret sc st1 = (Raise x, st2) ->
         get_oauth_token e url id secret sc st = (Ok JNull, st2)).
Proof.
  split.
  - intros Hfail. destruct (DEPENDENCIES_INSTALLED e) eqn:Hdeps.
    + rewrite (get_oauth_token_unfold _ _ _ _ _ _ Hdeps).
      destruct (read_cache_fails _ _ Hfail) as (x & ->). reflexivity.
    + unfold get_oauth_token. rewrite Hdeps. reflexivity.
  - intros st1 st2 x Hdeps Hread Hreq.
    rewrite (get_oauth_token_unfold _ _ _ _ _ _ Hdeps), Hread, Hreq. reflexivity.
Qed.

Lemma cache_failure_returns_none_witness :
  get_oauth_token env_online token_url "id" "secret" scope st_corrupt
  = (Ok JNull, st_corrupt)
  /\ get_oauth_token env_offline token_url "id" "secret" scope st_no_cache
     = (Ok JNull,
        {| token_file := Absent; ticks := 0;
           requests_sent := [token_request env_offline token_url "id" "secret" scope] |}).
Proof.
  split.
  - apply (proj1 (cache_failure_returns_none env_online st_corrupt token_url "id"
                    "secret" scope)).
    right. exists "{". split; reflexivity.
  - apply (proj2 (cache_failure_returns_none env_offline st_no_cache token_url "id"
                    "secret" scope) st_no_cache _ RequestException);
      reflexivity.
Defined.

(** C3 as stated fails: with a cache file that is not JSON and a token
    endpoint that would answer, no request is sent and [None] is returned. *)
Lemma corrupt_cache_is_not_a_miss :
  cache_read_fails env_online st_corrupt
  /\ endpoint_answers env_online (token_request env_online token_url "id" "secret" scope)
       fresh_record
  /\ fst (get_oauth_token env_online token_url "id" "secret" scope st_corrupt) = Ok JNull
  /\ requests_sent
       (snd (get_oauth_token env_online token_url "id" "secret" scope st_corrupt)) = [].
Proof.
  repeat split.
  - right. exists "{". split; reflexivity.
  - exists (example_dumps (JObj fresh_record)). split; reflexivity.
Qed.

(** C9.  When control reaches the exchange and the endpoint answers with a
    JSON object that has no [access_token], [get_oauth_token] returns [None]
    and the cache file has been overwritten with that object and its
    [created_at]. *)
Theorem missing_access_token_overwrites_cache
  (e : env) (st st1 : state) (url id secret sc : string) (d : dict) :
  DEPENDENCIES_INSTALLED e = true ->
  read_cache e st = (Ok None, st1) ->
  endpoint_answers e (token_request e url id secret sc) d ->
  dict_get "access_token" d = None ->
  token_file_writable e = true ->
  exists st2,
    get_oauth_token e url id secret sc st = (Ok JNull, st2)
    /\ token_file st2
       = Content (json_dumps (rt e)
                    (JObj (dict_set "created_at" (JNum (time_time e (ticks st1))) d)))
    /\ requests_sent st2 = token_request e url id secret sc :: requests_sent st1.
Proof.
  intros Hdeps Hread Hanswer Hnone Hw.
  rewrite (get_oauth_token_unfold _ _ _ _ _ _ Hdeps), Hread,
    (request_token_object _ _ _ _ _ _ _ Hanswer Hw).
  unfold dict_index. rewrite Hnone.
  eexists. repeat split.
Qed.

Lemma missing_access_token_overwrites_cache_witness :
  exists st2,
    get_oauth_token env_rejected token_url "id" "secret" scope st_no_cache = (Ok JNull, st2)
    /\ token_file st2
       = Content (example_dumps
                    (JObj [("error", JStr "invalid_client"); ("created_at", JNum (seconds 2000))]))
    /\ requests_sent st2 = [token_request env_rejected token_url "id" "secret" scope].
Proof.
  apply (missing_access_token_overwrites_cache env_rejected st_no_cache st_no_cache
           token_url "id" "secret" scope error_record); try reflexivity.
  exists (example_dumps (JObj error_record)). split; reflexivity.
Defined.

(** ** Context formatter *)

Lemma mark_step_appends (in_code_block : bool) (acc line : string) :
  mark_step (in_code_block, acc) line
  = (fst (mark_step (in_code_block, "") line),
     acc ++ snd (mark_step (in_code_block, "") line)).
Proof.
  unfold mark_step.
  destruct (opens_fence line && negb in_code_block); [reflexivity|].
  destruct (bare_fence line && in_code_block); reflexivity.
Qed.

Lemma mark_fold_appends (lines : list string) (in_code_block : bool) (acc : string) :
  fold_left mark_step lines (in_code_block, acc)
  = (fst (mark_lines in_code_block lines), acc ++ snd (mark_lines in_code_block lines)).
Proof.
  unfold mark_lines. revert in_code_block acc.
  induction lines as [|line lines IH]; intros b acc; cbn [fold_left fst snd].
  - now rewrite sapp_nil_r.
  - rewrite (mark_step_appends b acc).
    destruct (mark_step (b, "") line) as [b' t]. cbn [fst snd].
    rewrite (IH b' (acc ++ t)), (IH b' t). cbn [fst snd]. now rewrite sapp_assoc.
Qed.

(** Inside a block, lines that are not a bare fence are copied. *)
Lemma mark_lines_body (body : list string) :
  Forall (fun line => bare_fence line = false) body ->
  mark_lines true body = (true, concat_lines body).
Proof.
  induction 1 as [|line body Hline _ IH]; [reflexivity|].
  unfold mark_lines. cbn [fold_left]. unfold mark_step at 2.
  rewrite Hline, andb_false_r. cbn [andb].
  rewrite mark_fold_appends, IH. cbn [fst snd]. now rewrite !sapp_assoc.
Qed.

(** The text written for the lines of a content that hold a fenced block. *)
Lemma mark_lines_block (before body after : list string) (opening closing : string) :
  fences_closed before ->
  opens_fence opening = true ->
  Forall (fun line => bare_fence line = false) body ->
  bare_fence closing = true ->
  snd (mark_lines false (before ++ opening :: body ++ closing :: after))
  = snd (mark_lines false before) ++ marked_block opening body closing
    ++ snd (mark_lines false after).
Proof.
  intros Hbefore Hopen Hbody Hclose.
  unfold mark_lines at 1. rewrite fold_left_app.
  rewrite (surjective_pairing (fold_left mark_step before (false, ""))).
  fold (mark_lines false before). rewrite Hbefore.
  cbn [fold_left]. unfold mark_step at 2. rewrite Hopen. cbn [negb andb].
  rewrite fold_left_app, mark_fold_appends, (mark_lines_body body Hbody).
  cbn [fst snd fold_left]. unfold mark_step at 2.
  replace (opens_fence closing && negb true) with false by now rewrite andb_false_r.
  rewrite Hclose. cbn [andb].
  rewrite mark_fold_appends. cbn [snd]. unfold marked_block.
  now rewrite !sapp_assoc.
Qed.

Lemma format_other_fields_appends (rt : runtime) (d : dict) (acc : string) :
  format_other_fields rt d acc = acc ++ format_other_fields rt d "".
Proof.
  unfold format_other_fields.
  apply (fold_left_appends _
           (fun kv => if String.eqb (fst kv) "pageTitle" || String.eqb (fst kv) "content"
                      then "" else format_field rt "" kv)).
  intros a kv.
  destruct (String.eqb (fst kv) "pageTitle" || String.eqb (fst kv) "content").
  - now rewrite sapp_nil_r.
  - reflexivity.
Qed.

(** A record whose content is text is formatted without an exception, and
    what it adds does not depend on the text before it. *)
Lemma format_item_appends (rt : runtime) (i : nat) (item : json) :
  content_is_text item ->
  exists text, forall acc, format_item rt i item acc = Ok (acc ++ text).
Proof.
  intros Htext. destruct item as [| b | n | s | l | d];
    try (eexists; intros acc; cbn [format_item]; reflexivity).
  cbn [format_item content_is_text] in *.
  set (title := match dict_get "pageTitle" d with
                | Some t => "## " ++ format_value rt t ++ nl ++ nl
                | None => ""
                end).
  assert (Htitle : forall acc,
             match dict_get "pageTitle" d with
             | Some t => acc ++ "## " ++ format_value rt t ++ nl ++ nl
             | None => acc
             end = acc ++ title).
  { intros acc. unfold title. destruct (dict_get "pageTitle" d);
      [reflexivity | now rewrite sapp_nil_r]. }
  destruct (dict_get "content" d) as [[| | | content | |]|]; try contradiction.
  - exists (title ++ (snd (mark_lines false (split_lines content)) ++ nl)
            ++ format_other_fields rt d "" ++ nl ++ "---" ++ nl ++ nl).
    intros acc. rewrite Htitle, mark_fold_appends. cbn [snd].
    rewrite format_other_fields_appends. now rewrite !sapp_assoc.
  - exists (title ++ format_other_fields rt d "" ++ nl ++ "---" ++ nl ++ nl).
    intros acc. rewrite Htitle, format_other_fields_appends. now rewrite !sapp_assoc.
Qed.

Lemma format_items_appends (rt : runtime) (items : list json) :
  Forall content_is_text items ->
  forall i, exists text, forall acc, format_items rt i items acc = Ok (acc ++ text).
Proof.
  induction 1 as [|item items Hitem _ IH]; intros i.
  - exists "". intros acc. cbn. now rewrite sapp_nil_r.
  - destruct (format_item_appends rt i item Hitem) as (t & Ht).
    destruct (IH (S i)) as (ts & Hts).
    exists (t ++ ts). intros acc. cbn [format_items].
    rewrite Ht, Hts. now rewrite sapp_assoc.
Qed.

(** The text of a record whose content holds a fenced block holds the block
    as marked. *)
Lemma format_item_block (rt : runtime) (i : nat) (d : dict) (content : string)
  (before body after : list string) (opening closing : string) :
  dict_get "content" d = Some (JStr content) ->
  split_lines content = (before ++ opening :: body ++ closing :: after)%list ->
  fences_closed before ->
  opens_fence opening = true ->
  Forall (fun line => bare_fence line = false) body ->
  bare_fence closing = true ->
  exists pre post, forall acc,
    format_item rt i (JObj d) acc
    = Ok (acc ++ pre ++ marked_block opening body closing ++ post).
Proof.
  intros Hcontent Hlines Hbefore Hopen Hbody Hclose.
  exists (match dict_get "pageTitle" d with
          | Some t => "## " ++ format_value rt t ++ nl ++ nl
          | None => ""
          end ++ snd (mark_lines false before)),
    (snd (mark_lines false after) ++ nl
     ++ format_other_fields rt d "" ++ nl ++ "---" ++ nl ++ nl).
  intros acc. cbn [format_item]. rewrite Hcontent, Hlines.
  rewrite mark_fold_appends. cbn [snd].
  rewrite (mark_lines_block before body after opening closing Hbefore Hopen Hbody Hclose).
  rewrite format_other_fields_appends.
  destruct (dict_get "pageTitle" d); rewrite !sapp_assoc; reflexivity.
Qed.

(** C4, amended.  For a list payload whose records have text as content, and a record
    of it whose content holds a fenced code block (an opening fence line met
    outside a block, lines that are not a bare fence, a closing bare fence
    line), [format_db_data_for_llm] returns a text that holds the start marker
    with the language of the opening line, then the opening fence line, the
    lines of the block and the closing fence line, all unchanged and each
    followed by a newline, then the end marker. *)
Theorem fenced_block_preserved (rt : runtime) (items : list json) (k : nat) (d : dict)
  (content : string) (before body after : list string) (opening closing : string) :
  Forall content_is_text items ->
  nth_error items k = Some (JObj d) ->
  dict_get "content" d = Some (JStr content) ->
  split_lines content = (before ++ opening :: body ++ closing :: after)%list ->
  fences_closed before ->
  opens_fence opening = true ->
  Forall (fun line => bare_fence line = false) body ->
  bare_fence closing = true ->
  exists pre post,
    format_db_data_for_llm rt (JList items)
    = Ok (pre
          ++ (nl ++ "<CODE_BLOCK_START lang=" ++ dq
              ++ strip (replace "```" "" (strip opening)) ++ dq ++ ">" ++ nl)
          ++ opening ++ nl
          ++ concat_lines body
          ++ closing ++ nl
          ++ ("<CODE_BLOCK_END>" ++ nl ++ nl)
          ++ post).
Proof.
  intros Htyped Hk Hcontent Hlines Hbefore Hopen Hbody Hclose.
  destruct (nth_error_split items k Hk) as (l1 & l2 & -> & Hlen).
  apply Forall_app in Htyped as [Ht1 Ht2].
  apply Forall_cons_iff in Ht2 as [_ Ht2].
  destruct (format_items_appends rt l1 Ht1 0) as (t1 & H1).
  destruct (format_items_appends rt l2 Ht2 (S (0 + List.length l1))) as (t2 & H2).
  destruct (format_item_block rt (0 + List.length l1) d content before body after
              opening closing Hcontent Hlines Hbefore Hopen Hbody Hclose)
    as (pre & post & Hitem).
  exists (db_header ++ t1 ++ pre), (post ++ t2 ++ db_footer ++ db_reminder).
  unfold format_db_data_for_llm.
  replace (truthy (JList (l1 ++ JObj d :: l2))) with true
    by (cbn; rewrite length_app; cbn; now rewrite Nat.add_succ_r).
  cbn [negb].
  assert (Hsplit : forall i acc,
             format_items rt i (l1 ++ JObj d :: l2) acc
             = match format_items rt i l1 acc with
               | Ok acc1 =>
                   match format_item rt (i + List.length l1) (JObj d) acc1 with
                   | Ok acc2 => format_items rt (S (i + List.length l1)) l2 acc2
                   | Raise x => Raise x
                   end
               | Raise x => Raise x
               end).
  { clear. induction l1 as [|a l1 IH]; intros i acc.
    - cbn [app format_items List.length]. now rewrite Nat.add_0_r.
    - cbn [app format_items List.length].
      destruct (format_item rt i a acc); [|reflexivity].
      rewrite IH. now rewrite Nat.add_succ_r. }
  rewrite Hsplit, H1, Hitem, H2.
  f_equal. unfold marked_block, code_block_start, code_block_end.
  now rewrite !sapp_assoc.
Qed.

Lemma fenced_block_preserved_witness :
  exists pre post,
    format_db_data_for_llm example_runtime (JList example_payload)
    = Ok (pre
          ++ (nl ++ "<CODE_BLOCK_START lang=" ++ dq
              ++ strip (replace "```" "" (strip "```bash")) ++ dq ++ ">" ++ nl)
          ++ "```bash" ++ nl
          ++ concat_lines ["  make all"]
          ++ "```" ++ nl
          ++ ("<CODE_BLOCK_END>" ++ nl ++ nl)
          ++ post).
Proof.
  apply (fenced_block_preserved example_runtime example_payload 1 example_record
           example_content ["Run:"] ["  make all"] ["Done."] "```bash" "```").
  - repeat constructor.
  - reflexivity.
  - reflexivity.
  - reflexivity.
  - reflexivity.
  - reflexivity.
  - repeat constructor.
  - reflexivity.
Defined.

(** C4 as stated fails: a record whose content is not text, before or after
    the record with the fenced block, makes the call raise, and nothing of the
    block is returned. *)
Lemma fenced_block_lost :
  dict_get "content" example_record = Some (JStr example_content)
  /\ split_lines example_content = ["Run:"; "```bash"; "  make all"; "```"; "Done."]
  /\ format_db_data_for_llm example_runtime
       (JList [JObj [("content", JNull)]; JObj example_record])
     = Raise AttributeError
  /\ format_db_data_for_llm example_runtime
       (JList [JObj example_record; JObj [("content", JNull)]])
     = Raise AttributeError.
Proof. repeat split; vm_compute; reflexivity. Qed.

(** The whole text written for the example payload. *)
Example format_example :
  format_db_data_for_llm example_runtime (JList example_payload)
  = Ok (db_header
        ++ "Item 1:" ++ nl ++ "see the wiki" ++ nl ++ nl
        ++ "## Build" ++ nl ++ nl
        ++ "Run:" ++ nl
        ++ nl ++ "<CODE_BLOCK_START lang=" ++ dq ++ "bash" ++ dq ++ ">" ++ nl
        ++ "```bash" ++ nl
        ++ "  make all" ++ nl
        ++ "```" ++ nl
        ++ "<CODE_BLOCK_END>" ++ nl ++ nl
        ++ "Done." ++ nl
        ++ nl
        ++ "- source: wiki" ++ nl
        ++ nl ++ "---" ++ nl ++ nl
        ++ db_footer ++ db_reminder).
Proof. vm_compute. reflexivity. Qed.

(** A record whose content is not text makes the call raise. *)
Example format_raises :
  format_db_data_for_llm example_runtime (JList [JObj [("content", JNum 5)]])
  = Raise AttributeError.
Proof. reflexivity. Qed.

(** ** Substitution *)

Lemma take_drop (n : nat) (s : string) : take n s ++ drop n s = s.
Proof.
  revert s; induction n as [|n IH]; intros [|c s]; simpl; try reflexivity.
  now rewrite IH.
Qed.

(** A matcher that matches nowhere after the first character leaves the rest
    of the text as it is. *)
Lemma sub_scan_start_only (m : matcher) :
  (forall c t, m (Some c) t = None) ->
  forall s k c, sub_scan m k (Some c) s = drop k s.
Proof.
  intros Hm s. induction s as [|a s IH]; intros k c.
  - destruct k; reflexivity.
  - destruct k as [|k]; cbn [sub_scan drop].
    + rewrite Hm, IH. reflexivity.
    + apply IH.
Qed.

Lemma re_sub_start_only (m : matcher) (s : string) :
  (forall c t, m (Some c) t = None) ->
  m None "" = None ->
  (forall t out, m None t <> Some (out, 0)) ->
  re_sub m s = match m None s with
               | Some (out, n) => out ++ drop n s
               | None => s
               end.
Proof.
  intros Hm Hnil Hpos. unfold re_sub. destruct s as [|a s]; cbn [sub_scan].
  - now rewrite Hnil.
  - destruct (m None (String a s)) as [[out n]|] eqn:E.
    + rewrite sub_scan_start_only by assumption.
      destruct n; [now apply Hpos in E | reflexivity].
    + rewrite sub_scan_start_only by assumption. reflexivity.
Qed.

(** Skipping to the end of the text leaves nothing. *)
Lemma sub_scan_skip_all (m : matcher) (s : string) :
  forall k prev, String.length s <= k -> sub_scan m k prev s = "".
Proof.
  induction s as [|a s IH]; intros k prev Hk; [reflexivity|].
  destruct k as [|k]; cbn in Hk; [lia|].
  cbn [sub_scan]. apply IH. lia.
Qed.

(** A matcher whose replacements are never empty maps no text but the empty
    one to the empty text. *)
Lemma re_sub_nonempty (m : matcher) (s : string) :
  (forall prev t out n, m prev t = Some (out, n) -> out <> "") ->
  re_sub m s = "" -> s = "".
Proof.
  intros Hm. unfold re_sub. destruct s as [|a s]; [reflexivity|].
  cbn [sub_scan]. destruct (m None (String a s)) as [[out n]|] eqn:E.
  - apply Hm in E. destruct out; [contradiction | discriminate].
  - discriminate.
Qed.

(** ** List markers *)

Lemma line_start_after_char (c : ascii) :
  not_after_newline (Some c) && at_line_start (Some c) = false.
Proof. cbn. destruct (Ascii.eqb c newline); reflexivity. Qed.

Lemma numbered_matcher_later (c : ascii) (t : string) : numbered_matcher (Some c) t = None.
Proof. unfold numbered_matcher. now rewrite line_start_after_char. Qed.

Lemma bullet_matcher_later (c : ascii) (t : string) : bullet_matcher (Some c) t = None.
Proof. unfold bullet_matcher. now rewrite line_start_after_char. Qed.

Lemma numbered_matcher_positive (t out : string) : numbered_matcher None t <> Some (out, 0).
Proof.
  unfold numbered_matcher.
  match goal with |- context [if ?b then _ else _] => destruct b end;
    [intros H; inversion H; lia | discriminate].
Qed.

Lemma bullet_matcher_positive (t out : string) : bullet_matcher None t <> Some (out, 0).
Proof.
  unfold bullet_matcher.
  match goal with |- context [if ?b then _ else _] => destruct b end; discriminate.
Qed.

(** The two passes over list markers only ever touch the start of the text,
    where they put a newline before a marker. *)
Lemma re_sub_numbered (s : string) :
  re_sub numbered_matcher s = s \/ re_sub numbered_matcher s = nl ++ s.
Proof.
  rewrite re_sub_start_only by first [apply numbered_matcher_later | reflexivity | apply numbered_matcher_positive].
  unfold numbered_matcher. cbn [not_after_newline at_line_start andb].
  match goal with |- context [if ?b then _ else _] => destruct b end; [right | now left].
  now rewrite sapp_assoc, take_drop.
Qed.

Lemma re_sub_bullet (s : string) :
  re_sub bullet_matcher s = s \/ re_sub bullet_matcher s = nl ++ s.
Proof.
  rewrite re_sub_start_only by first [apply bullet_matcher_later | reflexivity | apply bullet_matcher_positive].
  unfold bullet_matcher. cbn [not_after_newline at_line_start andb].
  match goal with |- context [if ?b then _ else _] => destruct b end; [right | now left].
  now rewrite sapp_assoc, take_drop.
Qed.

Lemma re_sub_numbered_other (c : ascii) (s : string) :
  isdecimal c = false -> re_sub numbered_matcher (String c s) = String c s.
Proof.
  intros Hc. rewrite re_sub_start_only by first [apply numbered_matcher_later | reflexivity | apply numbered_matcher_positive].
  unfold numbered_matcher. cbn [span_class]. rewrite Hc. reflexivity.
Qed.

Lemma re_sub_bullet_other (c : ascii) (s : string) :
  Ascii.eqb "-" c = false -> re_sub bullet_matcher (String c s) = String c s.
Proof.
  intros Hc. rewrite re_sub_start_only by first [apply bullet_matcher_later | reflexivity | apply bullet_matcher_positive].
  unfold bullet_matcher. cbn [startswith]. rewrite Hc. reflexivity.
Qed.

(** ** Matching without regard to case *)

Lemma fold_string_app (a b : string) :
  fold_string (a ++ b) = fold_string a ++ fold_string b.
Proof. induction a as [|c a IH]; simpl; [reflexivity | now rewrite IH]. Qed.

Lemma startswith_ci_fold (p s : string) :
  startswith_ci p s = startswith (fold_string p) (fold_string s).
Proof.
  revert s; induction p as [|a p IH]; intros [|b s]; simpl; try reflexivity.
  now rewrite IH.
Qed.

Lemma contains_ci_fold (p s : string) :
  contains_ci p s = contains (fold_string p) (fold_string s).
Proof.
  induction s as [|b s IH]; cbn [contains_ci contains fold_string].
  - now rewrite startswith_ci_fold.
  - rewrite IH. f_equal. apply (startswith_ci_fold p (String b s)).
Qed.

(** A newline in the text separates the occurrences of a pattern that holds
    no newline. *)
Lemma startswith_ci_before_newline (p s t : string) :
  on_one_line p = true -> p <> "" ->
  startswith_ci p (s ++ nl ++ t) = startswith_ci p s.
Proof.
  revert s; induction p as [|a p IH]; intros s Hp Hne; [contradiction|].
  cbn [on_one_line] in Hp. apply andb_true_iff in Hp as [Ha Hp].
  destruct s as [|b s]; cbn [append startswith_ci nl].
  - replace (fold_char newline) with newline by reflexivity.
    apply negb_true_iff in Ha. now rewrite Ha.
  - destruct p as [|a' p]; [reflexivity|].
    rewrite IH; [reflexivity | assumption | discriminate].
Qed.

Lemma contains_ci_across_newline (p s t : string) :
  on_one_line p = true -> p <> "" ->
  contains_ci p (s ++ nl ++ t) = contains_ci p s || contains_ci p t.
Proof.
  intros Hp Hne. induction s as [|b s IH].
  - destruct p as [|a p]; [contradiction|].
    cbn [on_one_line] in Hp. apply andb_true_iff in Hp as [Ha _].
    apply negb_true_iff in Ha.
    cbn [append nl contains_ci startswith_ci].
    replace (fold_char newline) with newline by reflexivity.
    now rewrite Ha.
  - change (String b s ++ nl ++ t) with (String b (s ++ nl ++ t)).
    cbn [contains_ci]. rewrite IH, <- orb_assoc. f_equal.
    apply (startswith_ci_before_newline p (String b s) t Hp Hne).
Qed.

Lemma contains_ci_newline (p s : string) :
  on_one_line p = true -> p <> "" ->
  contains_ci p (s ++ nl) = contains_ci p s.
Proof.
  intros Hp Hne.
  change (s ++ nl) with (s ++ nl ++ "").
  rewrite (contains_ci_across_newline p s "" Hp Hne).
  destruct p; [contradiction | cbn; apply orb_false_r].
Qed.

(** ** Keyword emphasis *)

(** Where the keyword does not occur, its pass changes nothing. *)
Lemma keyword_pass_absent (keyword s : string) :
  contains_ci (keyword ++ ":") s = false ->
  re_sub (keyword_matcher keyword) s = s.
Proof.
  unfold re_sub. generalize (@None ascii).
  induction s as [|c s IH]; intros prev H; [reflexivity|].
  cbn [contains_ci] in H. apply orb_false_iff in H as [H1 H2].
  cbn [sub_scan]. unfold keyword_matcher at 1. rewrite H1.
  now rewrite IH.
Qed.

Lemma take_app_length (a b : string) : take (String.length a) (a ++ b) = a.
Proof. induction a as [|c a IH]; simpl; [now destruct b | now rewrite IH]. Qed.

Lemma drop_app_length (a b : string) : drop (String.length a) (a ++ b) = b.
Proof. induction a as [|c a IH]; simpl; [reflexivity | exact IH]. Qed.

Lemma span_line (rest : string) :
  contains nl rest = false ->
  span_class not_newline rest = rest /\ span_class not_newline (rest ++ nl) = rest.
Proof.
  induction rest as [|c rest IH]; intros H; [split; reflexivity|].
  cbn [contains] in H. apply orb_false_iff in H as [H1 H2].
  cbn [startswith nl] in H1.
  assert (Hc : not_newline c = true).
  { unfold not_newline. rewrite Ascii.eqb_sym.
    destruct (Ascii.eqb newline c); [discriminate H1 | reflexivity]. }
  destruct (IH H2) as [IH1 IH2].
  cbn [append span_class]. rewrite Hc, IH1, IH2. split; reflexivity.
Qed.

(** On a line that begins with the keyword and its colon, in any case, the
    pass of the keyword wraps that head and copies the rest of the line and
    its newline. *)
Lemma keyword_pass_line (keyword head rest eol : string) :
  startswith_ci (keyword ++ ":") head = true ->
  String.length head = String.length (keyword ++ ":") ->
  contains nl rest = false ->
  eol = "" \/ eol = nl ->
  re_sub (keyword_matcher keyword) (head ++ rest ++ eol)
  = "**_" ++ head ++ "_** " ++ rest ++ eol.
Proof.
  intros Hhead Hlen Hrest Heol.
  assert (Hstart : startswith_ci (keyword ++ ":") (head ++ rest ++ eol) = true).
  { clear - Hhead. revert Hhead. generalize (keyword ++ ":") as p.
    induction head as [|c h IH]; intros [|a p] H; cbn in *; try reflexivity;
      try discriminate.
    apply andb_true_iff in H as [H1 H2]. rewrite H1. cbn. now apply IH. }
  assert (Hspan : span_class not_newline (rest ++ eol) = rest).
  { destruct (span_line rest Hrest) as [H1 H2].
    destruct Heol as [-> | ->]; [now rewrite sapp_nil_r | assumption]. }
  unfold re_sub.
  destruct (head ++ rest ++ eol) as [|c s] eqn:E.
  { destruct head; [destruct keyword; discriminate Hlen | discriminate E]. }
  cbn [sub_scan]. unfold keyword_matcher at 1.
  rewrite Hstart, <- E, <- Hlen.
  rewrite take_app_length, drop_app_length, Hspan.
  replace (drop (String.length head + String.length rest) (head ++ rest ++ eol))
    with eol
    by (now rewrite <- slength_app, <- sapp_assoc, drop_app_length).
  assert (Hg3 : (if startswith nl eol then nl else "") = eol)
    by (destruct Heol as [-> | ->]; reflexivity).
  rewrite Hg3, sub_scan_skip_all.
  - now rewrite sapp_nil_r.
  - assert (Hl : String.length (String c s)
                 = String.length head + String.length rest + String.length eol)
      by (rewrite <- E, !slength_app; lia).
    cbn [String.length] in Hl. lia.
Qed.

(** ** Lines *)

Lemma split_lines_nonempty (s : string) : split_lines s <> [].
Proof.
  destruct s as [|c s]; cbn; [discriminate|].
  destruct (Ascii.eqb c newline); [discriminate|].
  destruct (split_lines s); discriminate.
Qed.

Lemma join_split (s : string) : join_lines (split_lines s) = s.
Proof.
  induction s as [|c s IH]; [reflexivity|].
  cbn [split_lines]. destruct (Ascii.eqb_spec c newline) as [-> | Hc].
  - pose proof (split_lines_nonempty s) as Hne.
    destruct (split_lines s) as [|l ls]; [contradiction|].
    change (join_lines ("" :: l :: ls)) with ("" ++ nl ++ join_lines (l :: ls)).
    rewrite IH. reflexivity.
  - pose proof (split_lines_nonempty s) as Hne.
    destruct (split_lines s) as [|l ls]; [contradiction|].
    destruct ls as [|l' ls]; cbn in IH |- *; now rewrite <- IH.
Qed.

Lemma split_single_line (t : string) :
  contains nl t = false ->
  split_lines t = [t] /\ split_lines (t ++ nl) = [t; ""].
Proof.
  induction t as [|c t IH]; intros H; [split; reflexivity|].
  cbn [contains] in H. apply orb_false_iff in H as [H1 H2].
  cbn [startswith nl] in H1. rewrite Ascii.eqb_sym in H1.
  assert (Hc : Ascii.eqb c newline = false)
    by (destruct (Ascii.eqb c newline); [discriminate H1 | reflexivity]).
  destruct (IH H2) as [IH1 IH2].
  cbn [append split_lines]. rewrite Hc, IH1, IH2. split; reflexivity.
Qed.

Lemma split_lines_app_newline (a b : string) :
  split_lines (a ++ nl ++ b) = (split_lines a ++ split_lines b)%list.
Proof.
  induction a as [|c a IH]; [reflexivity|].
  change (String c a ++ nl ++ b) with (String c (a ++ nl ++ b)).
  cbn [split_lines]. rewrite IH.
  destruct (Ascii.eqb c newline); [reflexivity|].
  pose proof (split_lines_nonempty a) as Hne.
  destruct (split_lines a); [contradiction | reflexivity].
Qed.

Lemma contains_nl_app (a b : string) :
  contains nl (a ++ b) = contains nl a || contains nl b.
Proof.
  induction a as [|c a IH].
  - cbn [append]. destruct b; reflexivity.
  - cbn [append contains]. rewrite IH. cbn [startswith nl].
    destruct (Ascii.eqb newline c); reflexivity.
Qed.

(** ** Code fencing *)

Lemma fence_fold_plain (lines : list string) :
  Forall (fun line => code_signature (strip line) = false) lines ->
  forall acc, fold_left fence_step lines (false, acc) = (false, (acc ++ lines)%list).
Proof.
  induction 1 as [|line lines Hline _ IH]; intros acc; cbn [fold_left].
  - now rewrite app_nil_r.
  - unfold fence_step at 2. rewrite Hline. cbn [andb].
    rewrite IH, <- app_assoc. reflexivity.
Qed.

(** Where no line begins with a code signature, fencing changes nothing. *)
Lemma fence_code_plain (s : string) : no_signature_line s -> fence_code s = s.
Proof.
  intros H. unfold fence_code. rewrite (fence_fold_plain _ H []).
  cbn [app]. apply join_split.
Qed.

Lemma signature_free_correct (s : string) :
  signature_free s = true -> no_signature_line s.
Proof.
  unfold signature_free, no_signature_line. intros H.
  apply Forall_forall. intros line Hin.
  rewrite forallb_forall in H. apply H in Hin.
  now apply negb_true_iff in Hin.
Qed.

Lemma fence_stage_plain (s : string) :
  no_signature_line s ->
  (if negb (contains "```" s) && search_code_signature s then fence_code s else s) = s.
Proof.
  intros H. destruct (negb (contains "```" s) && search_code_signature s);
    [now apply fence_code_plain | reflexivity].
Qed.

(** ** Folding and the code signature *)

Lemma isspace_fold (c : ascii) : isspace (fold_char c) = isspace c.
Proof. destruct c as [[] [] [] [] [] [] [] []]; reflexivity. Qed.

Lemma eqb_fold (a b : ascii) :
  Ascii.eqb a b = true -> Ascii.eqb (fold_char a) (fold_char b) = true.
Proof. intros H. apply Ascii.eqb_eq in H. subst. apply Ascii.eqb_refl. Qed.

Lemma startswith_fold (p s : string) :
  startswith p s = true -> startswith (fold_string p) (fold_string s) = true.
Proof.
  revert s; induction p as [|a p IH]; intros [|b s] H; cbn in *; try reflexivity;
    try discriminate.
  apply andb_true_iff in H as [H1 H2].
  now rewrite (eqb_fold _ _ H1), (IH _ H2).
Qed.

Lemma drop_fold (n : nat) (s : string) : drop n (fold_string s) = fold_string (drop n s).
Proof. revert s; induction n as [|n IH]; intros [|c s]; cbn; auto. Qed.

Lemma head_isspace_fold (s : string) :
  head_in isspace (fold_string s) = head_in isspace s.
Proof. destruct s; [reflexivity | apply isspace_fold]. Qed.

Lemma lstrip_fold (s : string) : lstrip (fold_string s) = fold_string (lstrip s).
Proof.
  unfold lstrip. induction s as [|c s IH]; [reflexivity|].
  cbn [fold_string skip_class]. rewrite isspace_fold.
  destruct (isspace c); [exact IH | reflexivity].
Qed.

Lemma rstrip_fold (s : string) : rstrip (fold_string s) = fold_string (rstrip s).
Proof.
  induction s as [|c s IH]; [reflexivity|].
  cbn [fold_string rstrip]. rewrite IH, isspace_fold.
  destruct (rstrip s); cbn [fold_string]; [destruct (isspace c)|]; reflexivity.
Qed.

Lemma strip_fold (s : string) : strip (fold_string s) = fold_string (strip s).
Proof. unfold strip. now rewrite lstrip_fold, rstrip_fold. Qed.


(** A code signature begins with one of the four words, also after folding,
    and [import] is followed by a space. *)
Lemma code_signature_keyword (s : string) :
  code_signature s = true -> signature_keyword (fold_string s) = true.
Proof.
  unfold code_signature, signature_keyword, head_import, head_signature.
  intros H. rewrite !orb_true_iff in H. rewrite !orb_true_iff.
  destruct H as [[[H | H] | H] | H]; apply andb_true_iff in H as [H1 H2].
  - left; left; left. apply andb_true_iff in H2 as [H2 _].
    pose proof (startswith_fold "import" s H1) as F.
    change (fold_string "import") with "import" in F.
    now rewrite F, drop_fold, head_isspace_fold, H2.
  - left; left; right. exact (startswith_fold "def" s H1).
  - left; right. exact (startswith_fold "class" s H1).
  - right. exact (startswith_fold "function" s H1).
Qed.

Lemma not_signature_by_keyword (s : string) :
  signature_keyword (fold_string s) = false -> code_signature s = false.
Proof.
  intros H. destruct (code_signature s) eqn:E; [|reflexivity].
  apply code_signature_keyword in E. congruence.
Qed.

(** Text that matches a pattern of its own length, in any case, folds to the
    folded pattern and holds no newline when the pattern holds none. *)
Lemma fold_of_match (p h : string) :
  startswith_ci p h = true -> String.length h = String.length p ->
  fold_string h = fold_string p.
Proof.
  revert h; induction p as [|a p IH]; intros [|b h] H Hl; cbn in *;
    try reflexivity; try discriminate.
  apply andb_true_iff in H as [H1 H2]. apply Ascii.eqb_eq in H1.
  rewrite H1. f_equal. apply IH; [assumption | lia].
Qed.

Lemma contains_nl_fold (s : string) : contains nl (fold_string s) = contains nl s.
Proof.
  induction s as [|c s IH]; [reflexivity|].
  cbn [fold_string contains]. rewrite IH. f_equal. cbn [startswith nl].
  destruct c as [[] [] [] [] [] [] [] []]; reflexivity.
Qed.

Lemma mismatch_startswith (q a t : string) :
  mismatch q a = true -> startswith q (a ++ t) = false.
Proof.
  revert a; induction q as [|x q IH]; intros [|y a] H; cbn in *; try discriminate.
  apply orb_true_iff in H as [H | H].
  - apply negb_true_iff in H. now rewrite H.
  - rewrite (IH _ H). apply andb_false_r.
Qed.

Lemma clear_of_skip (q a t : string) :
  clear_of q a = true -> contains q (a ++ t) = contains q t.
Proof.
  induction a as [|y a IH]; intros H; [reflexivity|].
  cbn [clear_of] in H. apply andb_true_iff in H as [H1 H2].
  pose proof (mismatch_startswith q (String y a) t H1) as Hs.
  change (String y a ++ t) with (String y (a ++ t)) in *.
  cbn [contains]. now rewrite (IH H2), Hs.
Qed.

Lemma head_one_line (p h : string) :
  on_one_line p = true ->
  startswith_ci p h = true -> String.length h = String.length p ->
  contains nl h = false.
Proof.
  intros Hp Hm Hl. rewrite <- contains_nl_fold, (fold_of_match p h Hm Hl).
  clear - Hp. induction p as [|a p IH]; [reflexivity|].
  cbn [on_one_line] in Hp. apply andb_true_iff in Hp as [Ha Hp].
  cbn [fold_string contains startswith nl]. rewrite (IH Hp).
  rewrite Ascii.eqb_sym. apply negb_true_iff in Ha. now rewrite Ha.
Qed.


(** The occurrences of another keyword in a line that begins with [head]:
    none in [head], none in the emphasised [head], none across their ends. *)
Ltac keyword_absent Hfold Hfolded :=
  match goal with
  | |- contains_ci (?k ++ ":") _ = false =>
      rewrite contains_ci_fold;
      set (q := fold_string (k ++ ":"));
      rewrite ?fold_string_app, Hfold;
      rewrite ?clear_of_skip by (subst q; reflexivity);
      rewrite <- fold_string_app;
      subst q; rewrite <- contains_ci_fold; apply Hfolded;
      [cbn; tauto | discriminate]
  end.

(** ** Idempotence *)

Lemma highlight_keywords_plain (s : string) :
  no_keyword_colon s -> highlight_keywords s = s.
Proof.
  intros H. unfold highlight_keywords, important_keywords. cbn [fold_left].
  repeat match goal with
    | |- context [re_sub (keyword_matcher ?k) s] =>
        rewrite (keyword_pass_absent k s) by (apply H; cbn; tauto)
    end.
  reflexivity.
Qed.

Lemma list_stage (s : string) :
  re_sub bullet_matcher (re_sub numbered_matcher s) = s
  \/ re_sub bullet_matcher (re_sub numbered_matcher s) = nl ++ s.
Proof.
  destruct (re_sub_numbered s) as [-> | ->].
  - apply re_sub_bullet.
  - right. apply re_sub_bullet_other. reflexivity.
Qed.

(** ** Keyword emphasis, line by line *)

Lemma keyword_scan_prev (keyword : string) (k : nat) (p1 p2 : option ascii) (s : string) :
  sub_scan (keyword_matcher keyword) k p1 s = sub_scan (keyword_matcher keyword) k p2 s.
Proof. destruct s as [|c s]; [reflexivity|]. destruct k; reflexivity. Qed.

Lemma span_before_newline (u y : string) :
  span_class not_newline (u ++ nl ++ y) = span_class not_newline u.
Proof.
  induction u as [|c u IH]; [reflexivity|].
  cbn [append span_class]. rewrite IH. reflexivity.
Qed.

Lemma drop_drop (n k : nat) (s : string) : drop (n + k) s = drop k (drop n s).
Proof.
  revert s; induction n as [|n IH]; intros s; [reflexivity|].
  destruct s as [|c s]; cbn [Nat.add drop]; [now destruct k | apply IH].
Qed.

Lemma drop_app_le (n : nat) (a b : string) :
  n <= String.length a -> drop n (a ++ b) = drop n a ++ b.
Proof.
  revert a; induction n as [|n IH]; intros a H; [reflexivity|].
  destruct a as [|c a]; cbn in H; [lia|]. cbn [append drop]. apply IH. lia.
Qed.

Lemma take_app_le (n : nat) (a b : string) :
  n <= String.length a -> take n (a ++ b) = take n a.
Proof.
  revert a; induction n as [|n IH]; intros a H; [now destruct a|].
  destruct a as [|c a]; cbn in H; [lia|]. cbn [append take]. now rewrite IH by lia.
Qed.

Lemma startswith_ci_le (p s : string) :
  startswith_ci p s = true -> String.length p <= String.length s.
Proof.
  revert s; induction p as [|a p IH]; intros [|b s] H; cbn in *; try lia;
    try discriminate.
  apply andb_true_iff in H as [_ H]. apply IH in H. lia.
Qed.

Lemma span_length_le (p : ascii -> bool) (s : string) :
  String.length (span_class p s) <= String.length s.
Proof.
  induction s as [|c s IH]; [reflexivity|].
  cbn [span_class]. destruct (p c); cbn; lia.
Qed.

(** After a run of characters that are not newlines comes a newline or the
    end of the text. *)
Lemma after_span (u : string) :
  drop (String.length (span_class not_newline u)) u = ""
  \/ startswith nl (drop (String.length (span_class not_newline u)) u) = true.
Proof.
  induction u as [|c u IH]; [now left|].
  cbn [span_class]. unfold not_newline at 1 3.
  destruct (Ascii.eqb_spec c newline) as [-> | Hc]; cbn [negb String.length drop].
  - right. reflexivity.
  - exact IH.
Qed.

Lemma drop_all (s : string) : drop (String.length s) s = "".
Proof. induction s; [reflexivity | assumption]. Qed.

Lemma drop_empty_length (n : nat) (s : string) :
  n <= String.length s -> drop n s = "" -> n = String.length s.
Proof.
  revert s; induction n as [|n IH]; intros [|c s] H E; cbn in *; try reflexivity;
    try discriminate; try lia.
  f_equal. apply IH; [lia | assumption].
Qed.

Lemma sub_scan_skip_app (m : matcher) (a b : string) (prev : option ascii) :
  a <> "" ->
  exists prev', sub_scan m (String.length a) prev (a ++ b) = sub_scan m 0 prev' b.
Proof.
  revert prev. induction a as [|c a IH]; intros prev Hne; [contradiction|].
  cbn [String.length append sub_scan].
  destruct a as [|c' a].
  - exists (Some c). reflexivity.
  - apply IH. discriminate.
Qed.

Lemma keyword_matcher_match (keyword : string) (prev : option ascii) (s : string) :
  startswith_ci (keyword ++ ":") s = true ->
  keyword_matcher keyword prev s
  = Some ("**_" ++ take (String.length (keyword ++ ":")) s ++ "_** "
          ++ span_class not_newline (drop (String.length (keyword ++ ":")) s)
          ++ (if startswith nl
                   (drop (String.length
                            (span_class not_newline
                               (drop (String.length (keyword ++ ":")) s)))
                      (drop (String.length (keyword ++ ":")) s))
              then nl else ""),
          String.length (keyword ++ ":")
          + String.length (span_class not_newline
                             (drop (String.length (keyword ++ ":")) s))
          + String.length
              (if startswith nl
                    (drop (String.length
                             (span_class not_newline
                                (drop (String.length (keyword ++ ":")) s)))
                       (drop (String.length (keyword ++ ":")) s))
               then nl else "")).
Proof.
  intros H. unfold keyword_matcher. rewrite H. cbv zeta. now rewrite drop_drop.
Qed.

Lemma startswith_app_r (p a b : string) :
  startswith p a = true -> startswith p (a ++ b) = true.
Proof.
  revert a; induction p as [|x p IH]; intros [|y a] H; cbn in *; try reflexivity;
    try discriminate.
  apply andb_true_iff in H as [H1 H2]. now rewrite H1, (IH _ H2).
Qed.

Lemma keyword_matcher_none (keyword : string) (prev : option ascii) (s : string) :
  startswith_ci (keyword ++ ":") s = false -> keyword_matcher keyword prev s = None.
Proof. intros H. unfold keyword_matcher. now rewrite H. Qed.

(** A pass of a keyword works line by line. *)
Lemma keyword_scan_newline (keyword y : string) :
  on_one_line (keyword ++ ":") = true ->
  forall x k prev,
    k <= String.length x ->
    sub_scan (keyword_matcher keyword) k prev (x ++ nl ++ y)
    = sub_scan (keyword_matcher keyword) k prev x ++ nl
      ++ re_sub (keyword_matcher keyword) y.
Proof.
  intros Hp.
  assert (Hne : keyword ++ ":" <> "") by (destruct keyword; discriminate).
  induction x as [|c x IH]; intros k prev Hk.
  - cbn in Hk. assert (k = 0) by lia. subst k.
    cbn [append nl sub_scan]. unfold keyword_matcher at 1.
    pose proof (startswith_ci_before_newline (keyword ++ ":") "" y Hp Hne) as Hs.
    cbn [append nl] in Hs. rewrite Hs.
    replace (startswith_ci (keyword ++ ":") "") with false
      by (destruct keyword; reflexivity).
    unfold re_sub. now rewrite (keyword_scan_prev keyword 0 (Some newline) None).
  - destruct k as [|k].
    + change (String c x ++ nl ++ y) with (String c (x ++ nl ++ y)).
      cbn [sub_scan].
      change (String c (x ++ nl ++ y)) with (String c x ++ nl ++ y).
      pose proof (startswith_ci_before_newline (keyword ++ ":") (String c x) y Hp Hne)
        as Hsame.
      destruct (startswith_ci (keyword ++ ":") (String c x)) eqn:Hm.
      * rewrite (keyword_matcher_match keyword prev _ Hsame),
          (keyword_matcher_match keyword prev _ Hm).
        set (n := String.length (keyword ++ ":")).
        assert (Hn : n <= String.length (String c x)) by (apply startswith_ci_le, Hm).
        rewrite (take_app_le n _ _ Hn), (drop_app_le n _ _ Hn).
        rewrite span_before_newline.
        set (u := drop n (String c x)).
        set (g2 := span_class not_newline u).
        assert (Hu : String.length u = String.length (String c x) - n).
        { unfold u. clear - Hn. revert Hn. generalize (String c x) as s.
          induction n as [|n IH]; intros s H; [cbn; lia|].
          destruct s as [|a s]; cbn in H; [lia|]. cbn [drop String.length].
          rewrite IH by lia. lia. }
        assert (Hg : String.length g2 <= String.length u) by apply span_length_le.
        rewrite (drop_app_le (String.length g2) u (nl ++ y) Hg).
        destruct (after_span u) as [E | E]; fold g2 in E.
        -- (* the match runs to the end of x *)
           rewrite E.
           change (startswith nl ("" ++ nl ++ y)) with true.
           change (startswith nl "") with false.
           cbv iota.
           change (String.length nl) with 1. change (String.length "") with 0.
           assert (Hlen : n + String.length g2 = String.length (String c x)).
           { apply (drop_empty_length (String.length g2) u Hg) in E. lia. }
           rewrite Nat.add_0_r, Hlen.
           change (String.length (String c x)) with (S (String.length x)).
           replace (Nat.pred (S (String.length x) + 1))
             with (String.length (x ++ nl))
             by (rewrite slength_app; change (String.length nl) with 1; lia).
           change (Nat.pred (S (String.length x))) with (String.length x).
           rewrite (sub_scan_skip_all _ x) by lia.
           destruct (sub_scan_skip_app (keyword_matcher keyword) (x ++ nl) y (Some c))
             as (prev' & Hskip).
           { destruct x; discriminate. }
           rewrite <- (sapp_assoc x nl y), Hskip.
           unfold re_sub. rewrite (keyword_scan_prev keyword 0 prev' None).
           now rewrite !sapp_nil_r, !sapp_assoc.
        -- rewrite (startswith_app_r _ _ (nl ++ y) E), E.
           cbn [String.length nl].
           assert (Hlt : String.length g2 < String.length u).
           { destruct (Nat.eq_dec (String.length g2) (String.length u)) as [Eq|]; [|lia].
             rewrite Eq, drop_all in E. discriminate. }
           rewrite IH by (cbn [String.length] in *; lia).
           now rewrite !sapp_assoc.
      * rewrite (keyword_matcher_none keyword prev _ Hsame),
          (keyword_matcher_none keyword prev _ Hm).
        cbn [append]. now rewrite IH by lia.
    + change (String c x ++ nl ++ y) with (String c (x ++ nl ++ y)).
      cbn [sub_scan]. cbn in Hk. apply IH. lia.
Qed.

Lemma keyword_pass_newline (keyword x y : string) :
  on_one_line (keyword ++ ":") = true ->
  re_sub (keyword_matcher keyword) (x ++ nl ++ y)
  = re_sub (keyword_matcher keyword) x ++ nl ++ re_sub (keyword_matcher keyword) y.
Proof. intros Hp. unfold re_sub at 1 2. apply keyword_scan_newline; [exact Hp | lia]. Qed.

(** The emphasis of keywords works line by line. *)
Lemma highlight_newline (x y : string) :
  highlight_keywords (x ++ nl ++ y)
  = highlight_keywords x ++ nl ++ highlight_keywords y.
Proof.
  unfold highlight_keywords, important_keywords. cbn [fold_left].
  now rewrite !keyword_pass_newline by reflexivity.
Qed.

Lemma highlight_around (a line b : string) :
  a = "" \/ (exists p, a = p ++ nl) ->
  b = "" \/ (exists q, b = nl ++ q) ->
  highlight_keywords (a ++ line ++ b)
  = highlight_keywords a ++ highlight_keywords line ++ highlight_keywords b.
Proof.
  intros Ha Hb.
  assert (Hright : highlight_keywords (line ++ b)
                   = highlight_keywords line ++ highlight_keywords b).
  { destruct Hb as [-> | (q & ->)].
    - now rewrite !sapp_nil_r.
    - rewrite highlight_newline.
      change (nl ++ q) with ("" ++ nl ++ q). now rewrite (highlight_newline "" q). }
  destruct Ha as [-> | (p & ->)]; [exact Hright|].
  rewrite sapp_assoc, highlight_newline, Hright.
  rewrite <- (sapp_nil_r (p ++ nl)), sapp_assoc, (highlight_newline p "").
  change (highlight_keywords "") with "". now rewrite !sapp_assoc.
Qed.

(** On a line that begins with a keyword and its colon, in any case, and
    whose rest holds no other keyword with a colon, the five passes wrap the
    head and leave the rest. *)
Lemma highlight_keyword_eol (keyword head rest eol : string) :
  In keyword important_keywords ->
  startswith_ci (keyword ++ ":") head = true ->
  String.length head = String.length (keyword ++ ":") ->
  contains nl rest = false ->
  eol = "" \/ eol = nl ->
  (forall other,
      In other important_keywords -> other <> keyword ->
      contains_ci (other ++ ":") rest = false) ->
  highlight_keywords (head ++ rest ++ eol) = "**_" ++ head ++ "_** " ++ rest ++ eol.
Proof.
  intros Hin Hhead Hlen Hrest Heol Hothers.
  assert (Hfold : fold_string head = fold_string (keyword ++ ":"))
    by (apply fold_of_match; assumption).
  assert (Hfolded : forall other,
             In other important_keywords -> other <> keyword ->
             contains_ci (other ++ ":") (rest ++ eol) = false).
  { intros other Ho Hne.
    assert (Hp : on_one_line (other ++ ":") = true /\ other ++ ":" <> "").
    { cbn in Ho. destruct Ho as [<- | [<- | [<- | [<- | [<- | []]]]]];
        split; (reflexivity || discriminate). }
    destruct Heol as [-> | ->].
    - rewrite sapp_nil_r. auto.
    - rewrite contains_ci_newline by apply Hp. auto. }
  unfold highlight_keywords, important_keywords. cbn [fold_left].
  cbn in Hin. destruct Hin as [<- | [<- | [<- | [<- | [<- | []]]]]];
    repeat match goal with
      | |- context [re_sub (keyword_matcher ?k) (head ++ rest ++ eol)] =>
          first
            [ rewrite (keyword_pass_line k head rest eol Hhead Hlen Hrest Heol)
            | rewrite (keyword_pass_absent k (head ++ rest ++ eol))
                by keyword_absent Hfold Hfolded ]
      | |- context [re_sub (keyword_matcher ?k)
                      ("**_" ++ head ++ "_** " ++ rest ++ eol)] =>
          rewrite (keyword_pass_absent k ("**_" ++ head ++ "_** " ++ rest ++ eol))
            by keyword_absent Hfold Hfolded
      end;
    reflexivity.
Qed.

Lemma highlight_keyword_line (keyword head rest : string) :
  In keyword important_keywords ->
  startswith_ci (keyword ++ ":") head = true ->
  String.length head = String.length (keyword ++ ":") ->
  contains nl rest = false ->
  (forall other,
      In other important_keywords -> other <> keyword ->
      contains_ci (other ++ ":") rest = false) ->
  highlight_keywords (head ++ rest) = "**_" ++ head ++ "_** " ++ rest.
Proof.
  intros Hin Hhead Hlen Hrest Hothers.
  pose proof (highlight_keyword_eol keyword head rest "" Hin Hhead Hlen Hrest
                (or_introl eq_refl) Hothers) as H.
  now rewrite !sapp_nil_r in H.
Qed.

(** ** Fencing keeps the lines *)

Lemma fence_step_appends (st : bool * list string) (line : string) :
  exists extra, snd (fence_step st line) = (snd st ++ extra ++ [line])%list.
Proof.
  destruct st as [b acc]. unfold fence_step.
  destruct (code_signature (strip line) && negb b).
  - exists ["```python"]. cbn [snd]. now rewrite <- app_assoc.
  - destruct (b && String.eqb (strip line) "" && Nat.ltb 0 (List.length acc)).
    + exists ["```"]. cbn [snd]. now rewrite <- app_assoc.
    + exists []. reflexivity.
Qed.

Lemma fence_fold_appends (lines : list string) :
  forall st,
    exists extra,
      snd (fold_left fence_step lines st) = (snd st ++ extra)%list
      /\ (lines <> [] -> extra <> []).
Proof.
  induction lines as [|line lines IH]; intros st; cbn [fold_left].
  - exists []. split; [now rewrite app_nil_r | intros H; now elim H].
  - destruct (IH (fence_step st line)) as (extra & E & _).
    destruct (fence_step_appends st line) as (extra0 & E0).
    exists (extra0 ++ [line] ++ extra)%list. split.
    + rewrite E, E0, <- !app_assoc. reflexivity.
    + intros _. destruct extra0; discriminate.
Qed.

Lemma join_lines_cons (l : string) (ls : list string) :
  ls <> [] -> join_lines (l :: ls) = l ++ nl ++ join_lines ls.
Proof. destruct ls; [intros H; now elim H | reflexivity]. Qed.

Lemma join_lines_mid (before : list string) (line : string) (after : list string) :
  exists a b,
    join_lines (before ++ line :: after) = a ++ line ++ b
    /\ (a = "" \/ exists p, a = p ++ nl)
    /\ (b = "" \/ exists q, b = nl ++ q)
    /\ (after <> [] -> exists q, b = nl ++ q).
Proof.
  assert (Hafter : exists b,
             join_lines (line :: after) = line ++ b
             /\ (b = "" \/ exists q, b = nl ++ q)
             /\ (after <> [] -> exists q, b = nl ++ q)).
  { destruct after as [|l after].
    - exists "". cbn. rewrite sapp_nil_r. repeat split; [now left | intros H; now elim H].
    - exists (nl ++ join_lines (l :: after)).
      repeat split; [right | intros _]; eexists; reflexivity. }
  destruct Hafter as (b & Hb & Hb1 & Hb2).
  induction before as [|l before IH].
  - exists "", b. cbn [app]. rewrite Hb. repeat split; auto.
  - destruct IH as (a & b' & E & Ha & Hb1' & Hb2').
    exists (l ++ nl ++ a), b'.
    cbn [app]. rewrite join_lines_cons by (destruct before; discriminate).
    rewrite E, !sapp_assoc. repeat split; auto.
    right. destruct Ha as [-> | (p & ->)].
    + exists l. now rewrite sapp_nil_r.
    + exists (l ++ nl ++ p). now rewrite !sapp_assoc.
Qed.

Lemma fence_code_line (s : string) (before : list string) (line : string)
  (after : list string) :
  split_lines s = (before ++ line :: after)%list ->
  exists a b,
    fence_code s = a ++ line ++ b
    /\ (a = "" \/ exists p, a = p ++ nl)
    /\ (b = "" \/ exists q, b = nl ++ q)
    /\ (after <> [] -> exists q, b = nl ++ q).
Proof.
  intros Hs. unfold fence_code. rewrite Hs, fold_left_app. cbn [fold_left].
  set (st := fold_left fence_step before (false, [])).
  destruct (fence_step_appends st line) as (extra0 & E0).
  destruct (fence_fold_appends after (fence_step st line)) as (extra & E & Hne).
  destruct (fold_left fence_step after (fence_step st line)) as [b formatted].
  cbn [snd] in E. rewrite E0 in E.
  set (tail := if b then (extra ++ ["```"])%list else extra).
  assert (Hfinal : (if b then (formatted ++ ["```"])%list else formatted)
                   = ((snd st ++ extra0) ++ line :: tail)%list).
  { unfold tail. rewrite E. destruct b; rewrite <- !app_assoc; reflexivity. }
  rewrite Hfinal.
  destruct (join_lines_mid (snd st ++ extra0) line tail) as (a & b' & J & Ha & Hb & Hb').
  exists a, b'. repeat split; auto.
  intros Hafter. apply Hb'. unfold tail.
  specialize (Hne Hafter). destruct b; destruct extra; try discriminate; now elim Hne.
Qed.

(** C7, amended.  In any text, a line that begins with a keyword of the list
    and its colon, the keyword in any case as [re.IGNORECASE] matches it, and
    whose rest holds no other keyword of the list followed by a colon, is
    rewritten in place: the emphasis pass puts the keyword and its colon
    between [**_] and [_**], adds a space and leaves the rest and the
    newline as they are, and treats the text before and the text after on
    their own; in what [enhance_response_formatting] returns the rewritten
    line is a line again, begun at the start of the text or after a newline
    and followed by the end-of-line it had. *)
Theorem keyword_line_emphasised (keyword pre head rest eol post : string) :
  In keyword important_keywords ->
  startswith_ci (keyword ++ ":") head = true ->
  String.length head = String.length (keyword ++ ":") ->
  contains nl rest = false ->
  (forall other,
      In other important_keywords -> other <> keyword ->
      contains_ci (other ++ ":") rest = false) ->
  pre = "" \/ (exists p, pre = p ++ nl) ->
  eol = nl \/ (eol = "" /\ post = "") ->
  highlight_keywords (pre ++ head ++ rest ++ eol ++ post)
  = highlight_keywords pre ++ "**_" ++ head ++ "_** " ++ rest ++ eol
    ++ highlight_keywords post
  /\ exists pre' post',
      enhance_response_formatting (pre ++ head ++ rest ++ eol ++ post)
      = pre' ++ "**_" ++ head ++ "_** " ++ rest ++ eol ++ post'
      /\ (pre' = "" \/ exists p', pre' = p' ++ nl)
      /\ (eol = "" -> post' = "" \/ exists q, post' = nl ++ q).
Proof.
  intros Hin Hhead Hlen Hrest Hothers Hpre Heol.
  pose proof (highlight_keyword_line keyword head rest Hin Hhead Hlen Hrest Hothers)
    as Hemph.
  assert (Hline : contains nl (head ++ rest) = false).
  { rewrite contains_nl_app, Hrest, orb_false_r.
    apply (head_one_line (keyword ++ ":")); try assumption.
    cbn in Hin. destruct Hin as [<- | [<- | [<- | [<- | [<- | []]]]]]; reflexivity. }
  replace (pre ++ head ++ rest ++ eol ++ post)
    with (pre ++ (head ++ rest) ++ eol ++ post) by (now rewrite !sapp_assoc).
  set (line := head ++ rest) in *.
  assert (Hb0 : eol ++ post = "" \/ exists q, eol ++ post = nl ++ q).
  { destruct Heol as [-> | [-> ->]]; [right; now exists post | now left]. }
  split.
  { rewrite (highlight_around pre line (eol ++ post) Hpre Hb0), Hemph.
    destruct Heol as [-> | [-> ->]].
    - change (nl ++ post) with ("" ++ nl ++ post).
      rewrite (highlight_newline "" post). now rewrite !sapp_assoc.
    - now rewrite !sapp_assoc. }
  assert (Hstage : exists a b,
             (if negb (contains "```" (pre ++ line ++ eol ++ post))
                 && search_code_signature (pre ++ line ++ eol ++ post)
              then fence_code (pre ++ line ++ eol ++ post)
              else pre ++ line ++ eol ++ post) = a ++ line ++ b
             /\ (a = "" \/ exists p, a = p ++ nl)
             /\ (b = "" \/ exists q, b = nl ++ q)
             /\ (eol = nl -> exists q, b = nl ++ q)).
  { destruct (negb (contains "```" (pre ++ line ++ eol ++ post))
              && search_code_signature (pre ++ line ++ eol ++ post)).
    - assert (Hsplit : exists before after,
                 split_lines (pre ++ line ++ eol ++ post)
                 = (before ++ line :: after)%list
                 /\ (eol = nl -> after <> [])).
      { assert (Htail : exists after,
                   split_lines (line ++ eol ++ post) = line :: after
                   /\ (eol = nl -> after <> [])).
        { destruct (split_single_line line Hline) as [S1 _].
          destruct Heol as [-> | [-> ->]].
          - exists (split_lines post). rewrite split_lines_app_newline, S1.
            split; [reflexivity | intros _; apply split_lines_nonempty].
          - exists []. rewrite !sapp_nil_r, S1. split; [reflexivity | discriminate]. }
        destruct Htail as (after & Ht & Hne).
        destruct Hpre as [-> | (p & ->)].
        - exists [], after. split; [exact Ht | exact Hne].
        - exists (split_lines p), after.
          rewrite sapp_assoc, split_lines_app_newline, Ht. split; [reflexivity | exact Hne]. }
      destruct Hsplit as (before & after & Hs & Hne).
      destruct (fence_code_line _ before line after Hs) as (a & b & E & Ha & Hb & Hb').
      exists a, b. repeat split; auto.
    - exists pre, (eol ++ post). repeat split; auto.
      intros ->. now exists post. }
  destruct Hstage as (a & b & Hstage & Ha & Hb & Hb').
  unfold enhance_response_formatting. rewrite Hstage.
  rewrite (highlight_around a line b Ha Hb), Hemph.
  assert (Hpost : exists post',
             highlight_keywords b = eol ++ post'
             /\ (eol = "" -> post' = "" \/ exists q, post' = nl ++ q)).
  { destruct Heol as [-> | [-> ->]].
    - destruct (Hb' eq_refl) as (q & ->).
      exists (highlight_keywords q). split; [|discriminate].
      change (nl ++ q) with ("" ++ nl ++ q). now rewrite (highlight_newline "" q).
    - exists (highlight_keywords b). split; [reflexivity|]. intros _.
      destruct Hb as [-> | (q & ->)]; [now left | right].
      exists (highlight_keywords q).
      change (nl ++ q) with ("" ++ nl ++ q). now rewrite (highlight_newline "" q). }
  destruct Hpost as (post' & Hpost & Hpost').
  assert (Hlead : highlight_keywords a = ""
                  \/ exists p', highlight_keywords a = p' ++ nl).
  { destruct Ha as [-> | (p & ->)]; [now left | right].
    exists (highlight_keywords p).
    rewrite <- (sapp_nil_r (p ++ nl)), sapp_assoc, (highlight_newline p "").
    now rewrite sapp_nil_r. }
  rewrite Hpost.
  destruct (list_stage (highlight_keywords a ++ ("**_" ++ head ++ "_** " ++ rest)
                        ++ eol ++ post')) as [E | E]; rewrite E.
  - exists (highlight_keywords a), post'. split; [now rewrite !sapp_assoc|].
    split; assumption.
  - exists (nl ++ highlight_keywords a), post'. split; [now rewrite !sapp_assoc|].
    split; [|assumption]. right.
    destruct Hlead as [-> | (p' & ->)].
    + now exists "".
    + exists (nl ++ p'). now rewrite !sapp_assoc.
Qed.

Lemma keyword_line_emphasised_witness :
  highlight_keywords
    (("Check the log." ++ nl) ++ "Warning:" ++ " the battery is low" ++ nl
     ++ "Then restart.")
  = highlight_keywords ("Check the log." ++ nl) ++ "**_" ++ "Warning:" ++ "_** "
    ++ " the battery is low" ++ nl ++ highlight_keywords "Then restart."
  /\ exists pre' post',
      enhance_response_formatting
        (("Check the log." ++ nl) ++ "Warning:" ++ " the battery is low" ++ nl
         ++ "Then restart.")
      = pre' ++ "**_" ++ "Warning:" ++ "_** " ++ " the battery is low" ++ nl ++ post'
      /\ (pre' = "" \/ exists p', pre' = p' ++ nl)
      /\ (nl = "" -> post' = "" \/ exists q, post' = nl ++ q).
Proof.
  apply (keyword_line_emphasised "WARNING" ("Check the log." ++ nl) "Warning:"
           " the battery is low" nl "Then restart.").
  - cbn. tauto.
  - reflexivity.
  - reflexivity.
  - reflexivity.
  - intros other Ho Hne. cbn in Ho.
    destruct Ho as [<- | [<- | [<- | [<- | [<- | []]]]]];
      try reflexivity; now elim Hne.
  - right. now exists "Check the log.".
  - left. reflexivity.
Defined.

(** The text of the example as the formatter returns it. *)
Example keyword_line_in_text :
  enhance_response_formatting
    ("Check the log." ++ nl ++ "Warning: the battery is low" ++ nl ++ "Then restart.")
  = "Check the log." ++ nl ++ "**_Warning:_**  the battery is low" ++ nl
    ++ "Then restart.".
Proof. vm_compute. reflexivity. Qed.

(** C7 as stated fails: a keyword in the rest of the line is emphasised by its
    own pass, so the rest is not left as it was. *)
Lemma keyword_in_rest_rewritten :
  startswith_ci ("NOTE" ++ ":") "NOTE:" = true
  /\ contains nl " see WARNING: x" = false
  /\ enhance_response_formatting ("NOTE:" ++ " see WARNING: x")
     = "**_NOTE:_**  see **_WARNING:_**  x"
  /\ contains " see WARNING: x"
       (enhance_response_formatting ("NOTE:" ++ " see WARNING: x")) = false.
Proof. repeat split; vm_compute; reflexivity. Qed.

(** Without a signature line and without a keyword, the formatter does at
    most one thing: it puts a newline before a list marker that begins the
    text. *)
Lemma enhance_plain (s : string) :
  no_signature_line s -> no_keyword_colon s ->
  enhance_response_formatting s = re_sub bullet_matcher (re_sub numbered_matcher s).
Proof.
  intros Hs Hk. unfold enhance_response_formatting.
  now rewrite (fence_stage_plain _ Hs), (highlight_keywords_plain _ Hk).
Qed.

Lemma enhance_after_newline (s : string) :
  no_signature_line s -> no_keyword_colon s ->
  enhance_response_formatting (nl ++ s) = nl ++ s.
Proof.
  intros Hs Hk. rewrite enhance_plain.
  - change (nl ++ s) with (String newline s).
    rewrite re_sub_numbered_other by reflexivity.
    apply re_sub_bullet_other. reflexivity.
  - unfold no_signature_line. change (split_lines (nl ++ s)) with ("" :: split_lines s).
    constructor; [reflexivity | exact Hs].
  - intros k Hin. change (nl ++ s) with (String newline s).
    cbn [contains_ci]. rewrite (Hk k Hin), orb_false_r.
    cbn in Hin. destruct Hin as [<- | [<- | [<- | [<- | [<- | []]]]]]; reflexivity.
Qed.

(** C6, amended.  On a text with no fence marker, no line that begins with a
    code signature and no match of a keyword of the emphasis pass followed by
    a colon, letters compared as [re.IGNORECASE] compares them, applying
    [enhance_response_formatting] twice gives what applying it once gives. *)
Theorem enhance_idempotent_plain (s : string) :
  contains "```" s = false ->
  no_signature_line s ->
  no_keyword_colon s ->
  enhance_response_formatting (enhance_response_formatting s)
  = enhance_response_formatting s.
Proof.
  intros _ Hs Hk.
  rewrite (enhance_plain s Hs Hk).
  destruct (list_stage s) as [E | E]; rewrite E.
  - now rewrite (enhance_plain s Hs Hk).
  - apply (enhance_after_newline s Hs Hk).
Qed.

Lemma enhance_idempotent_plain_witness :
  enhance_response_formatting
    (enhance_response_formatting ("1. open the hood" ++ nl ++ "2. check the oil"))
  = enhance_response_formatting ("1. open the hood" ++ nl ++ "2. check the oil").
Proof.
  apply enhance_idempotent_plain.
  - vm_compute. reflexivity.
  - apply signature_free_correct. vm_compute. reflexivity.
  - intros k Hin. cbn in Hin.
    destruct Hin as [<- | [<- | [<- | [<- | [<- | []]]]]]; vm_compute; reflexivity.
Defined.

(** C6 as stated fails: the emphasis of a keyword is emphasised again by a
    second application. *)
Lemma enhance_not_idempotent :
  contains "```" "NOTE: x" = false
  /\ no_signature_line "NOTE: x"
  /\ enhance_response_formatting "NOTE: x" = "**_NOTE:_**  x"
  /\ enhance_response_formatting (enhance_response_formatting "NOTE: x")
     = "**_**_NOTE:_** _**  x"
  /\ enhance_response_formatting (enhance_response_formatting "NOTE: x")
     <> enhance_response_formatting "NOTE: x".
Proof.
  split; [vm_compute; reflexivity|].
  split; [apply signature_free_correct; vm_compute; reflexivity|].
  split; [vm_compute; reflexivity|].
  split; [vm_compute; reflexivity|].
  intros H. vm_compute in H. discriminate H.
Qed.

(** ** The default path of the simulated responder *)






(** ** The formatter keeps a text that is not empty from becoming empty *)

Lemma joined_size_app (a b : list string) :
  joined_size (a ++ b) = joined_size a + joined_size b.
Proof. induction a as [|l a IH]; cbn; [reflexivity | rewrite IH; lia]. Qed.

Lemma join_lines_size (lines : list string) :
  lines <> [] -> S (String.length (join_lines lines)) = joined_size lines.
Proof.
  induction lines as [|l lines IH]; intros Hne; [contradiction|].
  destruct lines as [|l' lines].
  - cbn. lia.
  - change (join_lines (l :: l' :: lines)) with (l ++ nl ++ join_lines (l' :: lines)).
    rewrite !slength_app. cbn [joined_size String.length nl].
    specialize (IH ltac:(discriminate)). cbn [joined_size] in IH. lia.
Qed.

Lemma split_lines_size (s : string) : joined_size (split_lines s) = S (String.length s).
Proof.
  rewrite <- (join_lines_size _ (split_lines_nonempty s)). now rewrite join_split.
Qed.

Lemma fence_fold_size (lines : list string) :
  forall b acc,
    joined_size acc + joined_size lines
    <= joined_size (snd (fold_left fence_step lines (b, acc))).
Proof.
  induction lines as [|line lines IH]; intros b acc; cbn [fold_left joined_size snd].
  - lia.
  - unfold fence_step at 2.
    destruct (code_signature (strip line) && negb b).
    + etransitivity; [|apply IH]. rewrite !joined_size_app. cbn. lia.
    + destruct (b && String.eqb (strip line) "" && Nat.ltb 0 (List.length acc)).
      * etransitivity; [|apply IH]. rewrite !joined_size_app. cbn. lia.
      * etransitivity; [|apply IH]. rewrite !joined_size_app. cbn. lia.
Qed.

Lemma fence_code_size (s : string) : String.length s <= String.length (fence_code s).
Proof.
  unfold fence_code.
  pose proof (fence_fold_size (split_lines s) false []) as H.
  rewrite split_lines_size in H. cbn [joined_size plus] in H.
  destruct (fold_left fence_step (split_lines s) (false, [])) as [b formatted].
  cbn [snd] in H.
  set (final := if b then (formatted ++ ["```"])%list else formatted).
  assert (Hfinal : joined_size formatted <= joined_size final).
  { unfold final. destruct b; [rewrite joined_size_app; lia | lia]. }
  assert (Hne : final <> []).
  { intros E. rewrite E in Hfinal. cbn in Hfinal. lia. }
  pose proof (join_lines_size final Hne). lia.
Qed.

Lemma keyword_matcher_out (keyword : string) (prev : option ascii) (t out : string) (n : nat) :
  keyword_matcher keyword prev t = Some (out, n) -> out <> "".
Proof.
  unfold keyword_matcher. destruct (startswith_ci (keyword ++ ":") t); [|discriminate].
  intros H. inversion H. discriminate.
Qed.

Lemma numbered_matcher_out (prev : option ascii) (t out : string) (n : nat) :
  numbered_matcher prev t = Some (out, n) -> out <> "".
Proof.
  unfold numbered_matcher.
  match goal with |- context [if ?b then _ else _] => destruct b end; [|discriminate].
  intros H. inversion H. discriminate.
Qed.

Lemma bullet_matcher_out (prev : option ascii) (t out : string) (n : nat) :
  bullet_matcher prev t = Some (out, n) -> out <> "".
Proof.
  unfold bullet_matcher.
  match goal with |- context [if ?b then _ else _] => destruct b end; [|discriminate].
  intros H. inversion H. discriminate.
Qed.

Lemma enhance_nonempty (s : string) :
  s <> "" -> enhance_response_formatting s <> "".
Proof.
  intros Hs H. apply Hs. clear Hs.
  unfold enhance_response_formatting in H.
  apply (re_sub_nonempty _ _ bullet_matcher_out) in H.
  apply (re_sub_nonempty _ _ numbered_matcher_out) in H.
  unfold highlight_keywords, important_keywords in H. cbn [fold_left] in H.
  do 5 apply (re_sub_nonempty _ _ (keyword_matcher_out _)) in H.
  destruct (negb (contains "```" s) && search_code_signature s); [|assumption].
  pose proof (fence_code_size s) as Hsize. rewrite H in Hsize.
  destruct s; [reflexivity | cbn in Hsize; lia].
Qed.

(** ** The simulated responder always answers *)

Lemma first_keyword_nonempty (kb : list (string * string)) (prompt_lower response : string) :
  Forall (fun entry => snd entry <> "") kb -> response <> "" ->
  first_keyword kb prompt_lower response <> "".
Proof.
  induction 1 as [|[keyword info] kb Hinfo _ IH]; intros Hr; cbn [first_keyword].
  - exact Hr.
  - destruct (contains (lower keyword) prompt_lower); [exact Hinfo | exact (IH Hr)].
Qed.

Lemma avos_knowledge_nonempty : Forall (fun entry => snd entry <> "") avos_knowledge.
Proof. unfold avos_knowledge. repeat constructor; cbn [snd]; discriminate. Qed.

Lemma simulated_answer_nonempty (prompt context response : string) :
  simulated_answer prompt context = Ok response -> response <> "".
Proof.
  unfold simulated_answer. cbv zeta.
  pose proof (first_keyword_nonempty avos_knowledge (lower prompt) default_response
                avos_knowledge_nonempty ltac:(discriminate)) as H0.
  set (r0 := first_keyword avos_knowledge (lower prompt) default_response) in *.
  assert (H1 : (if negb (String.eqb context "")
                   && contains "I don't have specific information" r0
                then context_response context else r0) <> "").
  { destruct (negb (String.eqb context "")
              && contains "I don't have specific information" r0);
      [discriminate | exact H0]. }
  set (r1 := if negb (String.eqb context "")
                && contains "I don't have specific information" r0
             then context_response context else r0) in *.
  change (knowledge avos_knowledge "steps") with (Ok steps_info).
  change (knowledge avos_knowledge "dtsi") with (Ok dtsi_info).
  change (knowledge avos_knowledge "secpolicy") with (Ok secpolicy_info).
  destruct (contains "driveos" (lower prompt) && contains "ndas" (lower prompt));
    destruct (contains "dtsi" (lower prompt) && contains "startupcmd" (lower prompt));
    destruct (contains "secpolicy" (lower prompt)
              || contains "security" (lower prompt) && contains "policy" (lower prompt));
    intros H; inversion H; subst; try discriminate; exact H1.
Qed.

Lemma get_simulated_response_nonempty (prompt context : string) :
  get_simulated_response prompt context <> "".
Proof.
  unfold get_simulated_response.
  destruct (simulated_answer prompt context) as [response|x] eqn:E; cbn [safe_response].
  - apply enhance_nonempty. exact (simulated_answer_nonempty _ _ _ E).
  - discriminate.
Qed.

(** ** Orchestrator *)

(** The call of the API either falls through to the simulated responder or
    returns the formatted text of a completion. *)
Lemma call_api_result (e : env) (prompt context system_prompt history : string)
  (st : state) :
  exists st',
    call_api e prompt context system_prompt history st = (Ok None, st')
    \/ exists c messages response,
        chat_completions_create e c "gpt-4o" messages 1000%Z = Ok (JStr response)
        /\ call_api e prompt context system_prompt history st
           = (Ok (Some (enhance_response_formatting response)), st').
Proof.
  unfold call_api, try_except, bind, lift, ret.
  destruct (get_azure_client e st) as [[[c|]|x] st1]; try (eexists; left; reflexivity).
  destruct (chat_completions_create e c "gpt-4o"
              (build_messages e prompt context system_prompt history) 1000%Z)
    as [[| | | response | |]|x] eqn:E; try (eexists; left; reflexivity).
  eexists. right. exists c, (build_messages e prompt context system_prompt history),
    response. split; [exact E | reflexivity].
Qed.

(** Without the dependencies, or when the completion endpoint fails, the
    part of the function after the database data answers with the simulated
    responder. *)
Lemma fallback_answer (e : env) (st : state)
  (prompt context system_prompt history : string) :
  DEPENDENCIES_INSTALLED e = false \/ completion_fails e ->
  exists st',
    (answered <-
       (if DEPENDENCIES_INSTALLED e
        then call_api e prompt context system_prompt history
        else ret None) ;;
     match answered with
     | Some response => ret (JStr response)
     | None => ret (JStr (get_simulated_response prompt context))
     end) st = (Ok (JStr (get_simulated_response prompt context)), st').
Proof.
  intros Hd. unfold bind, ret.
  destruct (DEPENDENCIES_INSTALLED e) eqn:Hdeps; [|eexists; reflexivity].
  destruct Hd as [Hd | Hd]; [discriminate|].
  destruct (call_api_result e prompt context system_prompt history st)
    as (st' & [-> | (c & messages & response & Hc & _)]); [eexists; reflexivity|].
  destruct (Hd c "gpt-4o" messages 1000%Z) as (x & Hx). congruence.
Qed.

(** C1, amended.  Whatever the inputs, the files and the services,
    [get_llm_response] raises nothing and returns a text; the text is not
    empty when the completion endpoint does not answer with the empty text;
    an exception of [format_db_data_for_llm] is answered with the fixed
    apology of the function; without the dependencies, or when the completion
    endpoint fails, the answer is the one of the simulated responder for the
    prompt and the context, the context being joined with the formatted
    database data when there are any. *)
Theorem get_llm_response_returns_text (e : env) (st : state)
  (prompt context system_prompt history : string) (db_data : json) :
  (exists text st',
      get_llm_response_body e prompt context system_prompt history db_data st
      = (Ok (JStr text), st')
      /\ get_llm_response e prompt context system_prompt history db_data st
         = (text, st'))
  /\ (completion_not_empty e ->
      fst (get_llm_response e prompt context system_prompt history db_data st) <> "")
  /\ (forall x,
         truthy db_data = true -> format_db_data_for_llm (rt e) db_data = Raise x ->
         get_llm_response e prompt context system_prompt history db_data st
         = (critical_apology, st))
  /\ (DEPENDENCIES_INSTALLED e = false \/ completion_fails e ->
      (truthy db_data = false ->
       fst (get_llm_response e prompt context system_prompt history db_data st)
       = get_simulated_response prompt context)
      /\ (forall db_context,
             truthy db_data = true ->
             format_db_data_for_llm (rt e) db_data = Ok db_context ->
             fst (get_llm_response e prompt context system_prompt history db_data st)
             = get_simulated_response prompt (merged_context context db_context))).
Proof.
  assert (Hbody :
    forall context',
      exists text st',
        (answered <-
           (if DEPENDENCIES_INSTALLED e
            then call_api e prompt context' system_prompt history
            else ret None) ;;
         match answered with
         | Some response => ret (JStr response)
         | None => ret (JStr (get_simulated_response prompt context'))
         end) st = (Ok (JStr text), st')
        /\ (completion_not_empty e -> text <> "")).
  { intros context'. unfold bind, ret.
    destruct (DEPENDENCIES_INSTALLED e).
    - destruct (call_api_result e prompt context' system_prompt history st)
        as (st' & [-> | (c & messages & response & Hc & ->)]).
      + eexists _, _. split; [reflexivity|].
        intros _. apply get_simulated_response_nonempty.
      + eexists _, _. split; [reflexivity|].
        intros Hne. apply enhance_nonempty. intros ->. exact (Hne _ _ _ _ Hc).
    - eexists _, _. split; [reflexivity|].
      intros _. apply get_simulated_response_nonempty. }
  assert (Hcases :
    exists text st',
      get_llm_response_body e prompt context system_prompt history db_data st
      = (Ok (JStr text), st')
      /\ (completion_not_empty e -> text <> "")).
  { unfold get_llm_response_body, try_except.
    unfold bind at 1. destruct (truthy db_data).
    - unfold bind at 1, lift at 1.
      destruct (format_db_data_for_llm (rt e) db_data) as [db_context|x].
      + unfold ret at 1.
        destruct (Hbody (if negb (String.eqb context "")
                         then context ++ nl ++ nl ++ db_context else db_context))
          as (text & st' & -> & Hne).
        eexists _, _. split; [reflexivity | exact Hne].
      + eexists _, _. split; [reflexivity|]. intros _. discriminate.
    - unfold ret at 1.
      destruct (Hbody context) as (text & st' & -> & Hne).
      eexists _, _. split; [reflexivity | exact Hne]. }
  split; [|split; [|split]].
  - destruct Hcases as (text & st' & Hb & _).
    exists text, st'. split; [exact Hb|].
    unfold get_llm_response. now rewrite Hb.
  - intros Hne. destruct Hcases as (text & st' & Hb & Htext).
    unfold get_llm_response. rewrite Hb. cbn. auto.
  - intros x Ht Hx. unfold get_llm_response, get_llm_response_body, try_except, bind, lift.
    now rewrite Ht, Hx.
  - intros Hd. split.
    + intros Ht.
      destruct (fallback_answer e st prompt context system_prompt history Hd)
        as (st' & Hf).
      unfold get_llm_response, get_llm_response_body, try_except.
      unfold bind at 1. rewrite Ht. unfold ret at 1. rewrite Hf. reflexivity.
    + intros db_context Ht Hfmt.
      destruct (fallback_answer e st prompt (merged_context context db_context)
                  system_prompt history Hd) as (st' & Hf).
      unfold get_llm_response, get_llm_response_body, try_except.
      unfold bind at 1. rewrite Ht. unfold bind at 1, lift at 1. rewrite Hfmt.
      unfold ret at 1. fold (merged_context context db_context).
      rewrite Hf. reflexivity.
Qed.

Lemma completion_not_empty_online : completion_not_empty env_online.
Proof. intros c model messages max_tokens. discriminate. Qed.

Lemma completion_fails_example : completion_fails env_no_completion.
Proof. intros c model messages max_tokens. exists OpenAIError. reflexivity. Qed.

Lemma get_llm_response_returns_text_witness :
  fst (get_llm_response env_online "What is AVOS?" "" "" "[]" JNull st_cached) <> ""
  /\ get_llm_response env_online "What is AVOS?" "" "" "[]"
       (JList [JObj [("content", JNum 5)]]) st_cached
     = (critical_apology, st_cached)
  /\ fst (get_llm_response env_no_dependencies "What is AVOS?" "" "" "[]" JNull st_cached)
     = get_simulated_response "What is AVOS?" ""
  /\ fst (get_llm_response env_no_completion "Which port?" "See below." "" "[]"
            (JStr "port 8080") st_cached)
     = get_simulated_response "Which port?"
         (merged_context "See below."
            (db_header ++ "Retrieved information:" ++ nl ++ nl ++ "port 8080"
             ++ db_footer ++ db_reminder)).
Proof.
  pose proof (get_llm_response_returns_text env_online st_cached "What is AVOS?" "" ""
                "[]" JNull) as (_ & H1 & _).
  pose proof (get_llm_response_returns_text env_online st_cached "What is AVOS?" "" ""
                "[]" (JList [JObj [("content", JNum 5)]])) as (_ & _ & H2 & _).
  pose proof (get_llm_response_returns_text env_no_dependencies st_cached
                "What is AVOS?" "" "" "[]" JNull) as (_ & _ & _ & H3).
  pose proof (get_llm_response_returns_text env_no_completion st_cached
                "Which port?" "See below." "" "[]" (JStr "port 8080")) as (_ & _ & _ & H4).
  split; [exact (H1 completion_not_empty_online)|].
  split; [exact (H2 AttributeError eq_refl eq_refl)|].
  split; [exact (proj1 (H3 (or_introl eq_refl)) eq_refl)|].
  apply (proj2 (H4 (or_intror completion_fails_example))); reflexivity.
Defined.

(** C1 as stated fails, twice.  A completion whose text is empty is returned
    as it is, so the answer can be empty; and a failure of the completion call
    is not answered with a fixed apology but with the text of the simulated
    responder. *)
Lemma empty_answer_and_no_apology :
  (chat_completions_create env_silent
     {| api_key := JStr "cached-token"; api_version := api_version_used;
        base_url := api_base |}
     "gpt-4o" (build_messages env_silent "What is AVOS?" "" "" "[]") 1000%Z
   = Ok (JStr "")
   /\ fst (get_llm_response env_silent "What is AVOS?" "" "" "[]" JNull st_cached) = "")
  /\ (chat_completions_create env_no_completion
        {| api_key := JStr "cached-token"; api_version := api_version_used;
           base_url := api_base |}
        "gpt-4o" (build_messages env_no_completion "What is AVOS?" "" "" "[]") 1000%Z
      = Raise OpenAIError
      /\ fst (get_llm_response env_no_completion "What is AVOS?" "" "" "[]" JNull
                st_cached)
         = avos_info
      /\ avos_info <> critical_apology).
Proof.
  split; [split; vm_compute; reflexivity|].
  split; [vm_compute; reflexivity|].
  split; [vm_compute; reflexivity | discriminate].
Qed.

(** With the completion endpoint answering, the example call returns the
    formatted completion and reads the token from the cache. *)
Example get_llm_response_online :
  get_llm_response env_online "What is AVOS?" "" "" "[]" JNull st_cached
  = ("Hello.", {| token_file := token_file st_cached; ticks := 1; requests_sent := [] |}).
Proof. vm_compute. reflexivity. Qed.

(** * Further properties *)

(** ** Token cache *)

Lemma dict_get_set_same (k : string) (v : json) (d : dict) :
  dict_get k (dict_set k v d) = Some v.
Proof.
  induction d as [|[k0 v0] d IH]; cbn.
  - now rewrite String.eqb_refl.
  - destruct (String.eqb_spec k k0) as [E | E]; cbn.
    + subst. now rewrite String.eqb_refl.
    + destruct (String.eqb_spec k k0); [contradiction | exact IH].
Qed.

(** Reading the cache changes neither the file nor the requests sent, and
    reads the clock at most once. *)
Lemma read_cache_frame (e : env) (st st' : state) (r : result (option json)) :
  read_cache e st = (r, st') ->
  token_file st' = token_file st
  /\ requests_sent st' = requests_sent st
  /\ (ticks st' = ticks st \/ ticks st' = S (ticks st)).
Proof.
  unfold read_cache.
  destruct (token_file st) as [| | text] eqn:Hf;
    try (intros H; inversion H; subst; rewrite Hf; auto).
  destruct (json_loads (rt e) text) as [token|];
    [|intros H; inversion H; subst; rewrite Hf; auto].
  unfold bind, lift, ret, now.
  destruct (py_in "expires_in" token) as [[|]|x];
    try (intros H; inversion H; subst; rewrite Hf; auto).
  destruct (py_in "created_at" token) as [[|]|x];
    try (intros H; inversion H; subst; rewrite Hf; auto).
  destruct (py_getitem "created_at" token) as [created_at|x];
    try (intros H; inversion H; subst; rewrite Hf; auto).
  destruct (py_getitem "expires_in" token) as [expires_in|x];
    try (intros H; inversion H; subst; rewrite Hf; auto).
  destruct (py_add created_at expires_in) as [expiry_time|x];
    try (intros H; inversion H; subst; rewrite Hf; auto).
  destruct (py_time_lt (time_time e (ticks st)) expiry_time) as [[|]|x];
    try (intros H; inversion H; subst; cbn; rewrite Hf; auto).
  destruct (py_getitem "access_token" token) as [access_token|x];
    intros H; inversion H; subst; cbn; rewrite Hf; auto.
Qed.

(** The exchange sends exactly one request, reads the clock at most once and
    writes the file only after it has sent the request. *)
Lemma request_token_frame (e : env) (st st' : state) (url id secret sc : string)
  (r : result json) :
  request_token e url id secret sc st = (r, st') ->
  requests_sent st' = token_request e url id secret sc :: requests_sent st
  /\ (ticks st' = ticks st \/ ticks st' = S (ticks st)).
Proof.
  unfold request_token, bind, lift, ret, post_json, now, write_token_file.
  destruct (requests_request e (token_request e url id secret sc)) as [body|x];
    [|intros H; inversion H; subst; cbn; auto].
  destruct (json_loads (rt e) body) as [token|];
    [|intros H; inversion H; subst; cbn; auto].
  cbn. destruct (py_setitem "created_at" (JNum (time_time e (ticks st))) token)
    as [stamped|x]; [|intros H; inversion H; subst; cbn; auto].
  destruct (token_file_writable e); [|intros H; inversion H; subst; cbn; auto].
  cbn. destruct (py_getitem "access_token" stamped);
    intros H; inversion H; subst; cbn; auto.
Qed.

(** X1.  Whatever the cache file holds and whatever the token endpoint does,
    [get_oauth_token] raises nothing; it sends at most one request, and when
    it sends none it leaves the cache file as it was; it reads the clock at
    most twice. *)
Theorem get_oauth_token_effects (e : env) (st : state) (url id secret sc : string) :
  exists v st',
    get_oauth_token e url id secret sc st = (Ok v, st')
    /\ ((requests_sent st' = requests_sent st /\ token_file st' = token_file st)
        \/ requests_sent st' = token_request e url id secret sc :: requests_sent st)
    /\ ticks st <= ticks st' <= ticks st + 2.
Proof.
  destruct (DEPENDENCIES_INSTALLED e) eqn:Hdeps.
  - rewrite (get_oauth_token_unfold _ _ _ _ _ _ Hdeps).
    destruct (read_cache e st) as [[[v|]|x] st1] eqn:Hread;
      destruct (read_cache_frame _ _ _ _ Hread) as (Hf & Hr & Ht).
    + exists v, st1. repeat split; [left; auto | lia | lia].
    + destruct (request_token e url id secret sc st1) as [[v|x] st2] eqn:Hreq;
        destruct (request_token_frame _ _ _ _ _ _ _ _ Hreq) as (Hr2 & Ht2);
        eexists _, st2; (split; [reflexivity|]); rewrite Hr2, Hr;
        (split; [right; reflexivity | lia]).
    + exists JNull, st1. repeat split; [left; auto | lia | lia].
  - exists JNull, st. unfold get_oauth_token. rewrite Hdeps.
    repeat split; [left; auto | lia | lia].
Qed.

(** X2.  A cached record that lacks [expires_in] or [created_at] is never
    served, even when it has an [access_token]: the credentials are
    exchanged, and with an endpoint that answers with a token record the new
    token is returned and the file overwritten. *)
Theorem undated_cache_is_refreshed (e : env) (st : state) (url id secret sc : string)
  (d : dict) (access_token : json) :
  DEPENDENCIES_INSTALLED e = true ->
  cache_undated e st ->
  endpoint_answers e (token_request e url id secret sc) d ->
  dict_get "access_token" d = Some access_token ->
  token_file_writable e = true ->
  get_oauth_token e url id secret sc st
  = (Ok access_token,
     {| token_file :=
          Content (json_dumps (rt e)
                     (JObj (dict_set "created_at" (JNum (time_time e (ticks st))) d)));
        ticks := S (ticks st);
        requests_sent := token_request e url id secret sc :: requests_sent st |}).
Proof.
  intros Hdeps (text & d0 & Hf & Hl & Hmissing) Hanswer Htoken Hw.
  assert (Hread : read_cache e st = (Ok None, st)).
  { unfold read_cache. rewrite Hf, Hl. unfold bind, lift, ret, py_in, dict_has.
    destruct Hmissing as [H | H]; rewrite H; [reflexivity|].
    destruct (dict_get "expires_in" d0); reflexivity. }
  rewrite (get_oauth_token_unfold _ _ _ _ _ _ Hdeps), Hread,
    (request_token_object _ _ _ _ _ _ _ Hanswer Hw).
  unfold dict_index. now rewrite Htoken.
Qed.

Lemma undated_cache_is_refreshed_witness :
  fst (get_oauth_token env_extra_online token_url "id" "secret" scope st_undated)
  = Ok (JStr "new-token").
Proof.
  rewrite (undated_cache_is_refreshed env_extra_online st_undated token_url "id" "secret"
             scope fresh_record (JStr "new-token")); try reflexivity.
  - exists (example_dumps undated_record), [("access_token", JStr "old-token")].
    repeat split. left. reflexivity.
  - exists (example_dumps (JObj fresh_record)). split; reflexivity.
Defined.

(** X3.  A cached record that passes the validity test of the code
    ([time.time() < created_at + expires_in] is true as Python computes it)
    but has no [access_token] makes the call return [None] without a request
    and without touching the file: until the test fails no new token is
    fetched. *)
Theorem valid_cache_without_token_blocks (e : env) (st : state)
  (url id secret sc : string) :
  DEPENDENCIES_INSTALLED e = true ->
  cache_valid_without_token e st ->
  get_oauth_token e url id secret sc st
  = (Ok JNull,
     {| token_file := token_file st; ticks := S (ticks st);
        requests_sent := requests_sent st |}).
Proof.
  intros Hdeps (text & d & c & x & y & Hf & Hl & Hc & Hx & Ha & Hadd & Hlt).
  rewrite (get_oauth_token_unfold _ _ _ _ _ _ Hdeps).
  assert (Hread : exists err,
             read_cache e st
             = (Raise err, {| token_file := token_file st; ticks := S (ticks st);
                              requests_sent := requests_sent st |})).
  { exists KeyError. run_effects. rewrite Hf, Hl.
    rewrite (dict_has_get _ _ _ Hx), (dict_has_get _ _ _ Hc), Hc, Hx, Ha, Hadd.
    cbn. rewrite Hlt. cbn. rewrite ?Hf. reflexivity. }
  destruct Hread as (err & ->). reflexivity.
Qed.

Lemma valid_cache_without_token_blocks_witness :
  get_oauth_token env_extra_online token_url "id" "secret" scope st_tokenless
  = (Ok JNull,
     {| token_file := token_file st_tokenless; ticks := 1; requests_sent := [] |}).
Proof.
  apply (valid_cache_without_token_blocks env_extra_online st_tokenless token_url "id"
           "secret" scope eq_refl).
  exists (example_dumps tokenless_record),
    [("expires_in", JNum 3600); ("created_at", JNum (seconds 1000))],
    (JNum (seconds 1000)), (JNum 3600), (JNum (seconds 4600)).
  repeat split; vm_compute; reflexivity.
Defined.

(** X4.  When control reaches the exchange and the answer of the endpoint is
    not a JSON object (the request fails, the body is not JSON, or it is a
    list, a text, a number), [get_oauth_token] returns [None] and the cache
    file is left as it was; the request has been sent. *)
Theorem unusable_answer_keeps_cache (e : env) (st st1 : state)
  (url id secret sc : string) :
  DEPENDENCIES_INSTALLED e = true ->
  read_cache e st = (Ok None, st1) ->
  answer_unusable e (token_request e url id secret sc) ->
  exists st2,
    get_oauth_token e url id secret sc st = (Ok JNull, st2)
    /\ token_file st2 = token_file st
    /\ requests_sent st2 = token_request e url id secret sc :: requests_sent st.
Proof.
  intros Hdeps Hread Hbad.
  destruct (read_cache_frame _ _ _ _ Hread) as (Hf & Hr & _).
  rewrite (get_oauth_token_unfold _ _ _ _ _ _ Hdeps), Hread.
  unfold answer_unusable in Hbad.
  unfold request_token, bind, lift, ret, post_json, now, write_token_file.
  destruct (requests_request e (token_request e url id secret sc)) as [body|x].
  - destruct (json_loads (rt e) body) as [[| | | | |]|]; try contradiction;
      eexists; cbn; rewrite Hf, Hr; repeat split.
  - eexists; cbn; rewrite Hf, Hr; repeat split.
Qed.

Lemma unusable_answer_keeps_cache_witness :
  exists st2,
    get_oauth_token env_extra_list token_url "id" "secret" scope st_no_cache
    = (Ok JNull, st2)
    /\ token_file st2 = Absent
    /\ requests_sent st2 = [token_request env_extra_list token_url "id" "secret" scope].
Proof.
  apply (unusable_answer_keeps_cache env_extra_list st_no_cache st_no_cache token_url
           "id" "secret" scope eq_refl eq_refl).
  exact I.
Defined.

(** X5.  A token stored by one call is served by the next: starting without
    a cache file, with an endpoint that answers with a record holding an
    [access_token] and an [expires_in], a cache file that can be written and
    a runtime that reads back the record it wrote, a second call at which
    [time.time() < created_at + expires_in] is true as Python computes it,
    [created_at] being the float that the first call stored, returns the same
    token from the cache and sends no second request. *)
Theorem stored_token_is_reused (e : env) (st : state) (url id secret sc : string)
  (d : dict) (access_token expires_in expiry_time : json) :
  DEPENDENCIES_INSTALLED e = true ->
  token_file st = Absent ->
  endpoint_answers e (token_request e url id secret sc) d ->
  dict_get "access_token" d = Some access_token ->
  dict_get "expires_in" d = Some expires_in ->
  token_file_writable e = true ->
  json_loads (rt e)
    (json_dumps (rt e) (JObj (dict_set "created_at" (JNum (time_time e (ticks st))) d)))
  = Some (JObj (dict_set "created_at" (JNum (time_time e (ticks st))) d)) ->
  py_add (JNum (time_time e (ticks st))) expires_in = Ok expiry_time ->
  py_time_lt (time_time e (S (ticks st))) expiry_time = Ok true ->
  exists st1 st2,
    get_oauth_token e url id secret sc st = (Ok access_token, st1)
    /\ get_oauth_token e url id secret sc st1 = (Ok access_token, st2)
    /\ requests_sent st2 = token_request e url id secret sc :: requests_sent st
    /\ token_file st2 = token_file st1.
Proof.
  intros Hdeps Habsent Hanswer Htoken Hexp Hw Hround Hadd Hfresh.
  set (stamped := dict_set "created_at" (JNum (time_time e (ticks st))) d) in *.
  set (st1 := {| token_file := Content (json_dumps (rt e) (JObj stamped));
                 ticks := S (ticks st);
                 requests_sent := token_request e url id secret sc :: requests_sent st |}).
  assert (H1 : get_oauth_token e url id secret sc st = (Ok access_token, st1)).
  { rewrite (get_oauth_token_unfold _ _ _ _ _ _ Hdeps), (read_cache_absent _ _ Habsent),
      (request_token_object _ _ _ _ _ _ _ Hanswer Hw).
    unfold dict_index. now rewrite Htoken. }
  assert (Hvalid : cache_valid e st1 access_token).
  { exists (json_dumps (rt e) (JObj stamped)), stamped,
      (JNum (time_time e (ticks st))), expires_in, expiry_time.
    unfold stamped. repeat split; try assumption.
    - apply dict_get_set_same.
    - rewrite dict_get_set_other by discriminate. exact Hexp.
    - rewrite dict_get_set_other by discriminate. exact Htoken. }
  exists st1, {| token_file := token_file st1; ticks := S (ticks st1);
                 requests_sent := requests_sent st1 |}.
  split; [exact H1|]. split; [|split; reflexivity].
  rewrite (get_oauth_token_unfold _ _ _ _ _ _ Hdeps), (read_cache_hit _ _ _ Hvalid).
  reflexivity.
Qed.

Lemma stored_token_is_reused_witness :
  exists st1 st2,
    get_oauth_token env_roundtrip token_url "id" "secret" scope st_no_cache
    = (Ok (JStr "new-token"), st1)
    /\ get_oauth_token env_roundtrip token_url "id" "secret" scope st1
       = (Ok (JStr "new-token"), st2)
    /\ requests_sent st2 = [token_request env_roundtrip token_url "id" "secret" scope]
    /\ token_file st2 = token_file st1.
Proof.
  apply (stored_token_is_reused env_roundtrip st_no_cache token_url "id" "secret" scope
           fresh_record (JStr "new-token") (JNum 3600) (JNum (seconds 5600)));
    try reflexivity.
  exists (example_dumps (JObj fresh_record)). split; reflexivity.
Defined.

(** ** Simulated responder *)

Lemma contains_app_l_false (a b s : string) :
  contains a s = false -> contains (a ++ b) s = false.
Proof.
  intros H. destruct (contains (a ++ b) s) eqn:E; [|reflexivity].
  apply contains_app_l in E. congruence.
Qed.

(** What the loop over the table can leave in [response]: the default, or an
    entry other than the one of "driveos". *)
Lemma first_keyword_range (prompt_lower : string) :
  In (first_keyword avos_knowledge prompt_lower default_response)
     [default_response; avos_info; drive_info; ndas_info; feature_info; dtsi_info;
      steps_info; secpolicy_info].
Proof.
  unfold avos_knowledge. cbn [first_keyword].
  change (lower "avos") with "avos". change (lower "drive") with "drive".
  change (lower "driveos") with "driveos".
  destruct (contains "avos" prompt_lower); [cbn; tauto|].
  destruct (contains "drive" prompt_lower) eqn:Hdrive; [cbn; tauto|].
  pose proof (contains_app_l_false "drive" "os" _ Hdrive) as Hos.
  change ("drive" ++ "os") with "driveos" in Hos. rewrite Hos.
  repeat match goal with
    | |- context [if ?b then _ else _] => destruct b; [cbn; tauto|]
    end.
  cbn; tauto.
Qed.

(** X6.  For every prompt and context the simulated responder finds an
    answer without an exception; the answer is not empty and is never the
    entry of "driveos", which no prompt can reach; what is returned is the
    answer as formatted, and it is not empty either. *)
Theorem simulated_answer_total (prompt context : string) :
  exists response,
    simulated_answer prompt context = Ok response
    /\ response <> ""
    /\ response <> driveos_info
    /\ get_simulated_response prompt context = enhance_response_formatting response
    /\ get_simulated_response prompt context <> "".
Proof.
  assert (Hcases : exists response,
             simulated_answer prompt context = Ok response
             /\ (In response [default_response; avos_info; drive_info; ndas_info;
                              feature_info; dtsi_info; steps_info; secpolicy_info]
                 \/ response = context_response context)).
  { unfold simulated_answer. cbv zeta.
    pose proof (first_keyword_range (lower prompt)) as H0.
    set (r0 := first_keyword avos_knowledge (lower prompt) default_response) in *.
    change (knowledge avos_knowledge "steps") with (Ok steps_info).
    change (knowledge avos_knowledge "dtsi") with (Ok dtsi_info).
    change (knowledge avos_knowledge "secpolicy") with (Ok secpolicy_info).
    destruct (contains "secpolicy" (lower prompt)
              || contains "security" (lower prompt) && contains "policy" (lower prompt)).
    { exists secpolicy_info.
      split; [|left; cbn; tauto].
      destruct (contains "driveos" (lower prompt) && contains "ndas" (lower prompt));
        destruct (contains "dtsi" (lower prompt)
                  && contains "startupcmd" (lower prompt));
        reflexivity. }
    destruct (contains "dtsi" (lower prompt) && contains "startupcmd" (lower prompt)).
    { exists dtsi_info.
      split; [|left; cbn; tauto].
      destruct (contains "driveos" (lower prompt) && contains "ndas" (lower prompt));
        reflexivity. }
    destruct (contains "driveos" (lower prompt) && contains "ndas" (lower prompt)).
    { exists steps_info. split; [reflexivity | left; cbn; tauto]. }
    destruct (negb (String.eqb context "")
              && contains "I don't have specific information" r0).
    - exists (context_response context). split; [reflexivity | right; reflexivity].
    - exists r0. split; [reflexivity | left; exact H0]. }
  destruct Hcases as (response & Hanswer & Hrange).
  exists response. split; [exact Hanswer|].
  split; [exact (simulated_answer_nonempty _ _ _ Hanswer)|].
  split.
  - destruct Hrange as [Hin | ->].
    + cbn in Hin.
      repeat (destruct Hin as [<- | Hin];
              [intros E; vm_compute in E; discriminate E|]).
      contradiction.
    + intros E. unfold context_response, driveos_info in E. discriminate E.
  - unfold get_simulated_response. rewrite Hanswer. cbn [safe_response].
    split; [reflexivity|].
    apply enhance_nonempty. exact (simulated_answer_nonempty _ _ _ Hanswer).
Qed.

Lemma enhance_special_answers :
  enhance_response_formatting secpolicy_info = secpolicy_info
  /\ enhance_response_formatting dtsi_info = dtsi_info.
Proof. split; vm_compute; reflexivity. Qed.

(** X7.  The special cases are applied last and in order, so the later one
    wins: a prompt that mentions "secpolicy", or both "security" and
    "policy", gets the entry of the security policy whatever else it mentions
    and whatever the context; failing that, a prompt that mentions "dtsi" and
    "startupcmd" gets the entry of "dtsi", also when it mentions "driveos"
    and "ndas". *)
Theorem special_cases_precedence (prompt context : string) :
  (contains "secpolicy" (lower prompt)
   || (contains "security" (lower prompt) && contains "policy" (lower prompt)) = true ->
   simulated_answer prompt context = Ok secpolicy_info
   /\ get_simulated_response prompt context = secpolicy_info)
  /\ (contains "secpolicy" (lower prompt)
      || (contains "security" (lower prompt) && contains "policy" (lower prompt)) = false ->
      contains "dtsi" (lower prompt) && contains "startupcmd" (lower prompt) = true ->
      simulated_answer prompt context = Ok dtsi_info
      /\ get_simulated_response prompt context = dtsi_info).
Proof.
  split.
  - intros Hsec.
    assert (Hanswer : simulated_answer prompt context = Ok secpolicy_info).
    { unfold simulated_answer. cbv zeta. rewrite Hsec.
      change (knowledge avos_knowledge "steps") with (Ok steps_info).
      change (knowledge avos_knowledge "dtsi") with (Ok dtsi_info).
      destruct (contains "driveos" (lower prompt) && contains "ndas" (lower prompt));
        destruct (contains "dtsi" (lower prompt)
                  && contains "startupcmd" (lower prompt));
        reflexivity. }
    split; [exact Hanswer|].
    unfold get_simulated_response. rewrite Hanswer. cbn [safe_response].
    apply enhance_special_answers.
  - intros Hsec Hdtsi.
    assert (Hanswer : simulated_answer prompt context = Ok dtsi_info).
    { unfold simulated_answer. cbv zeta. rewrite Hsec, Hdtsi.
      change (knowledge avos_knowledge "steps") with (Ok steps_info).
      destruct (contains "driveos" (lower prompt) && contains "ndas" (lower prompt));
        reflexivity. }
    split; [exact Hanswer|].
    unfold get_simulated_response. rewrite Hanswer. cbn [safe_response].
    apply enhance_special_answers.
Qed.

Lemma special_cases_precedence_witness :
  get_simulated_response "Security policy for DriveOS and NDAS dtsi startupcmd?" "ctx"
  = secpolicy_info
  /\ get_simulated_response "DriveOS, NDAS and the startupcmd DTSI" "ctx" = dtsi_info.
Proof.
  split.
  - apply (proj1 (special_cases_precedence
                    "Security policy for DriveOS and NDAS dtsi startupcmd?" "ctx")).
    reflexivity.
  - apply (proj2 (special_cases_precedence
                    "DriveOS, NDAS and the startupcmd DTSI" "ctx")); reflexivity.
Defined.

Lemma first_keyword_found (kb : list (string * string)) (prompt_lower response : string) :
  existsb (fun entry => contains (lower (fst entry)) prompt_lower) kb = true ->
  In (first_keyword kb prompt_lower response) (map snd kb).
Proof.
  induction kb as [|[keyword info] kb IH]; cbn; intros H; [discriminate|].
  destruct (contains (lower keyword) prompt_lower); [now left|].
  right. now apply IH.
Qed.

(** X8.  The context only serves the default path: when the prompt mentions
    a key of the knowledge base, the answer is the same with any context as
    with none. *)
Theorem context_ignored_with_keyword (prompt context : string) :
  mentions_keyword (lower prompt) = true ->
  simulated_answer prompt context = simulated_answer prompt ""
  /\ get_simulated_response prompt context = get_simulated_response prompt "".
Proof.
  intros Hk.
  assert (Hanswer : simulated_answer prompt context = simulated_answer prompt "").
  { unfold simulated_answer. cbv zeta.
    pose proof (first_keyword_found avos_knowledge (lower prompt) default_response Hk)
      as Hin.
    set (r0 := first_keyword avos_knowledge (lower prompt) default_response) in *.
    assert (Hplain : forall r, In r (map snd avos_knowledge) ->
                          contains "I don't have specific information" r = false).
    { intros r Hr. cbn in Hr.
      repeat (destruct Hr as [<- | Hr]; [vm_compute; reflexivity|]).
      contradiction. }
    now rewrite (Hplain r0 Hin), !andb_false_r. }
  split; [exact Hanswer|].
  unfold get_simulated_response. now rewrite Hanswer.
Qed.

Lemma context_ignored_with_keyword_witness :
  get_simulated_response "Which feature matters?" "NOTE: see the wiki"
  = get_simulated_response "Which feature matters?" "".
Proof.
  apply (context_ignored_with_keyword "Which feature matters?" "NOTE: see the wiki").
  reflexivity.
Defined.

(** The loop over a table of keys stops at the first key that occurs in
    the prompt: the entries before it do not match and the ones after it are
    not looked at. *)
Theorem first_keyword_first_match (before after : list (string * string))
  (keyword info prompt_lower response : string) :
  existsb (fun entry => contains (lower (fst entry)) prompt_lower) before = false ->
  contains (lower keyword) prompt_lower = true ->
  first_keyword (before ++ (keyword, info) :: after) prompt_lower response = info.
Proof.
  intros Hbefore Hkey.
  induction before as [|[k i] before IH]; cbn [app first_keyword].
  - now rewrite Hkey.
  - cbn in Hbefore. apply orb_false_iff in Hbefore as [H1 H2].
    rewrite H1. exact (IH H2).
Qed.

Lemma first_keyword_first_match_witness :
  first_keyword avos_knowledge (lower "NDAS features and steps") default_response
  = ndas_info.
Proof.
  apply (first_keyword_first_match
           [("avos", avos_info); ("drive", drive_info); ("driveos", driveos_info)]
           [("feature", feature_info); ("dtsi", dtsi_info); ("steps", steps_info);
            ("secpolicy", secpolicy_info)]
           "ndas" ndas_info); reflexivity.
Defined.

(** ** Client and orchestrator *)

(** X9.  [get_azure_client] raises nothing, and it returns a client only
    when [get_oauth_token] has returned a token that is true as a condition;
    the client is then the one the constructor builds from that token, the
    fixed API version and the fixed base URL. *)
Theorem get_azure_client_safe (e : env) (st : state) :
  exists r st',
    get_azure_client e st = (Ok r, st')
    /\ forall c,
        r = Some c ->
        exists token,
          get_oauth_token e token_url (client_id e) (client_secret e) scope st
          = (Ok token, st')
          /\ truthy token = true
          /\ AzureOpenAI e token api_version_used api_base = Ok c.
Proof.
  unfold get_azure_client.
  destruct (DEPENDENCIES_INSTALLED e); cbn [negb].
  2: { exists None, st. split; [reflexivity | discriminate]. }
  unfold try_except, bind, lift, ret.
  destruct (get_oauth_token_returns e st token_url (client_id e) (client_secret e) scope)
    as (token & st' & Htoken).
  rewrite Htoken.
  destruct (truthy token) eqn:Htruthy; cbn [negb].
  - destruct (AzureOpenAI e token api_version_used api_base) as [c|x] eqn:Hctor.
    + exists (Some c), st'. split; [reflexivity|].
      intros c' Hc. inversion Hc; subst. exists token. auto.
    + exists None, st'. split; [reflexivity | discriminate].
  - exists None, st'. split; [reflexivity | discriminate].
Qed.

(** X10.  Without the dependencies [get_llm_response] returns the state as
    it was (the token cache file is not changed, the clock is not read, no
    request goes to the token endpoint) and its answer is fixed by the prompt,
    the context and the database data alone: with no data, the answer of the
    simulated responder for the prompt and the context; with data that format
    without an exception, its answer for the context joined with the
    formatted data, after a blank line when the context is not empty; and the
    fixed apology when the formatting raises. *)
Theorem offline_response (e : env) (st : state)
  (prompt context system_prompt history : string) (db_data : json) :
  DEPENDENCIES_INSTALLED e = false ->
  get_llm_response e prompt context system_prompt history db_data st
  = (if truthy db_data then
       match format_db_data_for_llm (rt e) db_data with
       | Ok db_context =>
           get_simulated_response prompt (merged_context context db_context)
       | Raise _ => critical_apology
       end
     else get_simulated_response prompt context,
     st).
Proof.
  intros Hdeps. unfold get_llm_response, get_llm_response_body, try_except, bind,
    lift, ret.
  rewrite Hdeps. destruct (truthy db_data); [|reflexivity].
  destruct (format_db_data_for_llm (rt e) db_data); reflexivity.
Qed.

Lemma offline_response_witness :
  get_llm_response env_no_dependencies "hello" "ctx" "" "[]" (JList [JStr "row"])
    st_cached
  = (get_simulated_response "hello"
       ("ctx" ++ nl ++ nl ++ db_header ++ "Item 1:" ++ nl ++ "row" ++ nl ++ nl
        ++ db_footer ++ db_reminder),
     st_cached).
Proof.
  rewrite (offline_response env_no_dependencies st_cached "hello" "ctx" "" "[]"
             (JList [JStr "row"]) eq_refl).
  vm_compute. reflexivity.
Defined.

(** X11.  A completion whose content is not text, as when it is [None], is
    not returned and is not an error of the call: with no database data the
    answer is the one of the simulated responder. *)
Theorem completion_without_text_falls_back (e : env) (st : state)
  (prompt context system_prompt history : string) (db_data : json) :
  completion_not_text e ->
  truthy db_data = false ->
  fst (get_llm_response e prompt context system_prompt history db_data st)
  = get_simulated_response prompt context.
Proof.
  intros Hnot Ht.
  unfold get_llm_response, get_llm_response_body, try_except, bind, ret.
  rewrite Ht. destruct (DEPENDENCIES_INSTALLED e); [|reflexivity].
  destruct (call_api_result e prompt context system_prompt history st)
    as (st' & [-> | (c & messages & response & Hc & _)]); [reflexivity|].
  destruct (Hnot c "gpt-4o" messages 1000%Z) as (v & Hv & Hne).
  rewrite Hv in Hc. inversion Hc; subst. now elim (Hne response).
Qed.

Lemma completion_without_text_falls_back_witness :
  fst (get_llm_response env_null_completion "What is AVOS?" "" "" "[]" JNull st_cached)
  = get_simulated_response "What is AVOS?" "".
Proof.
  apply completion_without_text_falls_back; [|reflexivity].
  intros c model messages max_tokens. exists JNull. split; [reflexivity | discriminate].
Defined.

(** X12.  The completion that [get_llm_response] returns is the one for
    exactly these messages, model "gpt-4o" and 1000 tokens: the system
    message (the given system prompt, or the default one when it is empty),
    then the entries of the history when it parses to a JSON list (a history
    that does not is left out), then the context message when the context,
    joined with the formatted database data if there are any, is not empty,
    then the prompt followed by the formatting guidance.  When a client is
    obtained and the endpoint answers these messages with a text, the answer
    is that text as the formatter rewrites it. *)
Theorem completion_for_messages (e : env) (st st1 : state) (c : client)
  (prompt context context' system_prompt history text : string) (db_data : json) :
  get_azure_client e st = (Ok (Some c), st1) ->
  (truthy db_data = false /\ context' = context)
  \/ (exists db_context,
         truthy db_data = true
         /\ format_db_data_for_llm (rt e) db_data = Ok db_context
         /\ context' = merged_context context db_context) ->
  chat_completions_create e c "gpt-4o"
    (message "system"
       (if String.eqb system_prompt "" then get_default_system_prompt e
        else system_prompt)
     :: match json_loads (rt e) history with
        | Some (JList conversation_history) => conversation_history
        | _ => []
        end
     ++ (if String.eqb context' "" then []
         else [message "user" ("Context information: " ++ context')])
     ++ [message "user" (prompt ++ nl ++ nl ++ formatting_guidance)])%list
    1000%Z
  = Ok (JStr text) ->
  get_llm_response e prompt context system_prompt history db_data st
  = (enhance_response_formatting text, st1).
Proof.
  intros Hclient Hdb Hanswer.
  assert (Hdeps : DEPENDENCIES_INSTALLED e = true).
  { destruct (DEPENDENCIES_INSTALLED e) eqn:E; [reflexivity|].
    unfold get_azure_client in Hclient. rewrite E in Hclient. discriminate. }
  assert (Hmessages :
            build_messages e prompt context' system_prompt history
            = (message "system"
                 (if String.eqb system_prompt "" then get_default_system_prompt e
                  else system_prompt)
               :: match json_loads (rt e) history with
                  | Some (JList conversation_history) => conversation_history
                  | _ => []
                  end
               ++ (if String.eqb context' "" then []
                   else [message "user" ("Context information: " ++ context')])
               ++ [message "user" (prompt ++ nl ++ nl ++ formatting_guidance)])%list).
  { unfold build_messages.
    destruct (String.eqb system_prompt ""); cbn [negb];
      destruct (json_loads (rt e) history) as [[| | | | l |]|];
      destruct (String.eqb context' ""); cbn [negb app]; try reflexivity;
      destruct l; cbn [truthy List.length Nat.eqb negb app];
      rewrite <- ?app_assoc; reflexivity. }
  assert (Hcall : call_api e prompt context' system_prompt history st
                  = (Ok (Some (enhance_response_formatting text)), st1)).
  { unfold call_api, try_except, bind, lift, ret.
    now rewrite Hclient, Hmessages, Hanswer. }
  unfold get_llm_response, get_llm_response_body, try_except.
  unfold bind at 1.
  destruct Hdb as [[Ht ->] | (db_context & Ht & Hf & ->)]; rewrite Ht.
  - unfold ret at 1. unfold bind, ret. now rewrite Hdeps, Hcall.
  - unfold bind at 1, lift at 1. rewrite Hf. unfold ret at 1.
    fold (merged_context context db_context).
    unfold bind, ret. now rewrite Hdeps, Hcall.
Qed.

Lemma completion_for_messages_witness :
  get_llm_response env_echo "hi" "" "be brief" "not json" JNull st_cached
  = (enhance_response_formatting "be brief",
     {| token_file := token_file st_cached; ticks := 1; requests_sent := [] |}).
Proof.
  apply (completion_for_messages env_echo st_cached _
           {| api_key := JStr "cached-token"; api_version := api_version_used;
              base_url := api_base |}
           "hi" "" "" "be brief" "not json" "be brief" JNull).
  - reflexivity.
  - left. split; reflexivity.
  - reflexivity.
Defined.

(** ** Context formatter, further *)

Lemma format_item_extends (rt : runtime) (i : nat) (item : json) (acc out : string) :
  format_item rt i item acc = Ok out -> exists text, out = acc ++ text.
Proof.
  destruct item as [| b | n | s | l | d];
    try (cbn [format_item]; intros H; inversion H;
         match goal with
         | |- exists text, acc ++ ?t = acc ++ text => exists t; reflexivity
         end).
  cbn [format_item].
  set (acc1 := match dict_get "pageTitle" d with
               | Some title => acc ++ "## " ++ format_value rt title ++ nl ++ nl
               | None => acc
               end).
  assert (H1 : exists t1, acc1 = acc ++ t1).
  { unfold acc1. destruct (dict_get "pageTitle" d) as [title|].
    - exists ("## " ++ format_value rt title ++ nl ++ nl). reflexivity.
    - exists "". now rewrite sapp_nil_r. }
  destruct H1 as (t1 & ->).
  destruct (dict_get "content" d) as [[| | | content | |]|]; try discriminate.
  - rewrite mark_fold_appends. cbn [snd]. rewrite format_other_fields_appends.
    intros H. inversion H.
    exists (t1 ++ (snd (mark_lines false (split_lines content)) ++ nl)
            ++ format_other_fields rt d "" ++ nl ++ "---" ++ nl ++ nl).
    now rewrite !sapp_assoc.
  - rewrite format_other_fields_appends.
    intros H. inversion H.
    exists (t1 ++ format_other_fields rt d "" ++ nl ++ "---" ++ nl ++ nl).
    now rewrite !sapp_assoc.
Qed.

Lemma format_items_extends (rt : runtime) (items : list json) :
  forall i acc out,
    format_items rt i items acc = Ok out -> exists text, out = acc ++ text.
Proof.
  induction items as [|item items IH]; intros i acc out; cbn [format_items].
  - intros H. inversion H. exists "". now rewrite sapp_nil_r.
  - destruct (format_item rt i item acc) as [acc1|x] eqn:E; [|discriminate].
    destruct (format_item_extends _ _ _ _ _ E) as (t1 & ->).
    intros H. destruct (IH _ _ _ H) as (t2 & ->).
    exists (t1 ++ t2). now rewrite sapp_assoc.
Qed.

(** X13.  What [format_db_data_for_llm] returns is either the empty text,
    for a payload that is false as a condition ([None], an empty list or
    dictionary, an empty text, zero, [False]), or a text that begins with the
    fixed preamble and ends with the end line and the fixed reminder. *)
Theorem format_framed (rt : runtime) (db_data : json) (out : string) :
  format_db_data_for_llm rt db_data = Ok out ->
  (truthy db_data = false /\ out = "")
  \/ (truthy db_data = true
      /\ exists middle, out = db_header ++ middle ++ db_footer ++ db_reminder).
Proof.
  unfold format_db_data_for_llm.
  remember db_header as header eqn:Hheader. clear Hheader.
  destruct (truthy db_data); cbn [negb].
  2: { intros H. injection H as <-. now left. }
  intros H. right. split; [reflexivity|].
  destruct db_data as [| b | n | s | items | d].
  - injection H as <-.
    exists ("Retrieved information:" ++ nl ++ nl ++ format_value rt JNull).
    now rewrite !sapp_assoc.
  - injection H as <-.
    exists ("Retrieved information:" ++ nl ++ nl ++ format_value rt (JBool b)).
    now rewrite !sapp_assoc.
  - injection H as <-.
    exists ("Retrieved information:" ++ nl ++ nl ++ format_value rt (JNum n)).
    now rewrite !sapp_assoc.
  - injection H as <-.
    exists ("Retrieved information:" ++ nl ++ nl ++ format_value rt (JStr s)).
    now rewrite !sapp_assoc.
  - destruct (format_items rt 0 items header) as [body|x] eqn:E; [|discriminate].
    destruct (format_items_extends _ _ _ _ _ E) as (t & ->).
    injection H as <-. exists t. now rewrite !sapp_assoc.
  - rewrite (fold_left_appends (format_field rt)
               (fun kv => "- " ++ fst kv ++ ": " ++ format_value rt (snd kv) ++ nl))
      in H by reflexivity.
    injection H as <-.
    exists (("Retrieved information:" ++ nl ++ nl) ++ fold_left (format_field rt) d "").
    now rewrite !sapp_assoc.
Qed.

Lemma format_framed_witness :
  exists middle,
    format_db_data_for_llm example_runtime (JList example_payload)
    = Ok (db_header ++ middle ++ db_footer ++ db_reminder).
Proof.
  destruct (format_framed example_runtime (JList example_payload) _ format_example)
    as [[H _] | [_ (middle & Hm)]]; [discriminate H|].
  exists middle. rewrite format_example. f_equal. exact Hm.
Defined.

Lemma content_is_text_dec (item : json) : {content_is_text item} + {~ content_is_text item}.
Proof.
  destruct item as [| b | n | s | l | d]; try (left; exact I).
  cbn. destruct (dict_get "content" d) as [[| | | s | |]|];
    (left; exact I) || (right; tauto).
Qed.

Lemma format_item_raises (rt : runtime) (i : nat) (item : json) (acc : string) :
  ~ content_is_text item -> format_item rt i item acc = Raise AttributeError.
Proof.
  destruct item as [| b | n | s | l | d]; try (intros H; now elim H).
  cbn [content_is_text format_item].
  destruct (dict_get "content" d) as [[| | | s | |]|]; intros H;
    try reflexivity; now elim H.
Qed.

Lemma format_item_exception (rt : runtime) (i : nat) (item : json) (acc : string)
  (x : exn) :
  format_item rt i item acc = Raise x -> x = AttributeError /\ ~ content_is_text item.
Proof.
  destruct (content_is_text_dec item) as [Hyes | Hno].
  - destruct (format_item_appends rt i item Hyes) as (t & Ht). rewrite Ht. discriminate.
  - rewrite (format_item_raises rt i item acc Hno). intros H. inversion H. auto.
Qed.

(** X14.  [format_db_data_for_llm] raises exactly when the payload is a list
    in which some record has a content that is not text, and the exception is
    then the one of [content.split]; on any other payload it returns. *)
Theorem format_raises_iff (rt : runtime) (db_data : json) :
  (forall x, format_db_data_for_llm rt db_data = Raise x -> x = AttributeError)
  /\ (format_db_data_for_llm rt db_data = Raise AttributeError
      <-> exists items,
          db_data = JList items /\ Exists (fun item => ~ content_is_text item) items).
Proof.
  assert (Hraise : forall items i acc x,
             format_items rt i items acc = Raise x ->
             x = AttributeError /\ Exists (fun item => ~ content_is_text item) items).
  { induction items as [|item items IH]; intros i acc x; cbn [format_items];
      [discriminate|].
    destruct (format_item rt i item acc) as [acc1|y] eqn:E.
    - intros H. destruct (IH _ _ _ H) as (-> & Hex). auto.
    - intros H. inversion H; subst.
      destruct (format_item_exception _ _ _ _ _ E) as (-> & Hno). auto. }
  assert (Hexists : forall items,
             Exists (fun item => ~ content_is_text item) items ->
             forall i acc, format_items rt i items acc = Raise AttributeError).
  { induction 1 as [item items Hno | item items _ IH]; intros i acc;
      cbn [format_items].
    - now rewrite (format_item_raises rt i item acc Hno).
    - destruct (format_item rt i item acc) as [acc1|y] eqn:E; [apply IH|].
      now destruct (format_item_exception _ _ _ _ _ E) as (-> & _). }
  assert (Hcases : forall x,
             format_db_data_for_llm rt db_data = Raise x ->
             x = AttributeError
             /\ exists items,
                 db_data = JList items
                 /\ Exists (fun item => ~ content_is_text item) items).
  { intros x. unfold format_db_data_for_llm.
    destruct (truthy db_data); cbn [negb]; [|discriminate].
    destruct db_data as [| b | n | s | items | d]; try discriminate.
    destruct (format_items rt 0 items db_header) as [body|y] eqn:E; [discriminate|].
    intros H. inversion H; subst.
    destruct (Hraise _ _ _ _ E) as (-> & Hex). split; [reflexivity|].
    exists items. auto. }
  split; [intros x H; apply (Hcases x H)|].
  split; [intros H; apply (Hcases _ H)|].
  intros (items & -> & Hex). unfold format_db_data_for_llm.
  assert (Htruthy : truthy (JList items) = true) by (destruct Hex; reflexivity).
  rewrite Htruthy. cbn [negb]. now rewrite (Hexists items Hex).
Qed.

Lemma concat_split_lines (s : string) : concat_lines (split_lines s) = s ++ nl.
Proof.
  induction s as [|c s IH]; [reflexivity|].
  cbn [split_lines]. destruct (Ascii.eqb_spec c newline) as [-> | Hc].
  - cbn [concat_lines]. rewrite IH. reflexivity.
  - pose proof (split_lines_nonempty s) as Hne.
    destruct (split_lines s) as [|l ls]; [contradiction|].
    cbn [concat_lines append] in *. now rewrite <- IH.
Qed.

Lemma mark_lines_plain (lines : list string) :
  Forall (fun line => opens_fence line = false) lines ->
  mark_lines false lines = (false, concat_lines lines).
Proof.
  induction 1 as [|line lines Hline _ IH]; [reflexivity|].
  unfold mark_lines. cbn [fold_left]. unfold mark_step at 2.
  rewrite Hline, andb_false_r. cbn [andb].
  rewrite mark_fold_appends, IH. cbn [fst snd concat_lines].
  change ("" ++ line ++ nl) with (line ++ nl). now rewrite sapp_assoc.
Qed.

(** X15.  A content in which no line opens a fence goes into the output as
    it is, in one piece and followed by a newline, with no marker: for a list
    payload whose records have text as content, the text returned holds the
    content of each such record verbatim. *)
Theorem plain_content_verbatim (rt : runtime) (items : list json) (k : nat) (d : dict)
  (content : string) :
  Forall content_is_text items ->
  nth_error items k = Some (JObj d) ->
  dict_get "content" d = Some (JStr content) ->
  Forall (fun line => opens_fence line = false) (split_lines content) ->
  exists pre post,
    format_db_data_for_llm rt (JList items) = Ok (pre ++ content ++ nl ++ nl ++ post)
    /\ snd (mark_lines false (split_lines content)) = content ++ nl.
Proof.
  intros Htyped Hk Hcontent Hplain.
  assert (Hmark : snd (mark_lines false (split_lines content)) = content ++ nl)
    by (rewrite (mark_lines_plain _ Hplain); apply concat_split_lines).
  destruct (nth_error_split items k Hk) as (l1 & l2 & -> & Hlen).
  apply Forall_app in Htyped as [Ht1 Ht2].
  apply Forall_cons_iff in Ht2 as [_ Ht2].
  destruct (format_items_appends rt l1 Ht1 0) as (t1 & H1).
  destruct (format_items_appends rt l2 Ht2 (S (0 + List.length l1))) as (t2 & H2).
  exists (db_header ++ t1
          ++ match dict_get "pageTitle" d with
             | Some t => "## " ++ format_value rt t ++ nl ++ nl
             | None => ""
             end),
    (format_other_fields rt d "" ++ nl ++ "---" ++ nl ++ nl
     ++ t2 ++ db_footer ++ db_reminder).
  split; [|exact Hmark].
  unfold format_db_data_for_llm.
  replace (truthy (JList (l1 ++ JObj d :: l2))) with true
    by (cbn; rewrite length_app; cbn; now rewrite Nat.add_succ_r).
  cbn [negb].
  assert (Hsplit : forall i acc,
             format_items rt i (l1 ++ JObj d :: l2) acc
             = match format_items rt i l1 acc with
               | Ok acc1 =>
                   match format_item rt (i + List.length l1) (JObj d) acc1 with
                   | Ok acc2 => format_items rt (S (i + List.length l1)) l2 acc2
                   | Raise x => Raise x
                   end
               | Raise x => Raise x
               end).
  { clear. induction l1 as [|a l1 IH]; intros i acc.
    - cbn [app format_items List.length]. now rewrite Nat.add_0_r.
    - cbn [app format_items List.length].
      destruct (format_item rt i a acc); [|reflexivity].
      rewrite IH. now rewrite Nat.add_succ_r. }
  rewrite Hsplit, H1. cbn [format_item]. rewrite Hcontent.
  rewrite mark_fold_appends. cbn [snd]. rewrite Hmark.
  rewrite format_other_fields_appends, H2.
  f_equal. destruct (dict_get "pageTitle" d); rewrite !sapp_assoc; reflexivity.
Qed.

Lemma plain_content_verbatim_witness :
  exists pre post,
    format_db_data_for_llm example_runtime
      (JList [JObj [("content", JStr ("two" ++ nl ++ "  lines"))]])
    = Ok (pre ++ ("two" ++ nl ++ "  lines") ++ nl ++ nl ++ post)
    /\ snd (mark_lines false (split_lines ("two" ++ nl ++ "  lines")))
       = ("two" ++ nl ++ "  lines") ++ nl.
Proof.
  apply (plain_content_verbatim example_runtime
           [JObj [("content", JStr ("two" ++ nl ++ "  lines"))]] 0
           [("content", JStr ("two" ++ nl ++ "  lines"))]).
  - repeat constructor.
  - reflexivity.
  - reflexivity.
  - repeat constructor.
Defined.

(** X16.  A fence that is opened and never closed gets its start marker and
    no end marker: the lines after the opening line are copied to the end of
    the content and the loop ends inside the block. *)
Theorem unterminated_fence_left_open (before body : list string) (opening : string) :
  fences_closed before ->
  opens_fence opening = true ->
  Forall (fun line => bare_fence line = false) body ->
  mark_lines false (before ++ opening :: body)
  = (true,
     snd (mark_lines false before)
     ++ (nl ++ "<CODE_BLOCK_START lang=" ++ dq
         ++ strip (replace "```" "" (strip opening)) ++ dq ++ ">" ++ nl)
     ++ opening ++ nl ++ concat_lines body).
Proof.
  intros Hbefore Hopen Hbody.
  unfold mark_lines at 1. rewrite fold_left_app.
  rewrite (surjective_pairing (fold_left mark_step before (false, ""))).
  fold (mark_lines false before). rewrite Hbefore.
  cbn [fold_left]. unfold mark_step at 2. rewrite Hopen. cbn [negb andb].
  rewrite mark_fold_appends, (mark_lines_body body Hbody).
  cbn [fst snd]. unfold code_block_start. now rewrite !sapp_assoc.
Qed.

Lemma unterminated_fence_left_open_witness :
  mark_lines false (["Run:"] ++ "```sh" :: ["make"; "done"])
  = (true,
     snd (mark_lines false ["Run:"])
     ++ (nl ++ "<CODE_BLOCK_START lang=" ++ dq
         ++ strip (replace "```" "" (strip "```sh")) ++ dq ++ ">" ++ nl)
     ++ "```sh" ++ nl ++ concat_lines ["make"; "done"]).
Proof.
  apply unterminated_fence_left_open; [reflexivity | reflexivity | repeat constructor].
Defined.

(** ** Response formatter, further *)

(** The two passes over list markers: [(?<!\n)^] holds at the start of the
    text only. *)
Lemma list_passes (s : string) :
  re_sub bullet_matcher (re_sub numbered_matcher s)
  = if starts_numbered s || starts_bullet s then nl ++ s else s.
Proof.
  rewrite (re_sub_start_only numbered_matcher s)
    by first [apply numbered_matcher_later | reflexivity
             | apply numbered_matcher_positive].
  unfold numbered_matcher. cbn [not_after_newline at_line_start andb].
  fold (starts_numbered s). destruct (starts_numbered s); cbn [orb].
  - rewrite sapp_assoc, take_drop.
    apply re_sub_bullet_other. reflexivity.
  - rewrite (re_sub_start_only bullet_matcher s)
      by first [apply bullet_matcher_later | reflexivity
               | apply bullet_matcher_positive].
    unfold bullet_matcher. cbn [not_after_newline at_line_start andb].
    fold (starts_bullet s). destruct (starts_bullet s); [|reflexivity].
    now rewrite sapp_assoc, take_drop.
Qed.

(** X17.  The two passes over list markers act on the start of the text
    only, since [(?<!\n)^] holds nowhere else: the formatter puts one newline
    before a text that begins with a numbered or a bullet marker and changes
    nothing otherwise, so that a marker at the start of a later line is left
    as it is. *)
Theorem list_markers_only_at_start (response : string) :
  enhance_response_formatting response
  = (if starts_numbered (emphasised response) || starts_bullet (emphasised response)
     then nl ++ emphasised response else emphasised response)
  /\ forall s,
      re_sub bullet_matcher (re_sub numbered_matcher s)
      = if starts_numbered s || starts_bullet s then nl ++ s else s.
Proof.
  split; [|exact list_passes].
  unfold enhance_response_formatting. cbv zeta.
  fold (emphasised response). apply list_passes.
Qed.



Lemma take_length (n : nat) (s : string) :
  String.length (take n s) = Nat.min n (String.length s).
Proof.
  revert s; induction n as [|n IH]; intros [|c s]; cbn; try reflexivity.
  now rewrite IH.
Qed.

Lemma drop_length (n : nat) (s : string) :
  String.length (drop n s) = String.length s - n.
Proof. revert s; induction n as [|n IH]; intros [|c s]; cbn; auto. Qed.

Lemma startswith_length (p s : string) :
  startswith p s = true -> String.length p <= String.length s.
Proof.
  revert s; induction p as [|a p IH]; intros [|b s] H; cbn in *; try lia;
    try discriminate.
  apply andb_true_iff in H as [_ H]. apply IH in H. lia.
Qed.

Lemma startswith_ci_length (p s : string) :
  startswith_ci p s = true -> String.length p <= String.length s.
Proof.
  revert s; induction p as [|a p IH]; intros [|b s] H; cbn in *; try lia;
    try discriminate.
  apply andb_true_iff in H as [_ H]. apply IH in H. lia.
Qed.

(** A matcher whose replacement is at least as long as what it matches, and
    never empty, makes no text shorter. *)
Lemma sub_scan_grows (m : matcher) :
  (forall prev t out n,
      m prev t = Some (out, n) -> 1 <= String.length out /\ n <= String.length out) ->
  forall s k prev, String.length s <= String.length (sub_scan m k prev s) + k.
Proof.
  intros Hm s. induction s as [|c s IH]; intros k prev; cbn [sub_scan String.length].
  - lia.
  - destruct k as [|k].
    + destruct (m prev (String c s)) as [[out n]|] eqn:E.
      * destruct (Hm _ _ _ _ E) as (H1 & H2).
        rewrite slength_app. specialize (IH (pred n) (Some c)). lia.
      * cbn [String.length]. specialize (IH 0 (Some c)). lia.
    + specialize (IH k (Some c)). lia.
Qed.

Ltac read_match :=
  match goal with
  | |- Some (?o, ?k) = Some (?out, ?n) -> _ =>
      let H := fresh in
      intros H;
      assert (out = o) by congruence; assert (n = k) by congruence;
      subst out n; clear H
  end.

Lemma keyword_matcher_grows (keyword : string) (prev : option ascii) (t out : string)
  (n : nat) :
  keyword_matcher keyword prev t = Some (out, n) ->
  1 <= String.length out /\ n <= String.length out.
Proof.
  unfold keyword_matcher.
  destruct (startswith_ci (keyword ++ ":") t) eqn:E; [|discriminate].
  read_match. apply startswith_ci_length in E.
  rewrite !slength_app, take_length in *. cbn [String.length] in *. lia.
Qed.

Lemma numbered_matcher_grows (prev : option ascii) (t out : string) (n : nat) :
  numbered_matcher prev t = Some (out, n) ->
  1 <= String.length out /\ n <= String.length out.
Proof.
  unfold numbered_matcher.
  match goal with |- context [if ?b then _ else _] => destruct b eqn:E end;
    [|discriminate].
  read_match.
  rewrite !andb_true_iff in E. destruct E as [[_ Hdot] _].
  apply startswith_length in Hdot. rewrite drop_length in Hdot. cbn in Hdot.
  rewrite slength_app, take_length. cbn [String.length nl]. lia.
Qed.

Lemma bullet_matcher_grows (prev : option ascii) (t out : string) (n : nat) :
  bullet_matcher prev t = Some (out, n) ->
  1 <= String.length out /\ n <= String.length out.
Proof.
  unfold bullet_matcher.
  match goal with |- context [if ?b then _ else _] => destruct b eqn:E end;
    [|discriminate].
  read_match.
  rewrite !andb_true_iff in E. destruct E as [[_ Hdash] _].
  apply startswith_length in Hdash. cbn in Hdash.
  rewrite slength_app, take_length. cbn [String.length nl]. lia.
Qed.

Lemma re_sub_grows (m : matcher) (s : string) :
  (forall prev t out n,
      m prev t = Some (out, n) -> 1 <= String.length out /\ n <= String.length out) ->
  String.length s <= String.length (re_sub m s).
Proof.
  intros Hm. pose proof (sub_scan_grows m Hm s 0 None). unfold re_sub. lia.
Qed.

(** X19.  The formatter only adds: its result is never shorter than the
    text it is given. *)
Theorem enhance_never_shortens (response : string) :
  String.length response <= String.length (enhance_response_formatting response).
Proof.
  unfold enhance_response_formatting. cbv zeta.
  etransitivity; [|apply re_sub_grows, bullet_matcher_grows].
  etransitivity; [|apply re_sub_grows, numbered_matcher_grows].
  unfold highlight_keywords, important_keywords. cbn [fold_left].
  do 5 (etransitivity; [|apply re_sub_grows, keyword_matcher_grows]).
  destruct (negb (contains "```" response) && search_code_signature response);
    [apply fence_code_size | apply Nat.le_refl].
Qed.

(** Every line of a text is a piece of the text. *)
Lemma line_is_substring (s line : string) :
  In line (split_lines s) -> exists a b, s = a ++ line ++ b.
Proof.
  revert line. induction s as [|c s IH]; intros line Hin.
  - cbn in Hin. destruct Hin as [<- | []]. exists "", "". reflexivity.
  - cbn [split_lines] in Hin. destruct (Ascii.eqb_spec c newline) as [-> | Hc].
    + destruct Hin as [<- | Hin].
      * exists "", (String newline s). reflexivity.
      * destruct (IH _ Hin) as (a & b & ->). exists (String newline a), b. reflexivity.
    + pose proof (join_split s) as Hjoin.
      destruct (split_lines s) as [|l0 ls] eqn:E;
        [now elim (split_lines_nonempty s)|].
      destruct Hin as [<- | Hin].
      * exists "". destruct ls as [|l1 ls].
        -- exists "". cbn in Hjoin. subst. cbn. now rewrite sapp_nil_r.
        -- exists (nl ++ join_lines (l1 :: ls)).
           change (join_lines (l0 :: l1 :: ls))
             with (l0 ++ nl ++ join_lines (l1 :: ls)) in Hjoin.
           now rewrite <- Hjoin.
      * destruct (IH line (or_intror Hin)) as (a & b & ->).
        exists (String c a), b. reflexivity.
Qed.

Lemma contains_app_mid (p a line b : string) :
  contains p line = true -> contains p (a ++ line ++ b) = true.
Proof.
  intros H. induction a as [|c a IH].
  - cbn [append]. induction line as [|y line IHl].
    + cbn in H. rewrite orb_false_r in H. destruct p; [|discriminate].
      destruct b; reflexivity.
    + cbn [contains] in H. apply orb_true_iff in H as [H | H].
      * change (String y line ++ b) with (String y (line ++ b)). cbn [contains].
        pose proof (startswith_app_r p (String y line) b H) as Hs.
        change (String y line ++ b) with (String y (line ++ b)) in Hs.
        now rewrite Hs.
      * change (String y line ++ b) with (String y (line ++ b)). cbn [contains].
        rewrite (IHl H). apply orb_true_r.
  - change (String c a ++ line ++ b) with (String c (a ++ line ++ b)).
    cbn [contains]. rewrite IH. apply orb_true_r.
Qed.

Lemma lines_without_fence (s : string) :
  contains "```" s = false ->
  Forall (fun line => added_fence line = false) (split_lines s).
Proof.
  intros H. apply Forall_forall. intros line Hin.
  destruct (line_is_substring s line Hin) as (a & b & ->).
  unfold added_fence.
  destruct (String.eqb_spec line "```python") as [-> | _].
  { rewrite (contains_app_mid "```" a "```python" b eq_refl) in H. discriminate. }
  destruct (String.eqb_spec line "```") as [-> | _]; [|reflexivity].
  rewrite (contains_app_mid "```" a "```" b eq_refl) in H. discriminate.
Qed.


(** The loop keeps the lines it is given, in their order, and closes every
    fence but the one it may still be in. *)
Lemma fence_fold_balanced (lines : list string) :
  Forall (fun line => added_fence line = false) lines ->
  forall b acc,
    let '(b', acc') := fold_left fence_step lines (b, acc) in
    filter (fun line => negb (added_fence line)) acc'
    = (filter (fun line => negb (added_fence line)) acc ++ lines)%list
    /\ count_occ string_dec acc' "```python" + count_occ string_dec acc "```" + flag b
       = count_occ string_dec acc' "```" + count_occ string_dec acc "```python"
         + flag b'.
Proof.
  induction 1 as [|line lines Hline Hrest IH]; intros b acc.
  - cbn [fold_left]. rewrite app_nil_r. split; [reflexivity | lia].
  - cbn [fold_left].
    assert (Hl1 : line <> "```python")
      by (intros ->; discriminate Hline).
    assert (Hl2 : line <> "```")
      by (intros ->; unfold added_fence in Hline; cbn in Hline; discriminate Hline).
    unfold fence_step at 2.
    destruct (code_signature (strip line) && negb b) eqn:E1.
    + specialize (IH true ((acc ++ ["```python"]) ++ [line])%list).
      destruct (fold_left fence_step lines (true, ((acc ++ ["```python"]) ++ [line])%list))
        as [b' acc'].
      destruct IH as (IH1 & IH2). split.
      * rewrite IH1, !filter_app. cbn [filter added_fence]. rewrite Hline.
        cbn. rewrite <- !app_assoc. reflexivity.
      * rewrite !count_occ_app in IH2. cbn [count_occ] in IH2.
        destruct (string_dec line "```python"); [contradiction|].
        destruct (string_dec line "```"); [contradiction|].
        apply andb_true_iff in E1 as [_ Hb]. apply negb_true_iff in Hb. subst b.
        cbn in IH2 |- *. lia.
    + destruct (b && String.eqb (strip line) "" && Nat.ltb 0 (List.length acc)) eqn:E2.
      * specialize (IH false ((acc ++ ["```"]) ++ [line])%list).
        destruct (fold_left fence_step lines (false, ((acc ++ ["```"]) ++ [line])%list))
          as [b' acc'].
        destruct IH as (IH1 & IH2). split.
        -- rewrite IH1, !filter_app. cbn [filter added_fence]. rewrite Hline.
           cbn. rewrite <- !app_assoc. reflexivity.
        -- rewrite !count_occ_app in IH2. cbn [count_occ] in IH2.
           destruct (string_dec line "```python"); [contradiction|].
           destruct (string_dec line "```"); [contradiction|].
           rewrite !andb_true_iff in E2. destruct E2 as [[Hb _] _]. subst b.
           cbn in IH2 |- *. lia.
      * specialize (IH b (acc ++ [line])%list).
        destruct (fold_left fence_step lines (b, (acc ++ [line])%list)) as [b' acc'].
        destruct IH as (IH1 & IH2). split.
        -- rewrite IH1, !filter_app. cbn [filter]. rewrite Hline.
           cbn. rewrite <- !app_assoc. reflexivity.
        -- rewrite !count_occ_app in IH2. cbn [count_occ] in IH2.
           destruct (string_dec line "```python"); [contradiction|].
           destruct (string_dec line "```"); [contradiction|].
           cbn in IH2 |- *. lia.
Qed.

(** X20.  On a text without a fence marker, the fencing of code keeps every
    line of the text in its place and only adds fence lines, and the fences
    it adds are balanced: as many closing lines as opening lines. *)
Theorem fence_code_balanced (response : string) :
  contains "```" response = false ->
  fence_code response = join_lines (formatted_lines response)
  /\ filter (fun line => negb (added_fence line)) (formatted_lines response)
     = split_lines response
  /\ count_occ string_dec (formatted_lines response) "```python"
     = count_occ string_dec (formatted_lines response) "```".
Proof.
  intros Hfree. split.
  { unfold fence_code, formatted_lines.
    destruct (fold_left fence_step (split_lines response) (false, []));
      reflexivity. }
  pose proof (fence_fold_balanced _ (lines_without_fence _ Hfree) false []) as H.
  unfold formatted_lines.
  destruct (fold_left fence_step (split_lines response) (false, [])) as [b acc].
  destruct H as (H1 & H2). cbn [filter app count_occ flag] in H1, H2.
  destruct b.
  - rewrite filter_app, count_occ_app, count_occ_app. cbn. rewrite app_nil_r.
    split; [exact H1 | cbn in H2; lia].
  - split; [exact H1 | cbn in H2; lia].
Qed.

Lemma fence_code_balanced_witness :
  filter (fun line => negb (added_fence line))
    (formatted_lines ("Try:" ++ nl ++ "def f(x):" ++ nl ++ "  return x"))
  = split_lines ("Try:" ++ nl ++ "def f(x):" ++ nl ++ "  return x")
  /\ count_occ string_dec
       (formatted_lines ("Try:" ++ nl ++ "def f(x):" ++ nl ++ "  return x")) "```python"
     = count_occ string_dec
         (formatted_lines ("Try:" ++ nl ++ "def f(x):" ++ nl ++ "  return x")) "```".
Proof.
  apply (fence_code_balanced ("Try:" ++ nl ++ "def f(x):" ++ nl ++ "  return x")).
  vm_compute. reflexivity.
Defined.

(** ** Command line *)

Lemma span_then_skip (p : ascii -> bool) (t : string) :
  drop (String.length (span_class p t)) t = skip_class p t.
Proof.
  induction t as [|c t IH]; [reflexivity|].
  cbn [span_class skip_class]. destruct (p c); [exact IH | reflexivity].
Qed.

Lemma skip_not_gt (t : string) :
  contains ">" t = false -> skip_class not_closing t = "".
Proof.
  induction t as [|c t IH]; intros H; [reflexivity|].
  cbn [contains] in H. apply orb_false_iff in H as [H1 H2].
  cbn [startswith] in H1. rewrite andb_true_r in H1.
  cbn [skip_class]. unfold not_closing at 1. rewrite Ascii.eqb_sym, H1. cbn [negb].
  exact (IH H2).
Qed.

Lemma skip_not_gt_found (t : string) :
  contains ">" t = true -> startswith ">" (skip_class not_closing t) = true.
Proof.
  induction t as [|c t IH]; intros H; [discriminate|].
  cbn [contains] in H. cbn [startswith] in H. rewrite andb_true_r in H.
  cbn [skip_class]. unfold not_closing at 1. rewrite Ascii.eqb_sym.
  destruct (Ascii.eqb ">" c) eqn:E; cbn [negb].
  - cbn [startswith]. now rewrite E.
  - cbn [orb] in H. exact (IH H).
Qed.

(** At a [<] the pattern matches exactly when a [>] follows, and it then
    matches up to the first one. *)
Lemma tag_matcher_at_lt (prev : option ascii) (t : string) :
  tag_matcher prev (String "<" t)
  = if contains ">" t
    then Some ("", 2 + String.length (span_class not_closing t)) else None.
Proof.
  unfold tag_matcher. cbv zeta.
  change (startswith "<" (String "<" t)) with true. cbv iota.
  change (drop 1 (String "<" t)) with t.
  change (drop (1 + String.length (span_class not_closing t)) (String "<" t))
    with (drop (String.length (span_class not_closing t)) t).
  rewrite span_then_skip.
  destruct (contains ">" t) eqn:E.
  - now rewrite (skip_not_gt_found t E).
  - now rewrite (skip_not_gt t E).
Qed.

Lemma tag_matcher_elsewhere (prev : option ascii) (c : ascii) (t : string) :
  Ascii.eqb "<" c = false -> tag_matcher prev (String c t) = None.
Proof. intros H. unfold tag_matcher. cbn [startswith]. now rewrite H. Qed.

Lemma tag_matcher_empty (prev : option ascii) : tag_matcher prev "" = None.
Proof. reflexivity. Qed.

Lemma strip_without_gt (t : string) :
  contains ">" t = false -> forall prev, sub_scan tag_matcher 0 prev t = t.
Proof.
  induction t as [|c t IH]; intros H prev; [reflexivity|].
  assert (Ht : contains ">" t = false).
  { cbn [contains] in H. now apply orb_false_iff in H as [_ H]. }
  cbn [sub_scan].
  destruct (Ascii.eqb "<" c) eqn:E.
  - apply Ascii.eqb_eq in E. subst c. rewrite tag_matcher_at_lt, Ht.
    now rewrite (IH Ht).
  - rewrite (tag_matcher_elsewhere prev c t E). now rewrite (IH Ht).
Qed.

Lemma has_tag_without_gt (t : string) : contains ">" t = false -> has_tag t = false.
Proof.
  induction t as [|c t IH]; intros H; [reflexivity|].
  assert (Ht : contains ">" t = false).
  { cbn [contains] in H. now apply orb_false_iff in H as [_ H]. }
  cbn [has_tag].
  destruct (Ascii.eqb "<" c) eqn:E.
  - apply Ascii.eqb_eq in E. subst c. rewrite tag_matcher_at_lt, Ht. exact (IH Ht).
  - rewrite (tag_matcher_elsewhere None c t E). exact (IH Ht).
Qed.

Lemma sub_scan_tag_free (s : string) :
  forall k prev, has_tag (sub_scan tag_matcher k prev s) = false.
Proof.
  induction s as [|c s IH]; intros k prev; [reflexivity|].
  cbn [sub_scan]. destruct k as [|k]; [|apply IH].
  destruct (Ascii.eqb "<" c) eqn:E.
  - apply Ascii.eqb_eq in E. subst c. rewrite tag_matcher_at_lt.
    destruct (contains ">" s) eqn:Hgt.
    + cbn [append]. apply IH.
    + rewrite (strip_without_gt s Hgt).
      apply (has_tag_without_gt (String "<" s)).
      cbn [contains startswith]. now rewrite Hgt.
  - rewrite (tag_matcher_elsewhere prev c s E).
    cbn [has_tag]. rewrite (tag_matcher_elsewhere None c _ E). apply IH.
Qed.

Lemma strip_tag_free (t : string) :
  has_tag t = false -> forall prev, sub_scan tag_matcher 0 prev t = t.
Proof.
  induction t as [|c t IH]; intros H prev; [reflexivity|].
  cbn [has_tag] in H. cbn [sub_scan].
  destruct (Ascii.eqb "<" c) eqn:E.
  - apply Ascii.eqb_eq in E. subst c. rewrite tag_matcher_at_lt in *.
    destruct (contains ">" t); [discriminate|]. now rewrite (IH H).
  - rewrite (tag_matcher_elsewhere prev c t E).
    rewrite (tag_matcher_elsewhere None c t E) in H. now rewrite (IH H).
Qed.

(** X21.  What [strip_tags] returns holds no [<...>] any more, whatever the
    text, and stripping it again changes nothing. *)
Theorem strip_tags_clean (response : string) :
  has_tag (strip_tags response) = false
  /\ strip_tags (strip_tags response) = strip_tags response.
Proof.
  assert (H : has_tag (strip_tags response) = false) by apply sub_scan_tag_free.
  split; [exact H|]. apply (strip_tag_free _ H).
Qed.




(** The empty completion of the example is printed as the fixed error text. *)
Example main_replaces_empty_answer :
  fst (main env_silent ["llm_client.py"; "What is AVOS?"] st_cached)
  = ([invalid_response], 0%Z).
Proof. vm_compute. reflexivity. Qed.

(** ** Default system prompt *)

Lemma span_without (x : ascii) (s : string) :
  contains (String x "") s = false -> span_class (not_char x) s = s.
Proof.
  induction s as [|c s IH]; intros H; [reflexivity|].
  cbn [contains] in H. apply orb_false_iff in H as [H1 H2].
  cbn [startswith] in H1. rewrite andb_true_r in H1.
  cbn [span_class]. unfold not_char at 1. rewrite Ascii.eqb_sym, H1. cbn [negb].
  now rewrite (IH H2).
Qed.

Lemma span_app (p : ascii -> bool) (u v : string) :
  span_class p u = u -> span_class p (u ++ v) = u ++ span_class p v.
Proof.
  induction u as [|c u IH]; intros H; [reflexivity|].
  cbn [span_class append] in *. destruct (p c); [|discriminate].
  injection H as H. now rewrite (IH H).
Qed.

Lemma startswith_decompose (p s : string) :
  startswith p s = true -> s = p ++ drop (String.length p) s.
Proof.
  revert s; induction p as [|a p IH]; intros [|b s] H; cbn in *; try reflexivity;
    try discriminate.
  apply andb_true_iff in H as [H1 H2]. apply Ascii.eqb_eq in H1. subst.
  now rewrite <- (IH _ H2).
Qed.

Lemma startswith_self (p t : string) : startswith p (p ++ t) = true.
Proof.
  induction p as [|a p IH]; cbn; [reflexivity|].
  now rewrite Ascii.eqb_refl, IH.
Qed.

(** The marker ends with the only backtick it holds, so it cannot begin
    inside a text without backticks that is followed by the marker. *)
Lemma marker_not_earlier (a r : string) :
  a <> "" -> contains "`" a = false ->
  startswith "DEFAULT_LLM_PROMPT = `" (a ++ "DEFAULT_LLM_PROMPT = `" ++ r) = false.
Proof.
  intros Hne Ha.
  destruct (startswith "DEFAULT_LLM_PROMPT = `" (a ++ "DEFAULT_LLM_PROMPT = `" ++ r))
    eqn:E; [|reflexivity].
  exfalso. apply Hne.
  apply startswith_decompose in E.
  apply (f_equal (span_class (not_char "`"))) in E.
  change ("DEFAULT_LLM_PROMPT = `" ++ r)
    with ("DEFAULT_LLM_PROMPT = " ++ String "`" r) in E.
  rewrite (span_app _ a _ (span_without "`" a Ha)) in E.
  rewrite (span_app (not_char "`") "DEFAULT_LLM_PROMPT = " (String "`" r) eq_refl) in E.
  change ("DEFAULT_LLM_PROMPT = `" ++ ?t)
    with ("DEFAULT_LLM_PROMPT = " ++ String "`" t) in E.
  match type of E with
  | _ = span_class _ (_ ++ String "`" ?t) =>
      rewrite (span_app (not_char "`") "DEFAULT_LLM_PROMPT = " (String "`" t) eq_refl) in E
  end.
  cbn [span_class not_char Ascii.eqb Bool.eqb negb] in E.
  apply (f_equal String.length) in E. rewrite !slength_app in E. cbn in E.
  destruct a; [reflexivity | cbn in E; lia].
Qed.

Lemma find_marker (pre r : string) (i : nat) :
  contains "`" pre = false ->
  find_from "DEFAULT_LLM_PROMPT = `" (pre ++ "DEFAULT_LLM_PROMPT = `" ++ r) i
  = Some (i + String.length pre).
Proof.
  revert i. induction pre as [|c pre IH]; intros i H.
  - cbn [append String.length]. rewrite Nat.add_0_r.
    destruct r; reflexivity.
  - assert (Hpre : contains "`" pre = false).
    { cbn [contains] in H. now apply orb_false_iff in H as [_ H]. }
    pose proof (marker_not_earlier (String c pre) r ltac:(discriminate) H) as Hno.
    change (String c pre ++ "DEFAULT_LLM_PROMPT = `" ++ r)
      with (String c (pre ++ "DEFAULT_LLM_PROMPT = `" ++ r)) in *.
    cbn [find_from]. rewrite Hno, (IH (S i) Hpre). cbn [String.length].
    f_equal. lia.
Qed.

Lemma find_terminator (body post : string) (i : nat) :
  contains "`;" body = false ->
  find_from "`;" (body ++ "`;" ++ post) i = Some (i + String.length body).
Proof.
  revert i. induction body as [|c body IH]; intros i H.
  - cbn [append String.length]. rewrite Nat.add_0_r. reflexivity.
  - cbn [contains] in H. apply orb_false_iff in H as [H1 H2].
    change (String c body ++ "`;" ++ post) with (String c (body ++ "`;" ++ post)).
    assert (Hno : startswith "`;" (String c (body ++ "`;" ++ post)) = false).
    { destruct body as [|d body].
      - cbn. apply andb_false_r.
      - exact H1. }
    cbn [find_from]. rewrite Hno, (IH (S i) H2). cbn [String.length].
    f_equal. lia.
Qed.

Lemma find_from_absent (sub s : string) (i : nat) :
  contains sub s = false -> find_from sub s i = None.
Proof.
  revert i. induction s as [|c s IH]; intros i H; cbn [contains] in H;
    apply orb_false_iff in H as [H1 H2]; cbn [find_from]; rewrite H1;
    [reflexivity | exact (IH _ H2)].
Qed.

(** X23.  When the configuration file holds the marker
    [DEFAULT_LLM_PROMPT = `] after a text without backticks, the default
    system prompt is what stands between the marker and the next [`;],
    whatever comes after. *)
Theorem default_prompt_extracted (e : env) (pre body post : string) :
  prompts_js e = Content (pre ++ "DEFAULT_LLM_PROMPT = `" ++ body ++ "`;" ++ post) ->
  contains "`" pre = false ->
  contains "`;" body = false ->
  get_default_system_prompt e = body.
Proof.
  intros Hfile Hpre Hbody. unfold get_default_system_prompt. rewrite Hfile.
  cbv zeta.
  set (content := pre ++ "DEFAULT_LLM_PROMPT = `" ++ body ++ "`;" ++ post).
  assert (Hstart : find "DEFAULT_LLM_PROMPT = `" content 0
                   = Z.of_nat (String.length pre)).
  { unfold find. cbn [Nat.leb drop]. unfold content.
    now rewrite (find_marker pre _ 0 Hpre). }
  rewrite Hstart.
  replace (Z.of_nat (String.length pre)
           + Z.of_nat (String.length "DEFAULT_LLM_PROMPT = `"))%Z
    with (Z.of_nat (String.length pre + 22)) by (cbn [String.length]; lia).
  rewrite Nat2Z.id.
  assert (Hdrop : drop (String.length pre + 22) content = body ++ "`;" ++ post).
  { unfold content.
    replace (String.length pre + 22)
      with (String.length (pre ++ "DEFAULT_LLM_PROMPT = `"))
      by (rewrite slength_app; reflexivity).
    rewrite <- sapp_assoc. apply drop_app_length. }
  assert (Hend : find "`;" content (String.length pre + 22)
                 = Z.of_nat (String.length pre + 22 + String.length body)).
  { unfold find. rewrite Hdrop, (find_terminator body post _ Hbody).
    replace (Nat.leb (String.length pre + 22) (String.length content)) with true;
      [reflexivity|].
    symmetry. apply Nat.leb_le. unfold content. rewrite !slength_app. cbn. lia. }
  rewrite Hend.
  replace (Z.ltb 0 (Z.of_nat (String.length pre + 22))) with true
    by (symmetry; apply Z.ltb_lt; lia).
  replace (Z.ltb 0 (Z.of_nat (String.length pre + 22 + String.length body))) with true
    by (symmetry; apply Z.ltb_lt; lia).
  cbn [andb safe_response]. rewrite Nat2Z.id. unfold slice. rewrite Hdrop.
  replace (String.length pre + 22 + String.length body - (String.length pre + 22))
    with (String.length body) by lia.
  apply take_app_length.
Qed.

Lemma default_prompt_extracted_witness :
  get_default_system_prompt (env_with_prompts prompts_file) = "You are brief.".
Proof.
  apply (default_prompt_extracted (env_with_prompts prompts_file) "const "
           "You are brief." (nl ++ "module.exports = {};")); reflexivity.
Defined.

(** X24.  The test [start > 0] never fails: when the file does not hold the
    marker, [find] answers -1 and the search of [`;] starts at offset 21, so
    a file with a [`;] from there on gives the text between offset 21 and
    that [`;] as the prompt, and only a file without one gives the built-in
    prompt. *)
Theorem default_prompt_without_marker (e : env) (content : string) :
  prompts_js e = Content content ->
  contains "DEFAULT_LLM_PROMPT = `" content = false ->
  (forall a b post,
      content = a ++ b ++ "`;" ++ post ->
      String.length a = 21 ->
      contains "`;" b = false ->
      get_default_system_prompt e = b)
  /\ (contains "`;" (drop 21 content) = false ->
      get_default_system_prompt e = fallback_prompt).
Proof.
  intros Hfile Hno. unfold get_default_system_prompt. rewrite Hfile. cbv zeta.
  assert (Hstart : find "DEFAULT_LLM_PROMPT = `" content 0 = (-1)%Z).
  { unfold find. cbn [Nat.leb drop]. now rewrite (find_from_absent _ _ 0 Hno). }
  rewrite Hstart.
  change (Z.to_nat (-1 + Z.of_nat (String.length "DEFAULT_LLM_PROMPT = `"))) with 21.
  change (Z.ltb 0 (-1 + Z.of_nat (String.length "DEFAULT_LLM_PROMPT = `"))) with true.
  cbn [andb]. split.
  - intros a b post -> Ha Hb.
    assert (Hdrop : drop 21 (a ++ b ++ "`;" ++ post) = b ++ "`;" ++ post)
      by (rewrite <- Ha; apply drop_app_length).
    assert (Hend : find "`;" (a ++ b ++ "`;" ++ post) 21
                   = Z.of_nat (21 + String.length b)).
    { unfold find. rewrite Hdrop, (find_terminator b post _ Hb).
      replace (Nat.leb 21 (String.length (a ++ b ++ "`;" ++ post))) with true;
        [reflexivity|].
      symmetry. apply Nat.leb_le. rewrite !slength_app. lia. }
    rewrite Hend.
    replace (Z.ltb 0 (Z.of_nat (21 + String.length b))) with true
      by (symmetry; apply Z.ltb_lt; lia).
    cbn [safe_response]. rewrite Nat2Z.id. unfold slice. rewrite Hdrop.
    replace (21 + String.length b - 21) with (String.length b) by lia.
    apply take_app_length.
  - intros Hnone.
    assert (Hend : find "`;" content 21 = (-1)%Z).
    { unfold find. destruct (Nat.leb 21 (String.length content)); [|reflexivity].
      now rewrite (find_from_absent _ _ 21 Hnone). }
    rewrite Hend. reflexivity.
Qed.

Lemma default_prompt_without_marker_witness :
  get_default_system_prompt
    (env_with_prompts ("// prompts moved away" ++ "const x = `hi" ++ "`;" ++ ""))
  = "const x = `hi"
  /\ get_default_system_prompt (env_with_prompts "// nothing here") = fallback_prompt.
Proof.
  split.
  - apply (proj1 (default_prompt_without_marker
                    (env_with_prompts
                       ("// prompts moved away" ++ "const x = `hi" ++ "`;" ++ ""))
                    _ eq_refl eq_refl) "// prompts moved away" "const x = `hi" "");
      reflexivity.
  - apply (proj2 (default_prompt_without_marker (env_with_prompts "// nothing here")
                    _ eq_refl eq_refl)).
    reflexivity.
Defined.
